(** * tradervue.py: the TraderVue REST client, embedded and verified

    A shallow embedding of [src/tradervue.py].  Python values are a small
    inductive type, the HTTP exchange is a trace of requests answered by a
    server function, and every method of the client is a function in a
    state-and-exception monad over that trace, the log and the sleeps.
    Caller-owned objects that the client mutates live in a store of
    locations, so that aliasing is visible. *)

From Stdlib Require Import ZArith List String Ascii Bool Lia DecimalString.
Import ListNotations.
Open Scope string_scope.
Open Scope Z_scope.
Set Warnings "-register-all".

(** * Python values *)

(** The values json.loads produces and json.dumps accepts.  A float is kept
    as its literal: no operation of the client computes with one. *)
Inductive pyval : Type :=
| PNone
| PBool (b : bool)
| PInt (z : Z)
| PFloat (literal : string)
| PStr (s : string)
| PList (l : list pyval)
| PDict (d : list (string * pyval)).

(** A dict keeps insertion order, as Python dicts do. *)
Definition dict := list (string * pyval).

Fixpoint dict_get (k : string) (d : dict) : option pyval :=
  match d with
  | [] => None
  | (k', v) :: d' => if String.eqb k k' then Some v else dict_get k d'
  end.

(** [d[k] = v]: overwrite in place when the key exists, append otherwise. *)
Fixpoint dict_set (k : string) (v : pyval) (d : dict) : dict :=
  match d with
  | [] => [(k, v)]
  | (k', v') :: d' =>
      if String.eqb k k' then (k', v) :: d' else (k', v') :: dict_set k v d'
  end.

Definition dict_has (k : string) (d : dict) : bool :=
  match dict_get k d with
  | Some _ => true
  | None => false
  end.

(** Exceptions the client can raise or let escape. *)
Inductive exn : Type :=
| ValueError (msg : string)
| TypeError (msg : string)
| KeyError (key : string)
| IndexError (msg : string)
| AttributeError (msg : string)
| UnboundLocalError (name : string)
| OverflowError (msg : string).

Inductive outcome (A : Type) : Type :=
| Ret (a : A)
| Raise (e : exn).
Arguments Ret {A} a.
Arguments Raise {A} e.

(** [s == v] for a str [s]: only an equal str compares equal. *)
Definition str_eq (s : string) (v : pyval) : bool :=
  match v with
  | PStr s' => String.eqb s s'
  | _ => false
  end.

(** [v in [s1, s2, ...]] for a list of str literals. *)
Definition in_strs (v : pyval) (l : list string) : bool :=
  existsb (fun s => str_eq s v) l.

Definition is_substring (k s : string) : bool :=
  match index 0 k s with
  | Some _ => true
  | None => false
  end.

(** [k in c] for a str [k]: key test on a dict, element test on a list,
    substring test on a str, TypeError on anything else. *)
Definition py_contains (k : string) (c : pyval) : outcome bool :=
  match c with
  | PDict d => Ret (dict_has k d)
  | PList l => Ret (existsb (str_eq k) l)
  | PStr s => Ret (is_substring k s)
  | _ => Raise (TypeError "argument is not iterable")
  end.

(** [c[k]] for a str [k]. *)
Definition py_getitem (c : pyval) (k : string) : outcome pyval :=
  match c with
  | PDict d =>
      match dict_get k d with
      | Some v => Ret v
      | None => Raise (KeyError k)
      end
  | PList _ => Raise (TypeError "list indices must be integers or slices, not str")
  | PStr _ => Raise (TypeError "string indices must be integers")
  | _ => Raise (TypeError "object is not subscriptable")
  end.

(** [len(c)]. *)
Definition py_len (c : pyval) : outcome Z :=
  match c with
  | PDict d => Ret (Z.of_nat (List.length d))
  | PList l => Ret (Z.of_nat (List.length l))
  | PStr s => Ret (Z.of_nat (String.length s))
  | _ => Raise (TypeError "object has no len()")
  end.

Fixpoint chars (s : string) : list pyval :=
  match s with
  | EmptyString => []
  | String c s' => PStr (String c EmptyString) :: chars s'
  end.

(** The items [list.extend(c)] appends: the elements of a list, the
    characters of a str, the keys of a dict. *)
Definition py_iter (c : pyval) : outcome (list pyval) :=
  match c with
  | PList l => Ret l
  | PStr s => Ret (chars s)
  | PDict d => Ret (map (fun kv => PStr (fst kv)) d)
  | _ => Raise (TypeError "object is not iterable")
  end.

Definition is_list (c : pyval) : bool :=
  match c with
  | PList _ => true
  | _ => false
  end.

(** [c.append(x)]. *)
Definition py_append (c : pyval) (x : pyval) : outcome pyval :=
  match c with
  | PList l => Ret (PList (l ++ [x]))
  | _ => Raise (AttributeError "object has no attribute append")
  end.

(** copy.deepcopy: values are trees, so a deep copy is the value itself,
    detached from the store it was read from. *)
Definition deepcopy (v : pyval) : pyval := v.

(** ['/'.join(parts)]. *)
Fixpoint join (sep : string) (parts : list string) : string :=
  match parts with
  | [] => EmptyString
  | [p] => p
  | p :: rest => p ++ sep ++ join sep rest
  end.

(** [str(n)] for an int. *)
Definition str_of_int (z : Z) : string := NilZero.string_of_int (Z.to_int z).

(** * Floats

    A Python float is an IEEE 754 binary64 number.  The positive finite
    ones are the numbers [significand * 2 ^ exponent]; the page count of
    [get_trades] is computed on them. *)

Record float : Type := { significand : Z; exponent : Z }.

(** The fraction [p / (q * 2 ^ e)], as numerator and denominator. *)
Definition scaled (p q e : Z) : Z * Z :=
  if e <? 0 then (p * 2 ^ (- e), q) else (p, q * 2 ^ e).

(** The integer nearest to [n / d], a tie going to the even one. *)
Definition nearest_even (n d : Z) : Z :=
  let m := n / d in
  let r := n mod d in
  if 2 * r <? d then m
  else if d <? 2 * r then m + 1
  else if Z.even m then m else m + 1.

(** The float nearest to [p / q], for [p] and [q] positive: the exponent
    is the one that gives the significand 53 bits, and the significand is
    rounded to nearest, ties to even. *)
Definition round_to_float (p q : Z) : float :=
  let e0 := Z.log2 p - Z.log2 q - 52 in
  let e := if fst (scaled p q e0) / snd (scaled p q e0) <? 2 ^ 52 then e0 - 1 else e0 in
  {| significand := nearest_even (fst (scaled p q e)) (snd (scaled p q e));
     exponent := e |}.

(** The finite floats are below 2^1024. *)
Definition overflows (x : float) : bool :=
  2 ^ 1024 <=? significand x * 2 ^ exponent x.

(** The conversion of a positive int to a float, which [n / 100.0] starts
    with. *)
Definition float_of_int (n : Z) : outcome float :=
  let x := round_to_float n 1 in
  if overflows x then Raise (OverflowError "int too large to convert to float")
  else Ret x.

(** [x / y] for positive floats. *)
Definition float_div (x y : float) : float :=
  let e := exponent x - exponent y in
  if e <? 0 then round_to_float (significand x) (significand y * 2 ^ (- e))
  else round_to_float (significand x * 2 ^ e) (significand y).

(** The literal 100.0. *)
Definition hundred : float := {| significand := 100; exponent := 0 |}.

(** [int(math.ceil(x))]. *)
Definition math_ceil (x : float) : Z :=
  if exponent x <? 0 then - ((- significand x) / 2 ^ (- exponent x))
  else significand x * 2 ^ exponent x.

(** * The world the client acts on *)

Inductive Method : Type := GET | PUT | POST | DELETE.

(** What one call of requests.get / put / post / delete is given.
    [req_data] is the payload before json.dumps (the verbose log shows the
    same value), [None] when no body is sent. *)
Record Request : Type := {
  method : Method;
  req_url : string;
  req_headers : list (string * string);
  req_auth : string * string;
  req_data : option pyval;
  req_params : option pyval
}.

(** What it returns.  [json_of_text] is the value json.loads(r.text)
    evaluates to, [None] when it raises ValueError. *)
Record Response : Type := {
  status_code : Z;
  text : string;
  resp_url : string;
  resp_headers : list (string * string);
  json_of_text : option pyval
}.

Inductive Level : Type := DEBUG | INFO | WARNING | ERROR.

(** A log call: the format string and the values it is applied to. *)
Record LogRecord : Type := {
  level : Level;
  fmt : string;
  args : list pyval
}.

(** Requests sent, records logged and seconds slept, most recent first. *)
Record World : Type := {
  sent : list Request;
  log : list LogRecord;
  slept : list Z
}.

Definition no_history : World := {| sent := []; log := []; slept := [] |}.

(** * State and exceptions *)

(** A computation over a state [S] that returns or raises. *)
Definition ST (S A : Type) : Type := S -> outcome A * S.

Definition ret {S A} (a : A) : ST S A := fun s => (Ret a, s).

Definition raise {S A} (e : exn) : ST S A := fun s => (Raise e, s).

Definition bind {S A B} (m : ST S A) (k : A -> ST S B) : ST S B :=
  fun s =>
    match m s with
    | (Ret a, s') => k a s'
    | (Raise e, s') => (Raise e, s')
    end.

Notation "x <- m ;; k" := (bind m (fun x => k))
  (at level 61, m at next level, right associativity).
Notation "m ;; k" := (bind m (fun _ => k))
  (at level 61, right associativity).

Definition lift {S A} (o : outcome A) : ST S A := fun s => (o, s).

(** The methods of the client run over the world. *)
Definition M (A : Type) : Type := ST World A.

(** [try: m  except ValueError: h]. *)
Definition try_except_ValueError {S A} (m : ST S A) (h : ST S A) : ST S A :=
  fun s =>
    match m s with
    | (Raise (ValueError _), s') => h s'
    | r => r
    end.

Definition log_at (lv : Level) (f : string) (a : list pyval) : M unit :=
  fun w =>
    (Ret tt, {| sent := sent w;
                log := {| level := lv; fmt := f; args := a |} :: log w;
                slept := slept w |}).

Definition log_debug := log_at DEBUG.
Definition log_warning := log_at WARNING.
Definition log_error := log_at ERROR.

(** time.sleep: a negative length raises ValueError. *)
Definition sleep (secs : Z) : M unit :=
  fun w =>
    if secs <? 0 then (Raise (ValueError "sleep length must be non-negative"), w)
    else (Ret tt, {| sent := sent w; log := log w; slept := secs :: slept w |}).

(** Reading a local variable of a function: a name the function assigns
    somewhere, read before any assignment ran, raises UnboundLocalError. *)
Definition read_local {S A} (name : string) (value : option A) : ST S A :=
  match value with
  | Some v => ret v
  | None => raise (UnboundLocalError name)
  end.

(** colorama's Fore.GREEN and Fore.RESET. *)
Definition Fore_GREEN : string := String (ascii_of_nat 27) "[32m".
Definition Fore_RESET : string := String (ascii_of_nat 27) "[39m".

Definition opt_val (o : option pyval) : pyval :=
  match o with
  | Some v => v
  | None => PNone
  end.

Definition headers_val (h : list (string * string)) : pyval :=
  PDict (map (fun kv => (fst kv, PStr (snd kv))) h).

(** * The client *)

Record TraderVue : Type := {
  username : string;
  password : string;
  user_agent : string;
  target_user : option string;
  baseurl : string;
  verbose_http : bool
}.

(** [TraderVue.__init__]. *)
Definition TraderVue_init (username password user_agent : string)
    (target_user : option string) (baseurl : string) (verbose_http : bool)
    : TraderVue :=
  {| username := username;
     password := password;
     user_agent := user_agent;
     target_user := target_user;
     baseurl := join "/" [baseurl; "api"; "v1"];
     verbose_http := verbose_http |}.

(** The same client with the verbose_http switch set to [b]. *)
Definition with_verbose (b : bool) (c : TraderVue) : TraderVue :=
  {| username := username c;
     password := password c;
     user_agent := user_agent c;
     target_user := target_user c;
     baseurl := baseurl c;
     verbose_http := b |}.

(** A trade id: the methods apply str() to it before use. *)
Inductive trade_ident : Type :=
| IdInt (z : Z)
| IdStr (s : string).

Definition py_str (t : trade_ident) : string :=
  match t with
  | IdInt z => str_of_int z
  | IdStr s => s
  end.

(** * Caller-owned objects *)

(** The objects a caller passes by reference: a location names an object,
    and two arguments are the same object when they are the same location. *)
Definition loc : Type := nat.
Definition Heap : Type := loc -> pyval.

Definition store (l : loc) (v : pyval) (h : Heap) : Heap :=
  fun l' => if Nat.eqb l' l then v else h l'.

(** What the local variable [tags] of [import_executions] refers to: None,
    the list object the caller passed, or a list the method created itself
    (which no caller holds, so it lives outside the store). *)
Inductive tags_var : Type :=
| NoTags
| CallerObject (l : loc)
| OwnList (v : pyval).

Definition deref (t : tags_var) : ST Heap pyval :=
  fun h =>
    match t with
    | NoTags => (Ret PNone, h)
    | CallerObject l => (Ret (h l), h)
    | OwnList v => (Ret v, h)
    end.

(** [tags.append(x)]: in place, on whichever object [tags] refers to. *)
Definition append_to (t : tags_var) (x : pyval) : ST Heap tags_var :=
  fun h =>
    match t with
    | NoTags => (Raise (AttributeError "NoneType object has no attribute append"), h)
    | CallerObject l =>
        match py_append (h l) x with
        | Ret v => (Ret t, store l v h)
        | Raise e => (Raise e, h)
        end
    | OwnList v =>
        match py_append v x with
        | Ret v' => (Ret (OwnList v'), h)
        | Raise e => (Raise e, h)
        end
    end.

(** Lines 306-322 of [import_executions]: validation, then the batch
    [data] that is handed to [__import_executions]. *)
Definition import_batch (executions : loc) (account_tag : option string)
    (tags : option loc) (allow_duplicates overlay_commissions : bool)
    : ST Heap pyval :=
  n <- (fun h => (py_len (h executions), h)) ;;
  (if n =? 0 then
     raise (ValueError "Found 0 executions to import in import_executions. Must specify at least 1")
   else ret tt) ;;
  executions_val <- (fun h => (Ret (h executions), h)) ;;
  (if negb (is_list executions_val) then
     raise (ValueError "The executions argument to import_executions must be a list, but found %s")
   else ret tt) ;;
  let tags := match tags with
              | Some l => CallerObject l
              | None => NoTags
              end in
  tags_val <- deref tags ;;
  (match tags with
   | NoTags => ret tt
   | _ =>
       if negb (is_list tags_val) then
         raise (ValueError "The tags argument (if specified) to import_executions must be a list, but found %s")
       else ret tt
   end) ;;
  let data : dict := [("executions", deepcopy executions_val);
                      ("allow_duplicates", PBool allow_duplicates);
                      ("overlay_commissions", PBool overlay_commissions)] in
  state <-
    match account_tag with
    | Some a =>
        let data := dict_set "account_tag" (PStr a) data in
        let tags := match tags with
                    | NoTags => OwnList (PList [])
                    | _ => tags
                    end in
        tags_val <- deref tags ;;
        present <- lift (py_contains a tags_val) ;;
        tags <- (if negb present then append_to tags (PStr a) else ret tags) ;;
        ret (data, tags)
    | None => ret (data, tags)
    end ;;
  let data := fst state in
  let tags := snd state in
  match tags with
  | NoTags => ret (PDict data)
  | _ =>
      tags_val <- deref tags ;;
      ret (PDict (dict_set "tags" (deepcopy tags_val) data))
  end.

(** * Response headers *)

(** requests keeps the headers of a response in a case-insensitive dict:
    [r.headers[name]] compares names in lower case. *)
Definition ascii_lower (c : ascii) : ascii :=
  let n := nat_of_ascii c in
  if ((65 <=? n) && (n <=? 90))%nat then ascii_of_nat (n + 32) else c.

Fixpoint lower (s : string) : string :=
  match s with
  | EmptyString => EmptyString
  | String c s' => String (ascii_lower c) (lower s')
  end.

Fixpoint header_get (name : string) (h : list (string * string)) : option string :=
  match h with
  | [] => None
  | (k, v) :: h' =>
      if String.eqb (lower name) (lower k) then Some v else header_get name h'
  end.

(** * Sample data

    A client, responses and mock transports for the closing examples.  A
    mock transport answers by position: the i-th request of a run gets the
    i-th scripted response, whatever it asks. *)

Definition quoted (s : string) : string :=
  String (ascii_of_nat 34) s ++ String (ascii_of_nat 34) EmptyString.

(** The JSON text of a value, as the sample responses carry it. *)
Fixpoint dumps (v : pyval) : string :=
  match v with
  | PNone => "null"
  | PBool true => "true"
  | PBool false => "false"
  | PInt z => str_of_int z
  | PFloat literal => literal
  | PStr s => quoted s
  | PList l => "[" ++ join ", " (map dumps l) ++ "]"
  | PDict d =>
      "{" ++ join ", "
               (map (fun kv : string * pyval =>
                       let (k, x) := kv in quoted k ++ ": " ++ dumps x) d)
          ++ "}"
  end.

Definition json_response (code : Z) (v : pyval) : Response :=
  {| status_code := code;
     text := dumps v;
     resp_url := "https://www.tradervue.com/api/v1";
     resp_headers := [("Content-Type", "application/json")];
     json_of_text := Some v |}.

Definition status_response (s : string) : Response :=
  json_response 200 (PDict [("status", PStr s)]).

Definition busy_response : Response :=
  json_response 424 (PDict [("error", PStr "Import in progress")]).

(** A gateway error page: not JSON. *)
Definition error_page : Response :=
  {| status_code := 502;
     text := "<html>Bad Gateway</html>";
     resp_url := "https://www.tradervue.com/api/v1";
     resp_headers := [("Content-Type", "text/html")];
     json_of_text := None |}.

(** A 424 from a gateway in front of the service: not JSON. *)
Definition busy_page : Response :=
  {| status_code := 424;
     text := "<html>Failed Dependency</html>";
     resp_url := "https://www.tradervue.com/api/v1";
     resp_headers := [("Content-Type", "text/html")];
     json_of_text := None |}.

(** An error whose body is the JSON document null. *)
Definition null_error : Response := json_response 500 PNone.

Definition sample_trade : pyval := PDict [("id", PInt 1); ("symbol", PStr "SPY")].

Definition page_response (n : nat) : Response :=
  json_response 200 (PDict [("trades", PList (repeat sample_trade n))]).

Definition scripted (replies : list Response) (otherwise : Response)
    : list Request -> Response :=
  fun history => nth (List.length history - 1) replies otherwise.

Definition sample_client : TraderVue :=
  TraderVue_init "trader" "secret" "py-tradervue-api/1.0" None
    "https://www.tradervue.com" false.

Definition sample_execution : pyval :=
  PDict [("datetime", PStr "2015-01-02T09:30:00"); ("symbol", PStr "SPY");
         ("quantity", PInt 100); ("price", PFloat "205.43")].

(** Caller objects: location 0 holds the executions, location 1 the tags
    a and b, location 2 the tags a, b and ACCT1. *)
Definition sample_heap : Heap :=
  store 0%nat (PList [sample_execution])
    (store 1%nat (PList [PStr "a"; PStr "b"])
       (store 2%nat (PList [PStr "a"; PStr "b"; PStr "ACCT1"]) (fun _ => PNone))).

(** A client that acts for the user 42. *)
Definition delegate_client : TraderVue :=
  TraderVue_init "trader" "secret" "py-tradervue-api/1.0" (Some "42")
    "https://www.tradervue.com" false.

Definition forbidden : Response :=
  json_response 403 (PDict [("error", PStr "Forbidden")]).


(** The library calls at the sample inputs: no filter is given, so none of
    them is consulted. *)
Definition no_match (pattern s : string) : bool := false.
Definition same_string (s : string) : string := s.
Definition no_date (d : unit) (format : string) : string := EmptyString.

Section Client.

(** The remote service: the response to the most recent request of a
    history (most recent first). *)
Variable server : list Request -> Response.

Variable self : TraderVue.

(** The call [request_fn(url, headers=, auth=, data=, params=)]. *)
Definition send (req : Request) : M Response :=
  fun w =>
    let history := req :: sent w in
    (Ret (server history),
     {| sent := history; log := log w; slept := slept w |}).

Definition __make_request (request_fn : Method) (url : string)
    (payload params : option pyval) : M Response :=
  let auth := (username self, password self) in
  let headers := [("Accept", "application/json");
                  ("Content-Type", "application/json");
                  ("User-Agent", user_agent self)] in
  let headers :=
    match target_user self with
    | Some u => (headers ++ [("Tradervue-UserId", u)])%list
    | None => headers
    end in
  (if verbose_http self then
     log_debug "%sREQUEST:  url     %s" [PStr Fore_GREEN; PStr url] ;;
     log_debug "          headers %s" [headers_val headers] ;;
     log_debug "          user    %s" [PStr (fst auth)] ;;
     log_debug "          payload %s" [opt_val payload] ;;
     log_debug "          params  %s" [opt_val params]
   else ret tt) ;;
  result <- send {| method := request_fn; req_url := url;
                    req_headers := headers; req_auth := auth;
                    req_data := payload; req_params := params |} ;;
  (if verbose_http self then
     log_debug "RESPONSE: url     %s" [PStr (resp_url result)] ;;
     log_debug "          code    %s" [PInt (status_code result)] ;;
     log_debug "          headers %s" [headers_val (resp_headers result)] ;;
     log_debug "          body    %s%s" [PStr (text result); PStr Fore_RESET]
   else ret tt) ;;
  ret result.

Definition __get (url : string) (params : option pyval) : M Response :=
  __make_request GET url None params.
Definition __put (url : string) (payload : option pyval) : M Response :=
  __make_request PUT url payload None.
Definition __post (url : string) (payload : option pyval) : M Response :=
  __make_request POST url payload None.
Definition __delete (url : string) (payload : option pyval) : M Response :=
  __make_request DELETE url payload None.

(** [json.loads(r.text)]. *)
Definition json_loads (r : Response) : M pyval :=
  match json_of_text r with
  | Some v => ret v
  | None => raise (ValueError "No JSON object could be decoded")
  end.

(** The try block of [__handle_bad_http_response]: the value the method
    binds to [server_error]. *)
Definition server_error_of (r : Response) : M pyval :=
  try_except_ValueError
    (jdata <- json_loads r ;;
     has_error <- lift (py_contains "error" jdata) ;;
     if has_error then lift (py_getitem jdata "error")
     else
       has_status <- lift (py_contains "status" jdata) ;;
       if has_status then lift (py_getitem jdata "status")
       else
         log_error "Unexpected JSON received for bad HTTP reponse (no status or error field found)" [] ;;
         ret (PStr (text r)))
    (ret (PStr (text r))).

Definition truthy (o : option string) : bool :=
  match o with
  | Some (String _ _) => true
  | _ => false
  end.

Definition __handle_bad_http_response (r : Response) (msg : LogRecord)
    (show_url : bool) : M unit :=
  let status :=
    if show_url
    then {| level := ERROR; fmt := "HTTP Status: %d, URL: %s";
            args := [PInt (status_code r); PStr (resp_url r)] |}
    else {| level := ERROR; fmt := "HTTP Status: %d";
            args := [PInt (status_code r)] |} in
  server_error <- server_error_of r ;;
  log_error (fmt msg) (args msg) ;;
  log_error (fmt status) (args status) ;;
  log_error "Server error: %s" [server_error] ;;
  if (status_code r =? 403) && truthy (target_user self)
  then log_error "No permission to issue API calls on behalf of user %d" []
  else ret tt.

Definition message (f : string) (a : list pyval) : LogRecord :=
  {| level := ERROR; fmt := f; args := a |}.

Definition delete_trade (trade_id : trade_ident) : M bool :=
  let trade_id := py_str trade_id in
  let url := join "/" [baseurl self; "trades"; trade_id] in
  r <- __delete url None ;;
  if status_code r =? 200 then
    log_debug "Successfully deleted trade %s: %s" [PStr trade_id; PStr (text r)] ;;
    ret true
  else
    __handle_bad_http_response r
      (message "Deletion of tradeID %s" [PStr trade_id]) false ;;
    ret false.

(** The for loop of [delete_trades]. *)
Fixpoint delete_each (trade_ids : list trade_ident) (results : list bool)
    : M (list bool) :=
  match trade_ids with
  | [] => ret results
  | trade_id :: rest =>
      deleted <- delete_trade trade_id ;;
      if negb deleted then
        log_error "Unable to delete trade ID %s" [PStr (py_str trade_id)] ;;
        delete_each rest (results ++ [false])%list
      else delete_each rest (results ++ [true])%list
  end.

(** [delete_trades], called with any number of trade ids.  [trade_id] is
    a local of the function (the for loop assigns it), and line 132 reads
    it before the loop. *)
Definition delete_trades (trade_ids : list trade_ident) : M (list bool) :=
  let results : list bool := [] in
  unbound <- read_local "trade_id" (@None trade_ident) ;;
  let trade_id := py_str unbound in
  delete_each trade_ids results.

Definition import_statuses : list string :=
  ["ready"; "queued"; "processing"; "succeeded"; "failed"].

Definition import_status : M pyval :=
  let url := join "/" [baseurl self; "imports"] in
  r <- __get url None ;;
  if status_code r =? 200 then
    log_debug "Successfully queried import status: %s" [PStr (text r)] ;;
    data <- json_loads r ;;
    status <- lift (py_getitem data "status") ;;
    if negb (in_strs status import_statuses) then
      log_error "Unexpected status '%s' for import status. Check API and update library" [status] ;;
      ret PNone
    else ret data
  else
    __handle_bad_http_response r (message "Unable to query import status" []) false ;;
    ret PNone.

(** * Importing executions *)

(** The submission loop of [__import_executions] (lines 331-350).  The
    guard [retries_left > 0] with [retries_left -= 1] in the body holds
    [Z.to_nat retries_left] times, which is the [fuel] the method starts the
    loop with: when the fuel is spent the guard is false (lemma
    [post_loop_fuel] below: more fuel changes nothing).  [inl v]: the
    method returned [v] from inside the loop; [inr (import_posted, data)]:
    the loop ended with these values of the two locals. *)
Fixpoint post_loop (fuel : nat) (url : string) (retries_left : Z)
    (data : pyval) : M (pyval + bool * pyval) :=
  match fuel with
  | O => ret (inr (false, data))
  | S fuel =>
      if retries_left >? 0 then
        let retries_left := retries_left - 1 in
        r <- __post url (Some data) ;;
        if status_code r =? 200 then
          data <- json_loads r ;;
          status <- lift (py_getitem data "status") ;;
          if negb (in_strs status ["queued"]) then
            log_error "Unexpected status '%s' from importing executions: %s"
              [status; PStr (text r)] ;;
            ret (inl PNone)
          else
            log_debug "Import request successful: %s" [PStr (text r)] ;;
            ret (inr (true, data))
        else if status_code r =? 424 then
          data <- json_loads r ;;
          error <- lift (py_getitem data "error") ;;
          log_warning "Waiting 5 seconds and retrying import: %s" [error] ;;
          sleep 5 ;;
          post_loop fuel url retries_left data
        else
          __handle_bad_http_response r (message "Unable to import executions" []) false ;;
          ret (inl PNone)
      else ret (inr (false, data))
  end.

(** The polling loop (lines 361-364).  The guard tests [data], then its
    status, then [retries_left >= 0], which holds [Z.to_nat (retries_left + 1)]
    times: the [fuel] the method starts the loop with (lemma
    [wait_loop_fuel] below). *)
Fixpoint wait_loop (fuel : nat) (secs_per_wait_retry retries_left : Z)
    (data : pyval) : M pyval :=
  match data with
  | PNone => ret data
  | _ =>
      status <- lift (py_getitem data "status") ;;
      if (str_eq "queued" status || str_eq "processing" status)
         && (retries_left >=? 0) then
        match fuel with
        | O => ret data
        | S fuel =>
            let retries_left := retries_left - 1 in
            sleep secs_per_wait_retry ;;
            data <- import_status ;;
            wait_loop fuel secs_per_wait_retry retries_left data
        end
      else ret data
  end.

(** The branch taken when the import was posted and the caller waits
    (lines 356-380). *)
Definition wait_for_import (wait_retries secs_per_wait_retry : Z) : M pyval :=
  log_debug "Waiting for import to complete..." [] ;;
  let retries_left := wait_retries in
  data <- import_status ;;
  data <- wait_loop (Z.to_nat (retries_left + 1)) secs_per_wait_retry
            retries_left data ;;
  status <- lift (py_getitem data "status") ;;
  if str_eq "ready" status then
    log_error "Found importer in ready state, but never saw success/failure" [] ;;
    ret PNone
  else if str_eq "succeeded" status then
    log_debug "Import was successful" [] ;;
    ret data
  else if str_eq "failure" status then
    log_error "Import had some failures" [] ;;
    ret data
  else if in_strs status ["queued"; "processing"] then
    log_error "Import is still being processed after %d attmpts to query status. Giving up"
      [PInt wait_retries] ;;
    ret PNone
  else
    log_error "Unsupported import status '%s'" [status] ;;
    ret PNone.

Definition __import_executions (data : pyval) (import_retries : Z)
    (wait_for_completion : bool) (wait_retries secs_per_wait_retry : Z)
    : M pyval :=
  let url := join "/" [baseurl self; "imports"] in
  let retries_left := import_retries in
  exit <- post_loop (Z.to_nat retries_left) url retries_left data ;;
  match exit with
  | inl v => ret v
  | inr (import_posted, data) =>
      if negb import_posted then
        log_error "Unable to import executions after %d attempts. Giving up."
          [PInt import_retries] ;;
        ret PNone
      else if wait_for_completion then
        wait_for_import wait_retries secs_per_wait_retry
      else ret PNone
  end.

(** [import_executions]: the batch is built over the caller's objects,
    then submitted over the world. *)
Definition import_executions (executions : loc) (account_tag : option string)
    (tags : option loc) (allow_duplicates overlay_commissions : bool)
    (import_retries : Z) (wait_for_completion : bool)
    (wait_retries secs_per_wait_retry : Z)
    (h : Heap) (w : World) : outcome pyval * Heap * World :=
  match import_batch executions account_tag tags allow_duplicates
          overlay_commissions h with
  | (Raise e, h') => (Raise e, h', w)
  | (Ret data, h') =>
      let (result, w') :=
        __import_executions data import_retries wait_for_completion
          wait_retries secs_per_wait_retry w in
      (result, h', w')
  end.

(** * Listing trades *)

Definition newline : string := String (ascii_of_nat 10) EmptyString.

Definition __get_trades (data : dict) : M pyval :=
  let url := join "/" [baseurl self; "trades"] in
  r <- __get url (Some (PDict data)) ;;
  if status_code r =? 200 then
    log_debug "Successfully queried url %s" [PStr (resp_url r)] ;;
    result <- json_loads r ;;
    has_trades <- lift (py_contains "trades" result) ;;
    if negb has_trades then
      log_error ("No 'trades' field in query result for URL: %s" ++ newline ++ "%s")
        [PStr (resp_url r); PStr (text r)] ;;
      ret PNone
    else lift (py_getitem result "trades")
  else
    __handle_bad_http_response r (message "Unable to query trades" []) true ;;
    ret PNone.

(** [range(lo, hi)]. *)
Definition range (lo hi : Z) : list Z :=
  map (fun i => lo + Z.of_nat i) (seq 0 (Z.to_nat (hi - lo))).

(** The for loop of [get_trades] (lines 187-200) over the pages still to
    fetch.  [inl v]: the method returned [v] from inside the loop;
    [inr all_trades]: the loop ended or was left by [break]. *)
Fixpoint fetch_pages (pages : list Z) (max_trades : Z) (data : dict)
    (all_trades : list pyval) : M (pyval + list pyval) :=
  match pages with
  | [] => ret (inr all_trades)
  | page :: pages =>
      let trades_left := max_trades - Z.of_nat (List.length all_trades) in
      let data := dict_set "page" (PInt page) data in
      let data := dict_set "count"
                    (PInt (if trades_left >=? 100 then 100 else trades_left))
                    data in
      trades <- __get_trades data ;;
      match trades with
      | PNone =>
          log_debug "Found error condition when querying %s" [PDict data] ;;
          ret (inl PNone)
      | _ =>
          n <- lift (py_len trades) ;;
          if n =? 0 then
            log_debug "No trades were found when querying %s" [PDict data] ;;
            ret (inr all_trades)
          else
            log_debug "%d trade(s) were found when querying %s" [PInt n; PDict data] ;;
            items <- lift (py_iter trades) ;;
            fetch_pages pages max_trades data (all_trades ++ items)%list
      end
  end.

(** The library calls of the filter checks of [get_trades]:
    re.search(pattern, s), re.match(pattern, s, re.IGNORECASE), str.upper
    and date.strftime. *)
Variable re_search : string -> string -> bool.
Variable re_match_ignorecase : string -> string -> bool.
Variable str_upper : string -> string.
Variable Date : Type.
Variable strftime : Date -> string -> string.

(** [s[0]]. *)
Definition first_char (s : string) : M string :=
  match s with
  | String c _ => ret (String c EmptyString)
  | EmptyString => raise (IndexError "string index out of range")
  end.

(** The two checked filters, [side] and [duration]: the value must match
    the pattern, and its first letter in upper case is what is sent. *)
Definition checked_filter (key pattern complaint : string)
    (value : option string) (data : dict) : M dict :=
  match value with
  | Some v =>
      if negb (re_match_ignorecase pattern v) then raise (ValueError complaint)
      else
        c <- first_char v ;;
        ret (dict_set key (PStr (str_upper c)) data)
  | None => ret data
  end.

(** Lines 182-184: [total_pages], which is 1 unless [max_trades] exceeds
    100, and then [int(math.ceil(max_trades / 100.0))], computed on floats. *)
Definition total_pages (max_trades : Z) : outcome Z :=
  if max_trades >? 100 then
    match float_of_int max_trades with
    | Ret x => Ret (math_ceil (float_div x hundred))
    | Raise e => Raise e
    end
  else Ret 1.

Definition get_trades (symbol tag_expr side duration : option string)
    (startdate enddate : option Date) (max_trades : Z) : M pyval :=
  let data : dict := [] in
  let data := match symbol with
              | Some s => dict_set "symbol" (PStr s) data
              | None => data
              end in
  let tag_warning_on_no_results :=
    match tag_expr with
    | Some t => re_search "\sand\s" t || re_search "\sor\s" t
    | None => false
    end in
  let data := match tag_expr with
              | Some t => dict_set "tag" (PStr t) data
              | None => data
              end in
  data <- checked_filter "side" "^(long|short)$"
            "The 'side' parameter to get_trades must be 'Long' or 'Short'. Saw '%s'"
            side data ;;
  data <- checked_filter "duration" "^(intraday|multiday)$"
            "The 'duration' parameter to get_trades must be 'Intraday' or 'Multiday'. Saw '%s'"
            duration data ;;
  let data := match startdate with
              | Some d => dict_set "startdate" (PStr (strftime d "%m/%d/%Y")) data
              | None => data
              end in
  let data := match enddate with
              | Some d => dict_set "enddate" (PStr (strftime d "%m/%d/%Y")) data
              | None => data
              end in
  pages <- lift (total_pages max_trades) ;;
  exit <- fetch_pages (range 1 (pages + 1)) max_trades data [] ;;
  match exit with
  | inl v => ret v
  | inr all_trades =>
      (if tag_warning_on_no_results && (Z.of_nat (List.length all_trades) =? 0)
       then log_warning
              "No results found for dubious tag expression '%s'. Make sure AND and OR are uppercase"
              [match tag_expr with Some t => PStr t | None => PNone end]
       else ret tt) ;;
      ret (PList all_trades)
  end.

(** * Single trades and users *)

(** [create_trade].  An argument left at None is [PNone]; [tags] defaults
    to the empty list. *)
Definition create_trade (symbol : string) (notes initial_risk shared tags : pyval)
    (return_url : bool) : M pyval :=
  let url := join "/" [baseurl self; "trades"] in
  let data : dict := [("symbol", PStr symbol); ("shared", shared)] in
  let data := match notes with
              | PNone => data
              | _ => dict_set "notes" notes data
              end in
  let data := match initial_risk with
              | PNone => data
              | _ => dict_set "initial_risk" initial_risk data
              end in
  n <- lift (py_len tags) ;;
  let data := if n >? 0 then dict_set "tags" (deepcopy tags) data else data in
  r <- __post url (Some (PDict data)) ;;
  if status_code r =? 201 then
    log_debug "Successfully created new trade for %s: %s" [PStr symbol; PStr (text r)] ;;
    if return_url then
      match header_get "Location" (resp_headers r) with
      | Some location => ret (PStr location)
      | None => raise (KeyError "location")
      end
    else
      payload <- json_loads r ;;
      lift (py_getitem payload "id")
  else
    __handle_bad_http_response r
      (message "New trade creation for %s" [PStr symbol]) false ;;
    ret PNone.

Definition get_trade (trade_id : trade_ident) : M pyval :=
  let trade_id := py_str trade_id in
  let url := join "/" [baseurl self; "trades"; trade_id] in
  r <- __get url None ;;
  if status_code r =? 200 then
    log_debug "Successfully queried trade ID %s" [PStr trade_id] ;;
    json_loads r
  else
    __handle_bad_http_response r
      (message "Unable to query trade ID %s" [PStr trade_id]) true ;;
    ret PNone.

Definition get_trade_executions (trade_id : trade_ident) : M pyval :=
  let trade_id := py_str trade_id in
  let url := join "/" [baseurl self; "trades"; trade_id; "executions"] in
  r <- __get url None ;;
  if status_code r =? 200 then
    executions <- json_loads r ;;
    has_key <- lift (py_contains "executions" executions) ;;
    if negb has_key then
      log_error "Unable to find 'executions' key in executions results: %s" [PStr (text r)] ;;
      ret PNone
    else
      executions <- lift (py_getitem executions "executions") ;;
      n <- lift (py_len executions) ;;
      log_debug "Successfully queried trade ID %s executions (found %d executions)"
        [PStr trade_id; PInt n] ;;
      ret executions
  else
    __handle_bad_http_response r
      (message "Unable to query trade ID %s executions" [PStr trade_id]) true ;;
    ret PNone.

Definition get_trade_comments (trade_id : trade_ident) : M pyval :=
  let trade_id := py_str trade_id in
  let url := join "/" [baseurl self; "trades"; trade_id; "comments"] in
  r <- __get url None ;;
  if status_code r =? 200 then
    comments <- json_loads r ;;
    has_key <- lift (py_contains "comments" comments) ;;
    if negb has_key then
      log_error "Unable to find 'comments' key in comments results: %s" [PStr (text r)] ;;
      ret PNone
    else
      comments <- lift (py_getitem comments "comments") ;;
      n <- lift (py_len comments) ;;
      log_debug "Successfully queried trade ID %s comments (found %d comments)"
        [PStr trade_id; PInt n] ;;
      ret comments
  else
    __handle_bad_http_response r
      (message "Unable to query trade ID %s comments" [PStr trade_id]) true ;;
    ret PNone.

(** The keys of a dict, as [' '.join(data.keys())] lists them. *)
Definition keys (d : dict) : list string := map fst d.

(** The conversions of a format string: each percent sign followed by a
    conversion letter, a doubled percent sign being a literal one. *)
Fixpoint placeholders (f : string) : nat :=
  match f with
  | EmptyString => O
  | String c rest =>
      if Ascii.eqb c "%"%char then
        match rest with
        | EmptyString => O
        | String c' rest' =>
            if Ascii.eqb c' "%"%char then placeholders rest'
            else S (placeholders rest')
        end
      else placeholders rest
  end.

(** [f % (a1, ..., an)]: the values must be as many as the conversions. *)
Definition py_format (f : string) (a : list pyval) : outcome LogRecord :=
  if (placeholders f <? List.length a)%nat then
    Raise (TypeError "not all arguments converted during string formatting")
  else if (List.length a <? placeholders f)%nat then
    Raise (TypeError "not enough arguments for format string")
  else Ret (message f a).

(** [update_trade].  [message] stands for a format applied to as many
    values as it has conversions; the message of the failure branch
    (line 286) is the one place where the two differ, so there the
    formatting is evaluated. *)
Definition update_trade (trade_id : trade_ident)
    (notes shared initial_risk tags : pyval) : M bool :=
  let trade_id := py_str trade_id in
  let url := join "/" [baseurl self; "trades"; trade_id] in
  let data : dict := [] in
  let data := match notes with
              | PNone => data
              | _ => dict_set "notes" notes data
              end in
  let data := match shared with
              | PNone => data
              | _ => dict_set "shared" shared data
              end in
  let data := match initial_risk with
              | PNone => data
              | _ => dict_set "initial_risk" initial_risk data
              end in
  let data := match tags with
              | PNone => data
              | _ => dict_set "tags" (deepcopy tags) data
              end in
  if Z.of_nat (List.length data) =? 0 then
    log_warning "No updates specified for trade ID %s. Not taking further action"
      [PStr trade_id] ;;
    ret false
  else
    r <- __put url (Some (PDict data)) ;;
    if status_code r =? 200 then
      log_debug "Successfully updated fields [%s] of trade ID %s: %s"
        [PStr (join " " (keys data)); PStr trade_id; PStr (text r)] ;;
      ret true
    else
      msg <- lift (py_format "Unable to update fields [%s] of trade ID"
                     [PStr (join " " (keys data)); PStr trade_id]) ;;
      __handle_bad_http_response r msg false ;;
      ret false.

Definition get_users : M pyval :=
  let url := join "/" [baseurl self; "users"] in
  r <- __get url None ;;
  if status_code r =? 200 then
    users <- json_loads r ;;
    has_key <- lift (py_contains "users" users) ;;
    if negb has_key then
      log_error "Unable to find 'users' key in users results: %s" [PStr (text r)] ;;
      ret PNone
    else
      users <- lift (py_getitem users "users") ;;
      n <- lift (py_len users) ;;
      log_debug "Successfully queried users (found %d users)" [PInt n] ;;
      ret users
  else
    __handle_bad_http_response r (message "Unable to query users" []) true ;;
    ret PNone.

(** [get_user]: the url is built without the user id (line 402). *)
Definition get_user (user_id : trade_ident) : M pyval :=
  let user_id := py_str user_id in
  let url := join "/" [baseurl self; "users"] in
  r <- __get url None ;;
  if status_code r =? 200 then
    user <- json_loads r ;;
    log_debug "Successfully queried user ID %s" [PStr user_id] ;;
    ret user
  else
    __handle_bad_http_response r
      (message "Unable to query user ID %s" [PStr user_id]) true ;;
    ret PNone.

(** * What a run is observed through *)

(** The request [__make_request] hands to requests. *)
Definition built_request (m : Method) (url : string)
    (payload params : option pyval) : Request :=
  {| method := m;
     req_url := url;
     req_headers :=
       match target_user self with
       | Some u => [("Accept", "application/json");
                    ("Content-Type", "application/json");
                    ("User-Agent", user_agent self);
                    ("Tradervue-UserId", u)]
       | None => [("Accept", "application/json");
                  ("Content-Type", "application/json");
                  ("User-Agent", user_agent self)]
       end;
     req_auth := (username self, password self);
     req_data := payload;
     req_params := params |}.

Definition imports_url : string := join "/" [baseurl self; "imports"].
Definition trades_url : string := join "/" [baseurl self; "trades"].

(** The three requests the theorems count: a status query, a submission
    with a given body, a page query with given parameters. *)
Definition status_query : Request := built_request GET imports_url None None.
Definition import_post (data : pyval) : Request :=
  built_request POST imports_url (Some data) None.
Definition page_query (data : dict) : Request :=
  built_request GET trades_url None (Some (PDict data)).

Definition is_import_post (q : Request) : Prop := exists data, q = import_post data.

(** A submission whose body is a decoded 424 answer: a JSON object with
    an error field. *)
Definition resubmission (q : Request) : Prop :=
  exists d, q = import_post (PDict d) /\ dict_has "error" d = true.

(** [v] is the decoded body of the answer to the last request of [w]. *)
Definition last_answer (w : World) (v : pyval) : Prop :=
  json_of_text (server (sent w)) = Some v.

(** [w'] is [w] with more requests sent. *)
Definition extends (w w' : World) : Prop :=
  exists new, sent w' = (new ++ sent w)%list.

(** A computation only ever adds to the requests sent. *)
Definition grows {A} (m : M A) : Prop := forall w, extends w (snd (m w)).

Definition logged (lv : Level) (f : string) (a : list pyval) (w : World) : World :=
  {| sent := sent w;
     log := {| level := lv; fmt := f; args := a |} :: log w;
     slept := slept w |}.

(** Classes of responses.  HTTP 200 whose JSON object has the status [s]: *)
Definition status_is (s : string) (r : Response) : bool :=
  (status_code r =? 200) &&
  match json_of_text r with
  | Some (PDict d) =>
      match dict_get "status" d with
      | Some v => str_eq s v
      | None => false
      end
  | _ => false
  end.

Definition pending (r : Response) : bool :=
  status_is "queued" r || status_is "processing" r.

(** HTTP 424 with the server's error message. *)
Definition busy (r : Response) : bool :=
  (status_code r =? 424) &&
  match json_of_text r with
  | Some (PDict d) => dict_has "error" d
  | _ => false
  end.

(** An error body of the two documented shapes: not JSON, or a JSON object. *)
Definition plain_error_body (r : Response) : Prop :=
  json_of_text r = None \/ exists d, json_of_text r = Some (PDict d).

(** A failed request with such a body. *)
Definition http_error (r : Response) : bool :=
  negb (status_code r =? 200) &&
  match json_of_text r with
  | None | Some (PDict _) => true
  | _ => false
  end.

(** A JSON body that is no object, list or string. *)
Definition is_scalar (v : pyval) : bool :=
  match v with
  | PNone | PBool _ | PInt _ | PFloat _ => true
  | _ => false
  end.

(** The list of trades a page response carries. *)
Definition listing (r : Response) : option (list pyval) :=
  if status_code r =? 200 then
    match json_of_text r with
    | Some (PDict d) =>
        match dict_get "trades" d with
        | Some (PList l) => Some l
        | _ => None
        end
    | _ => None
    end
  else None.

(** A page request that fails: an HTTP error, or a 200 without trades. *)
Definition page_fails (r : Response) : bool :=
  if status_code r =? 200 then
    match json_of_text r with
    | Some (PDict d) =>
        match dict_get "trades" d with
        | None | Some PNone => true
        | _ => false
        end
    | _ => false
    end
  else
    match json_of_text r with
    | None | Some (PDict _) => true
    | _ => false
    end.

(** A failed request whose body is a JSON scalar: null, a boolean or a
    number. *)
Definition scalar_error (r : Response) : bool :=
  negb (status_code r =? 200) &&
  match json_of_text r with
  | Some v => is_scalar v
  | None => false
  end.

(** HTTP 424 whose body does not carry the server's error message: it is
    not JSON, or it is a JSON object without an error field. *)
Definition unreadable_busy (r : Response) : bool :=
  (status_code r =? 424) &&
  match json_of_text r with
  | None => true
  | Some (PDict d) => negb (dict_has "error" d)
  | Some _ => false
  end.

(** What the submission loop raises on such an answer. *)
Definition unreadable_busy_error (r : Response) : exn :=
  match json_of_text r with
  | None => ValueError "No JSON object could be decoded"
  | Some _ => KeyError "error"
  end.

(** The transport answers the (i+1)-th request sent from [w] on with a
    response of class [P], whatever the requests are. *)
Definition reply_at (w : World) (i : nat) (P : Response -> bool) : Prop :=
  forall h, List.length h = S i -> P (server (h ++ sent w)%list) = true.

(** ... with a page that lists [l]. *)
Definition page_at (w : World) (i : nat) (l : list pyval) : Prop :=
  forall h, List.length h = S i -> listing (server (h ++ sent w)%list) = Some l.

Definition pending_dict (d : dict) : Prop :=
  dict_get "status" d = Some (PStr "queued")
  \/ dict_get "status" d = Some (PStr "processing").

Definition settled (s : string) : Prop :=
  s = "ready" \/ s = "succeeded" \/ s = "failed".

(** Log records the theorems name. *)
Definition gave_up (import_retries : Z) : LogRecord :=
  {| level := ERROR;
     fmt := "Unable to import executions after %d attempts. Giving up.";
     args := [PInt import_retries] |}.

Definition import_successful (r : Response) : LogRecord :=
  {| level := DEBUG; fmt := "Import request successful: %s"; args := [PStr (text r)] |}.

Definition unsupported (status : pyval) : LogRecord :=
  {| level := ERROR; fmt := "Unsupported import status '%s'"; args := [status] |}.

Definition server_error_logged (reason : pyval) : LogRecord :=
  {| level := ERROR; fmt := "Server error: %s"; args := [reason] |}.

(** The failure reason for the two documented body shapes: the error field
    of a JSON object, else its status field, else the raw text; and the raw
    text when the body is not JSON. *)
Definition documented_reason (r : Response) : pyval :=
  match json_of_text r with
  | Some (PDict d) =>
      match dict_get "error" d with
      | Some v => v
      | None =>
          match dict_get "status" d with
          | Some v => v
          | None => PStr (text r)
          end
      end
  | _ => PStr (text r)
  end.

(** The parameters of the page query the loop of [get_trades] builds. *)
Definition next_query (page max_trades : Z) (data : dict)
    (all_trades : list pyval) : dict :=
  let trades_left := max_trades - Z.of_nat (List.length all_trades) in
  dict_set "count" (PInt (if trades_left >=? 100 then 100 else trades_left))
    (dict_set "page" (PInt page) data).

Definition paging (d : dict) : option pyval * option pyval :=
  (dict_get "page" d, dict_get "count" d).

(** A filter value that passes the check of [get_trades]. *)
Definition filter_ok (pattern : string) (value : option string) : Prop :=
  match value with
  | None => True
  | Some v => re_match_ignorecase pattern v = true /\ v <> EmptyString
  end.

(** The caller passed [given] as tags: nothing, or the list at a location. *)
Definition tags_given (h : Heap) (tags : option loc)
    (given : option (list pyval)) : Prop :=
  match tags, given with
  | None, None => True
  | Some t, Some ts => h t = PList ts
  | _, _ => False
  end.

(** The tag list of the batch. *)
Definition injected (account_tag : option string) (tags : option (list pyval))
    : option (list pyval) :=
  match account_tag with
  | None => tags
  | Some a =>
      match tags with
      | None => Some [PStr a]
      | Some ts => if existsb (str_eq a) ts then Some ts else Some (ts ++ [PStr a])%list
      end
  end.

(** The batch as a dict, keys in the order the method assigns them. *)
Definition batch (executions : pyval) (account_tag : option string)
    (tags : option (list pyval)) (allow_duplicates overlay_commissions : bool)
    : dict :=
  ([("executions", executions);
    ("allow_duplicates", PBool allow_duplicates);
    ("overlay_commissions", PBool overlay_commissions)]
   ++ match account_tag with
      | Some a => [("account_tag", PStr a)]
      | None => []
      end
   ++ match tags with
      | Some ts => [("tags", PList ts)]
      | None => []
      end)%list.

(** The caller's objects after the batch was built. *)
Definition heap_after (h : Heap) (account_tag : option string)
    (tags : option loc) (given : option (list pyval)) : Heap :=
  match account_tag, tags, given with
  | Some a, Some t, Some ts =>
      if existsb (str_eq a) ts then h else store t (PList (ts ++ [PStr a])) h
  | _, _, _ => h
  end.

(** ** Budgets *)

(** The seconds slept in total. *)
Definition slept_total (w : World) : Z := fold_right Z.add 0 (slept w).

(** A computation that only logs: it sends nothing and never sleeps. *)
Definition logs_only {A} (m : M A) : Prop :=
  forall w, sent (snd (m w)) = sent w /\ slept (snd (m w)) = slept w.

(** A computation that sends at most [n] requests, each of class [P], and
    sleeps at most [b] seconds in total, whatever the transport answers
    and whether it returns or raises. *)
Definition costs {A} (P : Request -> Prop) (n : nat) (b : Z) (m : M A) : Prop :=
  forall w,
    exists new,
      sent (snd (m w)) = (new ++ sent w)%list
      /\ Forall P new
      /\ (List.length new <= n)%nat
      /\ slept_total w <= slept_total (snd (m w)) <= slept_total w + b.

(** A computation whose every returned value satisfies [Q], whatever the
    transport answers. *)
Definition returns {A} (Q : A -> Prop) (m : M A) : Prop :=
  forall w a w', m w = (Ret a, w') -> Q a.

(** A page query that asks for at most 100 trades of a page from 1 to
    [last], and carries every filter that was given. *)
Definition carried (d : dict) (filter : string * option pyval) : Prop :=
  forall v, snd filter = Some v -> dict_get (fst filter) d = Some v.

Definition page_request (filters : list (string * option pyval)) (last : Z)
    (q : Request) : Prop :=
  exists d page count,
    q = page_query d
    /\ dict_get "page" d = Some (PInt page) /\ 1 <= page <= last
    /\ dict_get "count" d = Some (PInt count) /\ count <= 100
    /\ Forall (carried d) filters.

(** [v[0]] of a filter value, as a str. *)
Definition initial (v : string) : string := substring 0 1 v.

(** ** Single trades and users *)


(** A submission answered with something that is not retried: 200 with a
    status other than queued, or an HTTP error other than 424 whose body is
    of a documented shape. *)
Definition rejected (r : Response) : bool :=
  if status_code r =? 200 then
    match json_of_text r with
    | Some (PDict d) =>
        match dict_get "status" d with
        | Some v => negb (str_eq "queued" v)
        | None => false
        end
    | _ => false
    end
  else
    negb (status_code r =? 424) &&
    match json_of_text r with
    | None | Some (PDict _) => true
    | _ => false
    end.

(** The record the handler adds for a 403 on behalf of a target user. *)
Definition no_permission : LogRecord :=
  {| level := ERROR;
     fmt := "No permission to issue API calls on behalf of user %d";
     args := [] |}.

(** An optional argument: None when it was left out. *)
Definition given (v : pyval) : option pyval :=
  match v with
  | PNone => None
  | _ => Some v
  end.

(** [if v is not None: d[k] = v]. *)
Definition assigned (k : string) (v : pyval) (d : dict) : dict :=
  match v with
  | PNone => d
  | _ => dict_set k v d
  end.

(** The value a listing method returns for a JSON object [d]: the entry
    under [key] when it has a length. *)
Definition entry (key : string) (d : dict) : outcome pyval :=
  match dict_get key d with
  | None => Ret PNone
  | Some v =>
      match py_len v with
      | Ret _ => Ret v
      | Raise e => Raise e
      end
  end.

(** The requests of the methods on single trades and on users. *)
Definition trade_url (trade_id : trade_ident) : string :=
  join "/" [baseurl self; "trades"; py_str trade_id].

Definition trade_query (trade_id : trade_ident) : Request :=
  built_request GET (trade_url trade_id) None None.

Definition part_query (trade_id : trade_ident) (part : string) : Request :=
  built_request GET (join "/" [baseurl self; "trades"; py_str trade_id; part]) None None.

Definition delete_request (trade_id : trade_ident) : Request :=
  built_request DELETE (trade_url trade_id) None None.

Definition update_put (trade_id : trade_ident) (body : dict) : Request :=
  built_request PUT (join "/" [baseurl self; "trades"; py_str trade_id])
    (Some (PDict body)) None.

Definition create_post (body : dict) : Request :=
  built_request POST trades_url (Some (PDict body)) None.

Definition users_query : Request :=
  built_request GET (join "/" [baseurl self; "users"]) None None.

(** * Proofs *)

(** ** Running a computation step by step *)

Lemma bind_ret_eq {S A B} (m : ST S A) (k : A -> ST S B) s a s' :
  m s = (Ret a, s') -> bind m k s = k a s'.
Proof. intros E. unfold bind. rewrite E. reflexivity. Qed.

Lemma bind_raise_eq {S A B} (m : ST S A) (k : A -> ST S B) s e s' :
  m s = (Raise e, s') -> bind m k s = (Raise e, s').
Proof. intros E. unfold bind. rewrite E. reflexivity. Qed.

Lemma bind_assoc {S A B C} (m : ST S A) (f : A -> ST S B) (g : B -> ST S C) s :
  bind m (fun x => bind (f x) g) s = bind (bind m f) g s.
Proof. unfold bind. destruct (m s) as [[a|e] s']; reflexivity. Qed.

(** ** Requests only accumulate *)

Lemma extends_refl w : extends w w.
Proof. exists []. reflexivity. Qed.

Lemma extends_trans w1 w2 w3 : extends w1 w2 -> extends w2 w3 -> extends w1 w3.
Proof. intros [n1 E1] [n2 E2]. exists (n2 ++ n1)%list. rewrite E2, E1. apply app_assoc. Qed.

Lemma grows_ret {A} (a : A) : grows (ret a).
Proof. intros w. apply extends_refl. Qed.

Lemma grows_raise {A} e : grows (@raise World A e).
Proof. intros w. apply extends_refl. Qed.

Lemma grows_lift {A} (o : outcome A) : grows (lift o).
Proof. intros w. apply extends_refl. Qed.

Lemma grows_log lv f a : grows (log_at lv f a).
Proof. intros w. exists []. reflexivity. Qed.

Lemma grows_sleep s : grows (sleep s).
Proof. intros w. unfold sleep. destruct (s <? 0); exists []; reflexivity. Qed.

Lemma grows_bind {A B} (m : M A) (k : A -> M B) :
  grows m -> (forall a, grows (k a)) -> grows (bind m k).
Proof.
  intros Hm Hk w. unfold bind. specialize (Hm w). destruct (m w) as [[a|e] w1]; simpl in *.
  - eapply extends_trans; [exact Hm | apply Hk].
  - exact Hm.
Qed.

Lemma grows_try {A} (m h : M A) : grows m -> grows h -> grows (try_except_ValueError m h).
Proof.
  intros Hm Hh w. unfold try_except_ValueError. specialize (Hm w).
  destruct (m w) as [[a|e] w1]; simpl in *; auto.
  destruct e; simpl; auto. eapply extends_trans; [exact Hm | apply Hh].
Qed.

Lemma grows_json_loads r : grows (json_loads r).
Proof. unfold json_loads. destruct (json_of_text r); [apply grows_ret | apply grows_raise]. Qed.

(** Growth lemmas of the client's methods are collected as hints. *)
Create HintDb grows.

Ltac grows_step :=
  lazymatch goal with
  | |- grows (ret _) => apply grows_ret
  | |- grows (raise _) => apply grows_raise
  | |- grows (lift _) => apply grows_lift
  | |- grows (log_at _ _ _) => apply grows_log
  | |- grows (sleep _) => apply grows_sleep
  | |- grows (json_loads _) => apply grows_json_loads
  | |- grows (bind _ _) => apply grows_bind; [| intros ? ]
  | |- grows (try_except_ValueError _ _) => apply grows_try
  | |- grows (if ?b then _ else _) => destruct b
  | |- grows (match ?x with _ => _ end) => destruct x
  | |- _ => solve [ auto with grows ]
  end.

Ltac grows_tac := unfold log_debug, log_warning, log_error; repeat grows_step.

Lemma grows_send q : grows (send q).
Proof. intros w. exists [q]. reflexivity. Qed.
#[local] Hint Resolve grows_send : grows.

Lemma grows_make_request m url p q : grows (__make_request m url p q).
Proof. unfold __make_request. grows_tac. Qed.
#[local] Hint Resolve grows_make_request : grows.

Lemma grows_server_error_of r : grows (server_error_of r).
Proof. unfold server_error_of. grows_tac. Qed.
#[local] Hint Resolve grows_server_error_of : grows.

Lemma grows_handle r msg b : grows (__handle_bad_http_response r msg b).
Proof. unfold __handle_bad_http_response. grows_tac. Qed.
#[local] Hint Resolve grows_handle : grows.

Lemma grows_import_status : grows (import_status).
Proof.
  unfold import_status, __get. grows_tac.
Qed.
#[local] Hint Resolve grows_import_status : grows.

Lemma grows_post_loop fuel url : forall rl data, grows (post_loop fuel url rl data).
Proof.
  induction fuel as [|fuel IH]; intros rl data; simpl.
  - apply grows_ret.
  - unfold __post. grows_tac.
Qed.
#[local] Hint Resolve grows_post_loop : grows.

Lemma grows_wait_loop fuel secs : forall rl data, grows (wait_loop fuel secs rl data).
Proof.
  induction fuel as [|fuel IH]; intros rl data.
  - destruct data; simpl; grows_tac.
  - destruct data; simpl; grows_tac.
Qed.
#[local] Hint Resolve grows_wait_loop : grows.

(** ** One request *)

Lemma make_request_spec m url p q w :
  exists w', __make_request m url p q w
             = (Ret (server (built_request m url p q :: sent w)), w')
    /\ sent w' = built_request m url p q :: sent w /\ slept w' = slept w.
Proof.
  unfold __make_request, built_request.
  destruct (verbose_http self); destruct (target_user self);
  lazy beta iota zeta delta [bind log_debug log_at send ret fst snd sent log slept app];
  (eexists; split; [reflexivity | split; reflexivity]).
Qed.

Lemma bind_log {B} lv f a (k : unit -> M B) w :
  bind (log_at lv f a) k w = k tt (logged lv f a w).
Proof. reflexivity. Qed.

Lemma str_eq_true s v : str_eq s v = true -> v = PStr s.
Proof. destruct v; simpl; try discriminate. intros E. apply String.eqb_eq in E. congruence. Qed.

Lemma status_is_inv s r : status_is s r = true ->
  status_code r = 200
  /\ exists d, json_of_text r = Some (PDict d) /\ dict_get "status" d = Some (PStr s).
Proof.
  unfold status_is. intros H. apply andb_true_iff in H. destruct H as [H1 H2].
  apply Z.eqb_eq in H1. split; [exact H1|].
  destruct (json_of_text r) as [[| | | | | |d]|]; try discriminate.
  exists d. split; [reflexivity|]. destruct (dict_get "status" d); try discriminate.
  apply str_eq_true in H2. congruence.
Qed.

Lemma reply_shift w w' q i P : sent w' = q :: sent w -> reply_at w (S i) P -> reply_at w' i P.
Proof.
  intros E H h Hh. rewrite E.
  replace (h ++ q :: sent w)%list with ((h ++ [q]) ++ sent w)%list
    by (rewrite <- app_assoc; reflexivity).
  apply H. rewrite length_app. simpl. lia.
Qed.

Lemma reply_head w q P : reply_at w 0 P -> P (server (q :: sent w)) = true.
Proof. intros H. apply (H [q]). reflexivity. Qed.

(** ** Polling that does not settle *)

Lemma import_status_known s w :
  In s import_statuses ->
  status_is s (server (status_query :: sent w)) = true ->
  exists d w', import_status w = (Ret (PDict d), w')
    /\ dict_get "status" d = Some (PStr s)
    /\ sent w' = status_query :: sent w /\ slept w' = slept w.
Proof.
  intros Hin Hs. apply status_is_inv in Hs. destruct Hs as (Hc & d & Hj & Hd).
  unfold import_status, __get.
  destruct (make_request_spec GET (join "/" [baseurl self; "imports"]) None None w)
    as (w1 & E & Hs1 & Hl1).
  fold imports_url in E. fold status_query in E, Hs1.
  rewrite (bind_ret_eq _ _ _ _ _ E). rewrite Hc. simpl Z.eqb. cbv iota.
  unfold log_debug, log_error, json_loads. rewrite Hj.
  assert (Hm : in_strs (PStr s) import_statuses = true).
  { unfold in_strs. apply existsb_exists. exists s. split; [exact Hin|].
    simpl. apply String.eqb_refl. }
  unfold bind, log_at, ret, lift. cbn [py_getitem]. rewrite Hd. rewrite Hm. cbn [negb].
  exists d. eexists. split; [reflexivity|]. simpl. auto.
Qed.

Lemma pending_inv r : pending r = true ->
  (status_is "queued" r = true) \/ (status_is "processing" r = true).
Proof. unfold pending. intros H. apply orb_true_iff in H. exact H. Qed.

Lemma import_status_pending w :
  pending (server (status_query :: sent w)) = true ->
  exists d w', import_status w = (Ret (PDict d), w')
    /\ pending_dict d
    /\ sent w' = status_query :: sent w /\ slept w' = slept w.
Proof.
  intros H. apply pending_inv in H. destruct H as [H|H].
  - destruct (import_status_known "queued" w) as (d & w' & E & Hd & Hs); auto.
    { simpl. auto. }
    exists d, w'. split; [exact E|]. split; [left; exact Hd| exact Hs].
  - destruct (import_status_known "processing" w) as (d & w' & E & Hd & Hs); auto.
    { simpl. auto. }
    exists d, w'. split; [exact E|]. split; [right; exact Hd| exact Hs].
Qed.

Lemma pending_guard d : pending_dict d ->
  exists v, dict_get "status" d = Some v /\ (str_eq "queued" v || str_eq "processing" v) = true.
Proof. intros [H|H]; eexists; (split; [exact H|reflexivity]). Qed.

Lemma sleep_ok secs w : 0 <= secs ->
  exists w', sleep secs w = (Ret tt, w') /\ sent w' = sent w.
Proof.
  intros H. unfold sleep. destruct (secs <? 0) eqn:E; [apply Z.ltb_lt in E; lia|].
  eexists. split; reflexivity.
Qed.

Lemma wait_loop_pending secs : 0 <= secs ->
  forall fuel retries_left d w,
    Z.to_nat (retries_left + 1) = fuel ->
    pending_dict d ->
    (forall i, (i < fuel)%nat -> reply_at w i pending) ->
    exists d' w' new,
      wait_loop fuel secs retries_left (PDict d) w = (Ret (PDict d'), w')
      /\ pending_dict d'
      /\ sent w' = (new ++ sent w)%list
      /\ List.length new = fuel
      /\ Forall (eq status_query) new.
Proof.
  intros Hsecs. induction fuel as [|fuel IH]; intros rl d w Hf Hd Hr.
  - destruct (pending_guard d Hd) as (v & Hv & Hg).
    cbn [wait_loop]. unfold bind, lift. cbn [py_getitem]. rewrite Hv, Hg.
    assert (E : (rl >=? 0) = false) by (rewrite Z.geb_leb; apply Z.leb_gt; lia).
    rewrite E. cbn [andb]. exists d, w, []. repeat split; auto.
  - destruct (pending_guard d Hd) as (v & Hv & Hg).
    cbn [wait_loop]. unfold bind at 1, lift. cbn [py_getitem]. rewrite Hv, Hg.
    assert (E : (rl >=? 0) = true) by (rewrite Z.geb_leb; apply Z.leb_le; lia).
    rewrite E. cbn [andb].
    destruct (sleep_ok secs w Hsecs) as (w1 & Es & Hs1).
    rewrite (bind_ret_eq _ _ _ _ _ Es).
    destruct (import_status_pending w1) as (d1 & w2 & Ei & Hd1 & Hs2 & _).
    { rewrite Hs1. apply reply_head. apply Hr. lia. }
    rewrite (bind_ret_eq _ _ _ _ _ Ei).
    destruct (IH (rl - 1) d1 w2) as (d' & w' & new & El & Hd' & Hs' & Hn & Hall); auto.
    { lia. }
    { intros i Hi. eapply reply_shift; [rewrite Hs2, Hs1; reflexivity|]. apply Hr. lia. }
    exists d', w', (new ++ [status_query])%list. split; [exact El|]. split; [exact Hd'|].
    split. { rewrite Hs', Hs2, Hs1. rewrite <- app_assoc. reflexivity. }
    split. { rewrite length_app. simpl. lia. }
    apply Forall_app. split; auto.
Qed.

(** The polling branch against a server that never settles: None, after
    wait_retries + 2 status queries. *)
Lemma polling_never_done wait_retries secs w :
  0 <= wait_retries -> 0 <= secs ->
  (forall i, reply_at w i pending) ->
  exists w' new,
    wait_for_import wait_retries secs w = (Ret PNone, w')
    /\ sent w' = (new ++ sent w)%list
    /\ Forall (eq status_query) new
    /\ Z.of_nat (List.length new) = wait_retries + 2.
Proof.
  intros Hw Hsecs Hr. unfold wait_for_import, log_debug.
  rewrite bind_log.
  set (w0' := logged DEBUG "Waiting for import to complete..." [] w).
  destruct (import_status_pending w0') as (d & w1 & Ei & Hd & Hs1 & _).
  { apply reply_head. apply (Hr 0%nat). }
  rewrite (bind_ret_eq _ _ _ _ _ Ei).
  destruct (wait_loop_pending secs Hsecs (Z.to_nat (wait_retries + 1)) wait_retries d w1)
    as (d' & w2 & new & El & Hd' & Hs2 & Hn & Hall); auto.
  { intros i _. eapply reply_shift; [exact Hs1|]. apply (Hr (S i)). }
  rewrite (bind_ret_eq _ _ _ _ _ El).
  unfold bind at 1, lift. cbn [py_getitem].
  destruct Hd' as [Hq|Hq]; rewrite Hq; cbn.
  - eexists. exists (new ++ [status_query])%list. split; [reflexivity|]. cbn [sent].
    split. { rewrite Hs2, Hs1. rewrite <- app_assoc. reflexivity. }
    split. { apply Forall_app. split; auto. }
    rewrite length_app. simpl. lia.
  - eexists. exists (new ++ [status_query])%list. split; [reflexivity|]. cbn [sent].
    split. { rewrite Hs2, Hs1. rewrite <- app_assoc. reflexivity. }
    split. { apply Forall_app. split; auto. }
    rewrite length_app. simpl. lia.
Qed.

(** ** The submission loop *)

Lemma busy_inv r : busy r = true ->
  status_code r = 424 /\ exists d e, json_of_text r = Some (PDict d) /\ dict_get "error" d = Some e.
Proof.
  unfold busy. intros H. apply andb_true_iff in H. destruct H as [H1 H2].
  apply Z.eqb_eq in H1. split; [exact H1|].
  destruct (json_of_text r) as [[| | | | | |d]|]; try discriminate.
  unfold dict_has in H2. destruct (dict_get "error" d) as [e|] eqn:E; try discriminate.
  exists d, e. auto.
Qed.

Lemma post_spec data w :
  exists w', __post imports_url (Some data) w
             = (Ret (server (import_post data :: sent w)), w')
    /\ sent w' = import_post data :: sent w /\ slept w' = slept w.
Proof. unfold __post, import_post. apply make_request_spec. Qed.

Lemma post_step_busy fuel retries_left data w :
  0 < retries_left ->
  busy (server (import_post data :: sent w)) = true ->
  exists d w1,
    json_of_text (server (import_post data :: sent w)) = Some (PDict d)
    /\ sent w1 = import_post data :: sent w
    /\ post_loop (S fuel) imports_url retries_left data w
       = post_loop fuel imports_url (retries_left - 1) (PDict d) w1.
Proof.
  intros Hr Hb. apply busy_inv in Hb. destruct Hb as (Hc & d & e & Hj & He).
  destruct (post_spec data w) as (w0 & E & Hs & _).
  cbn [post_loop].
  assert (G : (retries_left >? 0) = true) by (rewrite Z.gtb_ltb; apply Z.ltb_lt; lia).
  rewrite G. rewrite (bind_ret_eq _ _ _ _ _ E). rewrite Hc.
  change (424 =? 200) with false. change (424 =? 424) with true. cbv iota.
  unfold json_loads. rewrite Hj.
  unfold bind at 1, ret at 1. unfold bind at 1, lift at 1. cbn [py_getitem]. rewrite He.
  unfold log_warning. rewrite bind_log.
  unfold bind at 1, sleep at 1. change (5 <? 0) with false. cbv iota.
  exists d. eexists. split; [reflexivity|]. split; [|reflexivity]. cbn [sent logged]. exact Hs.
Qed.

Lemma post_step_queued fuel retries_left data w :
  0 < retries_left ->
  status_is "queued" (server (import_post data :: sent w)) = true ->
  exists d w1,
    json_of_text (server (import_post data :: sent w)) = Some (PDict d)
    /\ sent w1 = import_post data :: sent w
    /\ hd_error (log w1) = Some (import_successful (server (import_post data :: sent w)))
    /\ post_loop (S fuel) imports_url retries_left data w
       = (Ret (inr (true, PDict d)), w1).
Proof.
  intros Hr Hb. apply status_is_inv in Hb. destruct Hb as (Hc & d & Hj & He).
  destruct (post_spec data w) as (w0 & E & Hs & _).
  cbn [post_loop].
  assert (G : (retries_left >? 0) = true) by (rewrite Z.gtb_ltb; apply Z.ltb_lt; lia).
  rewrite G. rewrite (bind_ret_eq _ _ _ _ _ E). rewrite Hc.
  change (200 =? 200) with true. cbv iota.
  unfold json_loads. rewrite Hj.
  unfold bind at 1, ret at 1. unfold bind at 1, lift at 1. cbn [py_getitem]. rewrite He.
  change (negb (in_strs (PStr "queued") ["queued"])) with false. cbv iota.
  unfold log_debug. rewrite bind_log.
  exists d. eexists. split; [reflexivity|]. split; [|split; [|reflexivity]].
  - cbn [sent logged]. exact Hs.
  - reflexivity.
Qed.

Lemma busy_has_error r d :
  busy r = true -> json_of_text r = Some (PDict d) -> dict_has "error" d = true.
Proof.
  unfold busy. intros H E. rewrite E in H. apply andb_true_iff in H. apply H.
Qed.

Lemma post_loop_retries k : forall fuel retries_left data w,
  (k < fuel)%nat -> Z.to_nat retries_left = fuel ->
  (forall i, (i < k)%nat -> reply_at w i busy) ->
  reply_at w k (status_is "queued") ->
  exists d w' new,
    post_loop fuel imports_url retries_left data w = (Ret (inr (true, PDict d)), w')
    /\ sent w' = (new ++ sent w)%list
    /\ List.length new = S k
    /\ Forall is_import_post new
    /\ (exists r, hd_error (log w') = Some (import_successful r))
    /\ exists later, new = (later ++ [import_post data])%list
                     /\ Forall resubmission later.
Proof.
  induction k as [|k IH]; intros fuel rl data w Hk Hf Hb Hq.
  - destruct fuel as [|fuel]; [lia|].
    destruct (post_step_queued fuel rl data w) as (d & w1 & _ & Hs & Hl & E).
    { lia. } { apply reply_head. exact Hq. }
    exists d, w1, [import_post data]. split; [exact E|]. split; [exact Hs|].
    split; [reflexivity|]. split; [|split; [eexists; exact Hl|]].
    + constructor; [eexists; reflexivity | constructor].
    + exists []. split; [reflexivity | constructor].
  - destruct fuel as [|fuel]; [lia|].
    assert (Hbusy : busy (server (import_post data :: sent w)) = true)
      by (apply reply_head; apply Hb; lia).
    destruct (post_step_busy fuel rl data w) as (d & w1 & Hj & Hs & E).
    { lia. } { exact Hbusy. }
    destruct (IH fuel (rl - 1) (PDict d) w1)
      as (d' & w' & new & E' & Hs' & Hn & Hall & Hl & later & Hnew & Hlater).
    { lia. } { lia. }
    { intros i Hi. eapply reply_shift; [exact Hs|]. apply Hb. lia. }
    { eapply reply_shift; [exact Hs|]. exact Hq. }
    exists d', w', (new ++ [import_post data])%list. split; [rewrite E; exact E'|].
    split. { rewrite Hs', Hs, <- app_assoc. reflexivity. }
    split. { rewrite length_app. simpl. lia. }
    split; [|split; [exact Hl|]].
    + apply Forall_app. split; [exact Hall|].
      constructor; [eexists; reflexivity | constructor].
    + exists new. split; [reflexivity|]. rewrite Hnew.
      apply Forall_app. split; [exact Hlater|].
      constructor; [|constructor]. exists d. split; [reflexivity|].
      exact (busy_has_error _ _ Hbusy Hj).
Qed.

Lemma post_loop_exhausted : forall fuel retries_left data w,
  Z.to_nat retries_left = fuel ->
  (forall i, (i < fuel)%nat -> reply_at w i busy) ->
  exists data' w' new,
    post_loop fuel imports_url retries_left data w = (Ret (inr (false, data')), w')
    /\ sent w' = (new ++ sent w)%list
    /\ List.length new = fuel
    /\ Forall is_import_post new
    /\ (new = []
        \/ exists later, new = (later ++ [import_post data])%list
                         /\ Forall resubmission later).
Proof.
  induction fuel as [|fuel IH]; intros rl data w Hf Hb.
  - exists data, w, []. repeat split; auto.
  - assert (Hbusy : busy (server (import_post data :: sent w)) = true)
      by (apply reply_head; apply Hb; lia).
    destruct (post_step_busy fuel rl data w) as (d & w1 & Hj & Hs & E).
    { lia. } { exact Hbusy. }
    destruct (IH (rl - 1) (PDict d) w1) as (d' & w' & new & E' & Hs' & Hn & Hall & Hch).
    { lia. }
    { intros i Hi. eapply reply_shift; [exact Hs|]. apply Hb. lia. }
    exists d', w', (new ++ [import_post data])%list. split; [rewrite E; exact E'|].
    split. { rewrite Hs', Hs, <- app_assoc. reflexivity. }
    split. { rewrite length_app. simpl. lia. }
    split.
    + apply Forall_app. split; [exact Hall|].
      constructor; [eexists; reflexivity | constructor].
    + right. exists new. split; [reflexivity|].
      assert (Hd : resubmission (import_post (PDict d))).
      { exists d. split; [reflexivity|]. exact (busy_has_error _ _ Hbusy Hj). }
      destruct Hch as [-> | (later & -> & Hlater)]; [constructor|].
      apply Forall_app. split; [exact Hlater|]. constructor; [exact Hd | constructor].
Qed.

(** The retry budget, for 424 answers that carry the server's error
    message.  When the transport answers 424 to the first k submissions
    and 200 with status queued to the next, and k + 1 is within
    import_retries, the submission loop ends with the import posted after
    exactly k + 1 POSTs, the last record logged being the success of the
    request; when it answers 424 to every submission of the budget, the
    call returns None after exactly import_retries POSTs, and the last
    record logged says it gave up after that many attempts.  In both cases
    the first POST carries the batch and every later one the decoded 424
    answer before it. *)
Theorem import_retry_budget data import_retries wait_retries secs w :
  (forall k : nat,
      Z.of_nat k + 1 <= import_retries ->
      (forall i, (i < k)%nat -> reply_at w i busy) ->
      reply_at w k (status_is "queued") ->
      exists d w' new,
        post_loop (Z.to_nat import_retries) imports_url import_retries data w
          = (Ret (inr (true, d)), w')
        /\ __import_executions data import_retries false wait_retries secs w
          = (Ret PNone, w')
        /\ sent w' = (new ++ sent w)%list
        /\ List.length new = S k
        /\ Forall is_import_post new
        /\ (exists r, hd_error (log w') = Some (import_successful r))
        /\ exists later, new = (later ++ [import_post data])%list
                         /\ Forall resubmission later)
  /\
  (0 <= import_retries ->
   (forall i, Z.of_nat i < import_retries -> reply_at w i busy) ->
   forall wait_for_completion,
   exists w' new,
     __import_executions data import_retries wait_for_completion
       wait_retries secs w = (Ret PNone, w')
     /\ sent w' = (new ++ sent w)%list
     /\ Z.of_nat (List.length new) = import_retries
     /\ Forall is_import_post new
     /\ hd_error (log w') = Some (gave_up import_retries)
     /\ (new = []
         \/ exists later, new = (later ++ [import_post data])%list
                          /\ Forall resubmission later)).
Proof.
  split.
  - intros k Hk Hb Hq.
    destruct (post_loop_retries k (Z.to_nat import_retries) import_retries data w)
      as (d & w' & new & E & Hs & Hn & Hall & Hl & Hch); auto.
    { lia. }
    exists (PDict d), w', new. split; [exact E|]. split; [|auto 6].
    unfold __import_executions. fold imports_url. rewrite (bind_ret_eq _ _ _ _ _ E).
    reflexivity.
  - intros H0 Hb wfc.
    destruct (post_loop_exhausted (Z.to_nat import_retries) import_retries data w)
      as (d & w' & new & E & Hs & Hn & Hall & Hch); auto.
    { intros i Hi. apply Hb. lia. }
    unfold __import_executions. fold imports_url. rewrite (bind_ret_eq _ _ _ _ _ E).
    cbn [negb]. unfold log_error. rewrite bind_log.
    eexists. exists new. split; [reflexivity|]. cbn [sent log logged hd_error].
    split; [exact Hs|]. split; [lia|]. split; [exact Hall|]. split; [reflexivity | exact Hch].
Qed.

(** C4: a 424 answer that does not carry the server's error message (a
    body that is not JSON, or a JSON object without an error field) is not
    retried: the submission loop raises while it builds the retry
    warning, ValueError from the decoder or KeyError for the missing
    field, after one POST and without sleeping. *)
Theorem unreadable_busy_answer_raises data import_retries wait_for_completion
    wait_retries secs w :
  1 <= import_retries ->
  unreadable_busy (server (import_post data :: sent w)) = true ->
  exists w',
    __import_executions data import_retries wait_for_completion wait_retries secs w
    = (Raise (unreadable_busy_error (server (import_post data :: sent w))), w')
    /\ sent w' = import_post data :: sent w
    /\ slept w' = slept w.
Proof.
  intros Hr Hu.
  unfold __import_executions. fold imports_url.
  destruct (Z.to_nat import_retries) as [|fuel] eqn:Ef; [lia|].
  cbn [post_loop].
  assert (G : (import_retries >? 0) = true) by (rewrite Z.gtb_ltb; apply Z.ltb_lt; lia).
  rewrite G.
  destruct (post_spec data w) as (w0 & E & Hs & Hl).
  rewrite <- bind_assoc. rewrite (bind_ret_eq _ _ _ _ _ E).
  set (r := server (import_post data :: sent w)) in *.
  unfold unreadable_busy in Hu. apply andb_true_iff in Hu. destruct Hu as [Hc Hb].
  apply Z.eqb_eq in Hc. rewrite Hc.
  change (424 =? 200) with false. change (424 =? 424) with true. cbv iota.
  unfold unreadable_busy_error, json_loads.
  destruct (json_of_text r) as [[ | | | | | |d]|] eqn:Hj; try discriminate Hb.
  - unfold dict_has in Hb. destruct (dict_get "error" d) as [v|] eqn:Hd; [discriminate Hb|].
    exists w0. split; [|split; assumption].
    unfold bind, ret, lift. cbn [py_getitem]. rewrite Hd. reflexivity.
  - exists w0. split; [reflexivity | split; assumption].
Qed.

(** ** What is posted *)

Lemma bind_extends {A B} (m : M A) (k : A -> M B) w :
  (forall a, grows (k a)) -> extends (snd (m w)) (snd (bind m k w)).
Proof.
  intros Hk. unfold bind. destruct (m w) as [[a|e] w1]; cbn [snd].
  - apply Hk.
  - apply extends_refl.
Qed.

Lemma grows_wait_for_import wait_retries secs :
  grows (wait_for_import wait_retries secs).
Proof.
  unfold wait_for_import.
  grows_tac.
Qed.
#[local] Hint Resolve grows_wait_for_import : grows.

Lemma grows_after_post_loop import_retries (wait_for_completion : bool) wait_retries secs
    (exit : pyval + bool * pyval) :
  grows (match exit return M pyval with
         | inl v => ret v
         | inr (import_posted, data) =>
             if negb import_posted then
               log_error "Unable to import executions after %d attempts. Giving up."
                 [PInt import_retries] ;;
               ret PNone
             else if wait_for_completion then
               wait_for_import wait_retries secs
             else ret PNone
         end).
Proof.
 
  destruct exit as [v|[[|] data]]; cbn [negb]; grows_tac.
Qed.

Lemma post_loop_first fuel retries_left data w :
  0 < retries_left ->
  exists new,
    sent (snd (post_loop (S fuel) imports_url retries_left data w))
    = (new ++ import_post data :: sent w)%list.
Proof.
  intros Hr. destruct (post_spec data w) as (w0 & E & Hs & _).
  cbn [post_loop].
  assert (G : (retries_left >? 0) = true) by (rewrite Z.gtb_ltb; apply Z.ltb_lt; lia).
  rewrite G.
  match goal with
  | |- exists _, sent (snd (bind ?m ?k _)) = _ => pose proof (bind_extends m k w) as Hx
  end.
  rewrite E in Hx. cbn [snd] in Hx. rewrite <- Hs.
  apply Hx. intros r.
  grows_tac.
Qed.

(** C3: after a 424 answer the loop has replaced [data] by the decoded
    body of that answer, so the second POST carries the server's error
    object and not the batch. *)
Theorem retry_posts_error_body batch import_retries wait_for_completion wait_retries secs w :
  2 <= import_retries ->
  reply_at w 0 busy ->
  exists d new,
    json_of_text (server (import_post batch :: sent w)) = Some (PDict d)
    /\ sent (snd (__import_executions batch import_retries wait_for_completion
                    wait_retries secs w))
       = (new ++ import_post (PDict d) :: import_post batch :: sent w)%list.
Proof.
  intros H2 Hb.
  destruct (Z.to_nat import_retries) as [|[|fuel]] eqn:Ef; try lia.
  destruct (post_step_busy (S fuel) import_retries batch w) as (d & w1 & Hj & Hs & E).
  { lia. } { apply reply_head. exact Hb. }
  destruct (post_loop_first fuel (import_retries - 1) (PDict d) w1) as (new1 & Hn1).
  { lia. }
  unfold __import_executions. fold imports_url. rewrite Ef.
  match goal with
  | |- exists _ _, _ /\ sent (snd (bind ?m ?k _)) = _ =>
      destruct (bind_extends m k w) as (new2 & Hn2)
  end.
  { intros exit. apply grows_after_post_loop. }
  exists d, (new2 ++ new1)%list. split; [exact Hj|].
  rewrite Hn2, E, Hn1, Hs, <- app_assoc. reflexivity.
Qed.

(** ** The failure handler on the documented bodies *)

Lemma server_error_of_plain r w : plain_error_body r ->
  exists v w', server_error_of r w = (Ret v, w') /\ sent w' = sent w.
Proof.
  intros [Hn | (d & Hd)]; unfold server_error_of, try_except_ValueError, json_loads.
  - rewrite Hn. unfold bind at 1, raise at 1. unfold ret. eauto.
  - rewrite Hd. unfold bind at 1, ret at 1. unfold bind at 1, lift at 1. cbn [py_contains].
    unfold dict_has. destruct (dict_get "error" d) as [e|] eqn:Ee.
    + unfold lift. cbn [py_getitem]. rewrite Ee. eauto.
    + unfold bind at 1, lift at 1. cbn [py_contains]. unfold dict_has.
      destruct (dict_get "status" d) as [s|] eqn:Es.
      * unfold lift. cbn [py_getitem]. rewrite Es. eauto.
      * unfold log_error. rewrite bind_log. unfold ret. eexists. eexists. split; reflexivity.
Qed.

Lemma handle_bad_plain r msg show_url w : plain_error_body r ->
  exists w', __handle_bad_http_response r msg show_url w = (Ret tt, w')
             /\ sent w' = sent w.
Proof.
  intros Hp. destruct (server_error_of_plain r w Hp) as (v & w1 & E & Hs).
  unfold __handle_bad_http_response. rewrite (bind_ret_eq _ _ _ _ _ E).
  unfold log_error. rewrite !bind_log.
  destruct ((status_code r =? 403) && truthy (target_user self)).
  - eexists. split; [reflexivity|]. cbn [sent logged]. exact Hs.
  - eexists. split; [reflexivity|]. cbn [sent logged]. exact Hs.
Qed.

(** ** Floats *)

Lemma scaled_pos p q e : 0 < p -> 0 < q -> 0 < fst (scaled p q e) /\ 0 < snd (scaled p q e).
Proof.
  intros Hp Hq. unfold scaled. destruct (e <? 0) eqn:E; cbn [fst snd].
  - apply Z.ltb_lt in E. split; [|exact Hq]. apply Z.mul_pos_pos; [exact Hp|].
    apply Z.pow_pos_nonneg; lia.
  - apply Z.ltb_ge in E. split; [exact Hp|]. apply Z.mul_pos_pos; [exact Hq|].
    apply Z.pow_pos_nonneg; lia.
Qed.

Lemma nearest_even_close n d : 0 < d ->
  2 * (nearest_even n d * d - n) <= d /\ 2 * (n - nearest_even n d * d) <= d.
Proof.
  intros Hd. unfold nearest_even.
  pose proof (Z.div_mod n d ltac:(lia)) as Hdm.
  pose proof (Z.mod_pos_bound n d Hd) as Hr.
  destruct (2 * (n mod d) <? d) eqn:E1.
  - apply Z.ltb_lt in E1. nia.
  - apply Z.ltb_ge in E1. destruct (d <? 2 * (n mod d)) eqn:E2.
    + apply Z.ltb_lt in E2. nia.
    + apply Z.ltb_ge in E2. destruct (Z.even (n / d)); nia.
Qed.

Lemma nearest_even_floor n d : 0 < d -> n / d <= nearest_even n d.
Proof.
  intros Hd. unfold nearest_even.
  destruct (2 * (n mod d) <? d); [lia|].
  destruct (d <? 2 * (n mod d)); [lia|]. destruct (Z.even (n / d)); lia.
Qed.

Lemma significand_53_bits p q : 0 < p -> 0 < q ->
  let e := exponent (round_to_float p q) in
  2 ^ 52 <= fst (scaled p q e) / snd (scaled p q e).
Proof.
  intros Hp Hq. unfold round_to_float. cbn [exponent]. cbv zeta.
  set (e0 := Z.log2 p - Z.log2 q - 52).
  destruct (fst (scaled p q e0) / snd (scaled p q e0) <? 2 ^ 52) eqn:E;
    [|apply Z.ltb_ge in E; exact E].
  clear E.
  pose proof (Z.log2_spec p Hp) as [Ha1 Ha2].
  pose proof (Z.log2_spec q Hq) as [Hb1 Hb2].
  pose proof (Z.log2_nonneg p) as Ha. pose proof (Z.log2_nonneg q) as Hb.
  set (a := Z.log2 p) in *. set (b := Z.log2 q) in *.
  destruct (scaled_pos p q (e0 - 1) Hp Hq) as [_ Hd].
  apply Z.div_le_lower_bound; [exact Hd|].
  unfold scaled. destruct (e0 - 1 <? 0) eqn:E; cbn [fst snd].
  - apply Z.ltb_lt in E.
    replace (- (e0 - 1)) with (53 + b - a) by (unfold e0; lia).
    assert (H1 : 2 ^ a * 2 ^ (53 + b - a) = 2 ^ 52 * 2 ^ Z.succ b).
    { rewrite <- !Z.pow_add_r by (unfold e0 in E; lia). f_equal. lia. }
    assert (H2 : 0 < 2 ^ (53 + b - a)) by (apply Z.pow_pos_nonneg; unfold e0 in E; lia).
    nia.
  - apply Z.ltb_ge in E.
    assert (H1 : 2 ^ 52 * (2 ^ Z.succ b * 2 ^ (e0 - 1)) = 2 ^ a).
    { rewrite <- !Z.pow_add_r by lia. f_equal. unfold e0. lia. }
    assert (H2 : 0 < 2 ^ (e0 - 1)) by (apply Z.pow_pos_nonneg; lia).
    nia.
Qed.

Lemma significand_pos p q : 0 < p -> 0 < q -> 0 < significand (round_to_float p q).
Proof.
  intros Hp Hq. pose proof (significand_53_bits p q Hp Hq) as H. cbv zeta in H.
  set (e := exponent (round_to_float p q)) in *.
  destruct (scaled_pos p q e Hp Hq) as [_ Hd].
  pose proof (nearest_even_floor (fst (scaled p q e)) (snd (scaled p q e)) Hd) as Hf.
  change (significand (round_to_float p q))
    with (nearest_even (fst (scaled p q e)) (snd (scaled p q e))).
  assert (0 < 2 ^ 52) by reflexivity. lia.
Qed.

Lemma math_ceil_pos x : 0 < significand x -> 1 <= math_ceil x.
Proof.
  intros Hm. unfold math_ceil. destruct (exponent x <? 0) eqn:E.
  - apply Z.ltb_lt in E.
    assert (Hs : 0 < 2 ^ (- exponent x)) by (apply Z.pow_pos_nonneg; lia).
    assert (- significand x / 2 ^ (- exponent x) < 0); [|lia].
    apply Z.div_lt_upper_bound; [exact Hs | lia].
  - apply Z.ltb_ge in E.
    assert (Hs : 0 < 2 ^ exponent x) by (apply Z.pow_pos_nonneg; lia). nia.
Qed.

(** The value of [float(n)] is [n] up to 2^53. *)
Lemma float_of_int_exact n : 0 < n <= 2 ^ 53 ->
  exists x, float_of_int n = Ret x /\ 0 < significand x
    /\ (if exponent x <? 0 then significand x = n * 2 ^ (- exponent x)
        else significand x * 2 ^ exponent x = n).
Proof.
  intros [Hn Hle]. unfold float_of_int.
  pose proof (significand_53_bits n 1 Hn ltac:(lia)) as Hb. cbv zeta in Hb.
  pose proof (significand_pos n 1 Hn ltac:(lia)) as Hpos.
  set (x := round_to_float n 1) in *.
  assert (Hs : significand x
               = nearest_even (fst (scaled n 1 (exponent x))) (snd (scaled n 1 (exponent x))))
    by reflexivity.
  assert (Hone : forall k, nearest_even k 1 = k).
  { intros k. unfold nearest_even. rewrite Z.mod_1_r, Z.div_1_r. reflexivity. }
  assert (Hval : if exponent x <? 0 then significand x = n * 2 ^ (- exponent x)
                 else significand x * 2 ^ exponent x = n).
  { revert Hb Hs. unfold scaled. destruct (exponent x <? 0) eqn:E; cbn [fst snd].
    - intros _ ->. apply Hone.
    - apply Z.ltb_ge in E. rewrite Z.mul_1_l. intros Hb Hs.
      assert (Hp : 0 < 2 ^ exponent x) by (apply Z.pow_pos_nonneg; lia).
      assert (He : exponent x = 0 \/ exponent x = 1).
      { destruct (Z.le_gt_cases 2 (exponent x)) as [H2|H2]; [|lia].
        exfalso.
        assert (2 ^ 2 <= 2 ^ exponent x) by (apply Z.pow_le_mono_r; lia).
        assert (n / 2 ^ exponent x <= n / 2 ^ 2)
          by (apply Z.div_le_compat_l; [lia | split; [reflexivity | assumption]]).
        assert (n / 2 ^ 2 <= 2 ^ 53 / 2 ^ 2) by (apply Z.div_le_mono; [reflexivity | lia]).
        change (2 ^ 53 / 2 ^ 2) with (2 ^ 51) in *.
        assert (2 ^ 51 < 2 ^ 52) by reflexivity. lia. }
      destruct He as [He | He]; rewrite He in *.
      + change (2 ^ 0) with 1 in *. rewrite Hs, Hone. lia.
      + change (2 ^ 1) with 2 in *.
        assert (n = 2 ^ 53).
        { assert (2 ^ 52 * 2 <= n); [|change (2 ^ 52 * 2) with (2 ^ 53) in *; lia].
          pose proof (Z.div_mod n 2 ltac:(lia)). pose proof (Z.mod_pos_bound n 2 ltac:(lia)).
          lia. }
        subst n. rewrite Hs. reflexivity. }
  exists x. split; [|split; [exact Hpos | exact Hval]].
  assert (Hov : overflows x = false).
  { unfold overflows. apply Z.leb_gt. revert Hval.
    destruct (exponent x <? 0) eqn:E.
    - apply Z.ltb_lt in E. intros _. rewrite (Z.pow_neg_r 2 (exponent x) E).
      rewrite Z.mul_0_r. reflexivity.
    - intros ->. apply Z.le_lt_trans with (2 ^ 53); [exact Hle | reflexivity]. }
  rewrite Hov. reflexivity.
Qed.

(** A quotient equal to [n / 100], for [n] up to 2^53, rounds to a float
    whose ceiling is the ceiling of [n / 100]. *)
Lemma ceil_of_hundredth p q n : 0 < p -> 0 < q -> p * 100 = n * q -> 100 < n <= 2 ^ 53 ->
  math_ceil (round_to_float p q) = (n + 99) / 100.
Proof.
  intros Hp Hq Hpq [Hn Hle].
  pose proof (significand_53_bits p q Hp Hq) as Hb. cbv zeta in Hb.
  set (y := round_to_float p q) in *.
  assert (Hs : significand y
               = nearest_even (fst (scaled p q (exponent y))) (snd (scaled p q (exponent y))))
    by reflexivity.
  destruct (scaled_pos p q (exponent y) Hp Hq) as [_ Hd].
  pose proof (nearest_even_close (fst (scaled p q (exponent y)))
                (snd (scaled p q (exponent y))) Hd) as [Hc1 Hc2].
  rewrite <- Hs in Hc1, Hc2.
  assert (H53 : 2 ^ 53 = 9007199254740992) by reflexivity.
  assert (H52 : 2 ^ 52 = 4503599627370496) by reflexivity.
  rewrite H53 in Hle. rewrite H52 in Hb.
  assert (He : exponent y <= -6).
  { destruct (Z.le_gt_cases (exponent y) (-6)) as [H|H]; [exact H|]. exfalso.
    revert Hb. unfold scaled. destruct (exponent y <? 0) eqn:E; cbn [fst snd].
    - apply Z.ltb_lt in E. intros Hb.
      assert (H5 : 2 ^ (- exponent y) <= 2 ^ 5) by (apply Z.pow_le_mono_r; lia).
      change (2 ^ 5) with 32 in H5.
      assert (Hs0 : 0 < 2 ^ (- exponent y)) by (apply Z.pow_pos_nonneg; lia).
      set (s := 2 ^ (- exponent y)) in *.
      assert (4503599627370496 * q <= p * s).
      { pose proof (Z.div_mod (p * s) q ltac:(lia)).
        pose proof (Z.mod_pos_bound (p * s) q Hq). nia. }
      assert (4503599627370496 * q <= p * 32) by nia.
      nia.
    - apply Z.ltb_ge in E. intros Hb.
      assert (Hs0 : 0 < 2 ^ exponent y) by (apply Z.pow_pos_nonneg; lia).
      set (s := 2 ^ exponent y) in *.
      assert (4503599627370496 * (q * s) <= p).
      { pose proof (Z.div_mod p (q * s) ltac:(nia)).
        pose proof (Z.mod_pos_bound p (q * s) ltac:(nia)). nia. }
      nia. }
  assert (E : (exponent y <? 0) = true) by (apply Z.ltb_lt; lia).
  unfold scaled in Hc1, Hc2. rewrite E in Hc1, Hc2. cbn [fst snd] in Hc1, Hc2.
  unfold math_ceil. rewrite E.
  assert (H6 : 2 ^ 6 <= 2 ^ (- exponent y)) by (apply Z.pow_le_mono_r; lia).
  change (2 ^ 6) with 64 in H6.
  set (s := 2 ^ (- exponent y)) in *. set (m := significand y) in *.
  set (c := (n + 99) / 100).
  assert (Hc : 100 * (c - 1) + 1 <= n <= 100 * c).
  { unfold c. pose proof (Z.div_mod (n + 99) 100 ltac:(lia)).
    pose proof (Z.mod_pos_bound (n + 99) 100 ltac:(lia)). lia. }
  assert (Hlow : 2 * n * s - 200 * m - 100 <= 0).
  { assert (q * (2 * n * s - 200 * m - 100) <= 0) by nia. nia. }
  assert (Hup : 200 * m - 2 * n * s - 100 <= 0).
  { assert (q * (200 * m - 2 * n * s - 100) <= 0) by nia. nia. }
  assert (Hm1 : (c - 1) * s < m) by nia.
  assert (Hm2 : m <= c * s) by nia.
  assert (Hdiv : - m / s = - c).
  { symmetry. apply (Z.div_unique_pos (- m) s (- c) (c * s - m)); lia. }
  rewrite Hdiv. lia.
Qed.

(** Up to 2^53 the page count is the exact ceiling of max_trades / 100. *)
Lemma total_pages_exact max_trades : max_trades <= 2 ^ 53 ->
  total_pages max_trades
  = Ret (if max_trades >? 100 then (max_trades + 99) / 100 else 1).
Proof.
  intros Hle. unfold total_pages.
  destruct (max_trades >? 100) eqn:G; [|reflexivity].
  rewrite Z.gtb_ltb in G. apply Z.ltb_lt in G.
  destruct (float_of_int_exact max_trades ltac:(lia)) as (x & -> & Hpos & Hval).
  f_equal. unfold float_div, hundred. cbn [significand exponent].
  rewrite Z.sub_0_r. destruct (exponent x <? 0) eqn:E.
  - apply Z.ltb_lt in E.
    assert (Hs : 0 < 2 ^ (- exponent x)) by (apply Z.pow_pos_nonneg; lia).
    apply ceil_of_hundredth; [exact Hpos | lia | | lia]. rewrite Hval. ring.
  - apply Z.ltb_ge in E.
    apply ceil_of_hundredth; [lia | lia | | lia]. rewrite Hval. ring.
Qed.

(** Whenever it is computed, the page count is at least 1. *)
Lemma total_pages_pos max_trades pages :
  total_pages max_trades = Ret pages -> 1 <= pages.
Proof.
  unfold total_pages. destruct (max_trades >? 100) eqn:G.
  - rewrite Z.gtb_ltb in G. apply Z.ltb_lt in G.
    unfold float_of_int.
    pose proof (significand_pos max_trades 1 ltac:(lia) ltac:(lia)) as Hpos.
    destruct (overflows (round_to_float max_trades 1)); [discriminate|].
    intros H. injection H as <-. apply math_ceil_pos.
    unfold float_div, hundred. cbn [significand exponent]. rewrite Z.sub_0_r.
    destruct (exponent (round_to_float max_trades 1) <? 0) eqn:E.
    + apply Z.ltb_lt in E. apply significand_pos; [exact Hpos|].
      assert (0 < 2 ^ (- exponent (round_to_float max_trades 1)))
        by (apply Z.pow_pos_nonneg; lia). lia.
    + apply Z.ltb_ge in E. apply significand_pos; [|lia].
      assert (0 < 2 ^ exponent (round_to_float max_trades 1))
        by (apply Z.pow_pos_nonneg; lia). nia.
  - intros H. injection H as <-. lia.
Qed.

(** ** Listing trades *)

Lemma page_shift w w' q i l : sent w' = q :: sent w -> page_at w (S i) l -> page_at w' i l.
Proof.
  intros E H h Hh. rewrite E.
  replace (h ++ q :: sent w)%list with ((h ++ [q]) ++ sent w)%list
    by (rewrite <- app_assoc; reflexivity).
  apply H. rewrite length_app. simpl. lia.
Qed.

Lemma page_head w q l : page_at w 0 l -> listing (server (q :: sent w)) = Some l.
Proof. intros H. apply (H [q]). reflexivity. Qed.

Lemma get_spec data w :
  exists w', __get trades_url (Some (PDict data)) w
             = (Ret (server (page_query data :: sent w)), w')
    /\ sent w' = page_query data :: sent w /\ slept w' = slept w.
Proof. unfold __get, page_query. apply make_request_spec. Qed.

Lemma get_trades_listing data w l :
  listing (server (page_query data :: sent w)) = Some l ->
  exists w', __get_trades data w = (Ret (PList l), w')
             /\ sent w' = page_query data :: sent w.
Proof.
  unfold listing. intros H.
  destruct (get_spec data w) as (w0 & E & Hs & _).
  unfold __get_trades. fold trades_url. rewrite (bind_ret_eq _ _ _ _ _ E).
  destruct (status_code (server (page_query data :: sent w)) =? 200); [|discriminate].
  unfold log_debug, json_loads. rewrite bind_log.
  destruct (json_of_text (server (page_query data :: sent w))) as [[| | | | | |d]|]; try discriminate.
  unfold bind at 1, ret at 1. unfold bind at 1, lift at 1. cbn [py_contains]. unfold dict_has.
  destruct (dict_get "trades" d) as [[| | | | |l'|]|] eqn:Et; try discriminate.
  injection H as ->. cbn [negb]. unfold lift. cbn [py_getitem]. rewrite Et.
  eexists. split; [reflexivity|]. exact Hs.
Qed.

Lemma get_trades_fails data w :
  page_fails (server (page_query data :: sent w)) = true ->
  exists w', __get_trades data w = (Ret PNone, w')
             /\ sent w' = page_query data :: sent w.
Proof.
  unfold page_fails. intros H.
  destruct (get_spec data w) as (w0 & E & Hs & _).
  unfold __get_trades. fold trades_url. rewrite (bind_ret_eq _ _ _ _ _ E).
  set (r := server (page_query data :: sent w)) in *.
  destruct (status_code r =? 200).
  - unfold log_debug, json_loads. rewrite bind_log.
    destruct (json_of_text r) as [[| | | | | |d]|]; try discriminate.
    unfold bind at 1, ret at 1. unfold bind at 1, lift at 1. cbn [py_contains]. unfold dict_has.
    destruct (dict_get "trades" d) as [[| | | | | |]|] eqn:Et; try discriminate; cbn [negb].
    + unfold lift. cbn [py_getitem]. rewrite Et. eexists. split; [reflexivity|]. exact Hs.
    + unfold log_error. rewrite bind_log. eexists. split; [reflexivity|]. exact Hs.
  - destruct (handle_bad_plain r (message "Unable to query trades" []) true w0) as (w1 & Eh & Hs1).
    { unfold plain_error_body. destruct (json_of_text r) as [[| | | | | |d]|]; try discriminate; eauto. }
    rewrite (bind_ret_eq _ _ _ _ _ Eh). eexists. split; [reflexivity|]. rewrite Hs1. exact Hs.
Qed.

Lemma fetch_step_page page pages max_trades data all_trades w l :
  l <> [] ->
  listing (server (page_query (next_query page max_trades data all_trades) :: sent w)) = Some l ->
  exists w1,
    sent w1 = page_query (next_query page max_trades data all_trades) :: sent w
    /\ fetch_pages (page :: pages) max_trades data all_trades w
       = fetch_pages pages max_trades
           (next_query page max_trades data all_trades) (all_trades ++ l)%list w1.
Proof.
  intros Hl H. destruct (get_trades_listing _ w l H) as (w0 & E & Hs).
  cbn [fetch_pages]. fold (next_query page max_trades data all_trades).
  rewrite (bind_ret_eq _ _ _ _ _ E).
  unfold bind at 1, lift at 1. cbn [py_len].
  destruct l as [|x l]; [congruence|].
  assert (E0 : (Z.of_nat (List.length (x :: l)) =? 0) = false).
  { apply Z.eqb_neq. cbn [List.length]. lia. }
  rewrite E0. unfold log_debug. rewrite bind_log.
  unfold bind at 1, lift at 1. cbn [py_iter].
  eexists. split; [|reflexivity]. exact Hs.
Qed.

Lemma fetch_step_empty page pages max_trades data all_trades w :
  listing (server (page_query (next_query page max_trades data all_trades) :: sent w)) = Some [] ->
  exists w1,
    sent w1 = page_query (next_query page max_trades data all_trades) :: sent w
    /\ fetch_pages (page :: pages) max_trades data all_trades w
       = (Ret (inr all_trades), w1).
Proof.
  intros H. destruct (get_trades_listing _ w [] H) as (w0 & E & Hs).
  cbn [fetch_pages]. fold (next_query page max_trades data all_trades).
  rewrite (bind_ret_eq _ _ _ _ _ E).
  unfold bind at 1, lift at 1. cbn [py_len List.length].
  change (Z.of_nat 0 =? 0) with true. cbv iota.
  unfold log_debug. rewrite bind_log.
  eexists. split; [|reflexivity]. exact Hs.
Qed.

Lemma fetch_step_fails page pages max_trades data all_trades w :
  page_fails (server (page_query (next_query page max_trades data all_trades) :: sent w)) = true ->
  exists w1,
    sent w1 = page_query (next_query page max_trades data all_trades) :: sent w
    /\ fetch_pages (page :: pages) max_trades data all_trades w
       = (Ret (inl PNone), w1).
Proof.
  intros H. destruct (get_trades_fails _ w H) as (w0 & E & Hs).
  cbn [fetch_pages]. fold (next_query page max_trades data all_trades).
  rewrite (bind_ret_eq _ _ _ _ _ E).
  unfold log_debug. rewrite bind_log.
  eexists. split; [|reflexivity]. exact Hs.
Qed.

Lemma checked_filter_ok key pattern complaint value data w :
  filter_ok pattern value ->
  exists data', checked_filter key pattern complaint value data w
                = (Ret data', w).
Proof.
  unfold filter_ok, checked_filter. destruct value as [v|].
  - intros [Hm Hv]. rewrite Hm. cbn [negb]. destruct v as [|c v]; [congruence|].
    unfold first_char. unfold bind, ret. eauto.
  - intros _. unfold ret. eauto.
Qed.

Lemma checked_filter_pure key pattern complaint value data w w' data' :
  checked_filter key pattern complaint value data w = (Ret data', w) ->
  checked_filter key pattern complaint value data w' = (Ret data', w').
Proof.
  unfold checked_filter. destruct value as [v|].
  - destruct (negb (re_match_ignorecase pattern v)); [discriminate|].
    destruct v as [|c v]; unfold first_char, bind, ret, raise; [discriminate|].
    intros E. injection E as <-. reflexivity.
  - unfold ret. intros E. injection E as <-. reflexivity.
Qed.

Lemma get_trades_pages symbol tag_expr side duration startdate enddate :
  filter_ok "^(long|short)$" side ->
  filter_ok "^(intraday|multiday)$" duration ->
  exists data0, forall max_trades pages w,
    total_pages max_trades = Ret pages ->
    (forall w1 v,
        fetch_pages (range 1 (pages + 1)) max_trades data0 [] w
        = (Ret (inl v), w1) ->
        get_trades
          symbol tag_expr side duration startdate enddate max_trades w = (Ret v, w1))
    /\ (forall w1 all_trades,
        fetch_pages (range 1 (pages + 1)) max_trades data0 [] w
        = (Ret (inr all_trades), w1) ->
        exists w2,
          get_trades
            symbol tag_expr side duration startdate enddate max_trades w
          = (Ret (PList all_trades), w2)
          /\ sent w2 = sent w1)
    /\ (forall w1 e,
        fetch_pages (range 1 (pages + 1)) max_trades data0 [] w
        = (Raise e, w1) ->
        get_trades
          symbol tag_expr side duration startdate enddate max_trades w = (Raise e, w1)).
Proof.
  intros Hs Hd. unfold get_trades.
  match goal with
  | |- context [checked_filter "side" ?p ?c side ?d] =>
      destruct (checked_filter_ok "side" p c side d no_history Hs) as (dB & HB0);
      assert (HB : forall w, checked_filter "side" p c side d w = (Ret dB, w))
        by (intros w; apply (checked_filter_pure _ _ _ _ _ _ _ _ HB0))
  end.
  match goal with
  | |- context [checked_filter "duration" ?p ?c duration _] =>
      destruct (checked_filter_ok "duration" p c duration dB no_history Hd) as (dD & HD0);
      assert (HD : forall w, checked_filter "duration" p c duration dB w = (Ret dD, w))
        by (intros w; apply (checked_filter_pure _ _ _ _ _ _ _ _ HD0))
  end.
  eexists. intros max_trades pages w Hp.
  rewrite (bind_ret_eq _ _ _ _ _ (HB w)). rewrite (bind_ret_eq _ _ _ _ _ (HD w)).
  rewrite Hp. rewrite (bind_ret_eq (lift (Ret pages)) _ w pages w eq_refl).
  split; [|split].
  - intros w1 v E. rewrite (bind_ret_eq _ _ _ _ _ E). reflexivity.
  - intros w1 all_trades E. rewrite (bind_ret_eq _ _ _ _ _ E).
    match goal with |- context [if ?b then _ else _] => destruct b end.
    + unfold log_warning. rewrite bind_log. eexists. split; reflexivity.
    + eexists. split; reflexivity.
  - intros w1 e E. unfold bind. rewrite E. reflexivity.
Qed.

Lemma dict_get_set_same k v d : dict_get k (dict_set k v d) = Some v.
Proof.
  induction d as [|[k' v'] d IH]; cbn [dict_set dict_get].
  - rewrite String.eqb_refl. reflexivity.
  - destruct (String.eqb k k') eqn:E; cbn [dict_get]; rewrite E; auto.
Qed.

Lemma dict_get_set_other k k' v d : k <> k' -> dict_get k (dict_set k' v d) = dict_get k d.
Proof.
  intros Hk. induction d as [|[k2 v2] d IH]; cbn [dict_set dict_get].
  - apply String.eqb_neq in Hk. rewrite Hk. reflexivity.
  - destruct (String.eqb k' k2) eqn:E; cbn [dict_get].
    + apply String.eqb_eq in E. subst k2. apply String.eqb_neq in Hk. rewrite Hk. reflexivity.
    + destruct (String.eqb k k2); auto.
Qed.

Lemma paging_next page max_trades data all_trades :
  paging (next_query page max_trades data all_trades)
  = (Some (PInt page),
     Some (PInt (if max_trades - Z.of_nat (List.length all_trades) >=? 100 then 100
                 else max_trades - Z.of_nat (List.length all_trades)))).
Proof.
  unfold paging, next_query. cbv zeta. rewrite dict_get_set_same.
  rewrite dict_get_set_other by discriminate. rewrite dict_get_set_same. reflexivity.
Qed.

Lemma pages_250 : total_pages 250 = Ret 3.
Proof. reflexivity. Qed.

(** [get_trades] with max_trades = 250.  When every page comes back
    full, three page requests are sent, for pages 1, 2, 3 with counts 100,
    100, 50, and the result is the three lists in order.  When a page comes
    back empty after fewer than three non-empty ones, no further page is
    requested and the result is what was collected.  When a page request
    fails instead, with an error body that is a JSON object or not JSON
    (or a 200 without trades), the call returns None. *)
Theorem get_trades_250 symbol tag_expr side duration startdate enddate w :
  filter_ok "^(long|short)$" side ->
  filter_ok "^(intraday|multiday)$" duration ->
  (forall l1 l2 l3,
      List.length l1 = 100%nat -> List.length l2 = 100%nat -> List.length l3 = 50%nat ->
      page_at w 0 l1 -> page_at w 1 l2 -> page_at w 2 l3 ->
      exists d1 d2 d3 w',
        get_trades
          symbol tag_expr side duration startdate enddate 250 w
        = (Ret (PList (l1 ++ l2 ++ l3)), w')
        /\ sent w' = ([page_query d3; page_query d2; page_query d1] ++ sent w)%list
        /\ paging d1 = (Some (PInt 1), Some (PInt 100))
        /\ paging d2 = (Some (PInt 2), Some (PInt 100))
        /\ paging d3 = (Some (PInt 3), Some (PInt 50)))
  /\
  (forall pages,
      (List.length pages < 3)%nat ->
      Forall (fun l => l <> []) pages ->
      (forall i l, nth_error pages i = Some l -> page_at w i l) ->
      (page_at w (List.length pages) [] ->
       exists w' new,
         get_trades
           symbol tag_expr side duration startdate enddate 250 w
         = (Ret (PList (List.concat pages)), w')
         /\ sent w' = (new ++ sent w)%list
         /\ List.length new = S (List.length pages))
      /\
      (reply_at w (List.length pages) page_fails ->
       exists w' new,
         get_trades
           symbol tag_expr side duration startdate enddate 250 w
         = (Ret PNone, w')
         /\ sent w' = (new ++ sent w)%list
         /\ List.length new = S (List.length pages))).
Proof.
  intros Hside Hdur.
  destruct (get_trades_pages symbol tag_expr side duration startdate enddate Hside Hdur)
    as (data0 & Hget).
  destruct (Hget 250 3 w pages_250) as (Hinl & Hinr & _).
  change (range 1 (3 + 1)) with [1; 2; 3] in Hinl, Hinr. clear Hget.
  split.
  - intros l1 l2 l3 H1 H2 H3 P1 P2 P3.
    assert (N1 : l1 <> []) by (intros ->; discriminate).
    assert (N2 : l2 <> []) by (intros ->; discriminate).
    assert (N3 : l3 <> []) by (intros ->; discriminate).
    destruct (fetch_step_page 1 [2; 3] 250 data0 [] w l1 N1) as (w1 & S1 & E1).
    { apply page_head. exact P1. }
    set (d1 := next_query 1 250 data0 []) in *.
    destruct (fetch_step_page 2 [3] 250 d1 ([] ++ l1) w1 l2 N2) as (w2 & S2 & E2).
    { apply page_head. eapply page_shift; [exact S1|exact P2]. }
    set (d2 := next_query 2 250 d1 ([] ++ l1)) in *.
    destruct (fetch_step_page 3 [] 250 d2 (([] ++ l1) ++ l2) w2 l3 N3) as (w3 & S3 & E3).
    { apply page_head. eapply page_shift; [exact S2|]. eapply page_shift; [exact S1|exact P3]. }
    set (d3 := next_query 3 250 d2 (([] ++ l1) ++ l2)) in *.
    destruct (Hinr w3 ((([] ++ l1) ++ l2) ++ l3)%list) as (w4 & Eg & S4).
    { rewrite E1, E2, E3. reflexivity. }
    exists d1, d2, d3, w4. split.
    { rewrite Eg. cbn [app]. rewrite <- app_assoc. reflexivity. }
    split. { rewrite S4, S3, S2, S1. reflexivity. }
    unfold d1, d2, d3. rewrite !paging_next. cbn [app List.length].
    rewrite !length_app, H1, H2. repeat split; reflexivity.
  - intros pages Hlen Hne Hpg.
    assert (Hcase : pages = [] \/ (exists a, pages = [a]) \/ (exists a b, pages = [a; b])).
    { destruct pages as [|a [|b [|c p]]]; cbn in Hlen; eauto; lia. }
    split.
    + intros Pe. destruct Hcase as [-> | [(a & ->) | (a & b & ->)]]; cbn [List.length] in *.
      * destruct (fetch_step_empty 1 [2; 3] 250 data0 [] w) as (w1 & S1 & E1).
        { apply page_head. exact Pe. }
        destruct (Hinr w1 []) as (w4 & Eg & S4); [exact E1|].
        exists w4, [page_query (next_query 1 250 data0 [])]. split; [exact Eg|].
        split; [rewrite S4, S1; reflexivity | reflexivity].
      * inversion Hne as [|? ? Na _]; subst.
        destruct (fetch_step_page 1 [2; 3] 250 data0 [] w a Na) as (w1 & S1 & E1).
        { apply page_head. apply (Hpg 0%nat). reflexivity. }
        set (d1 := next_query 1 250 data0 []) in *.
        destruct (fetch_step_empty 2 [3] 250 d1 ([] ++ a) w1) as (w2 & S2 & E2).
        { apply page_head. eapply page_shift; [exact S1|exact Pe]. }
        destruct (Hinr w2 ([] ++ a)%list) as (w4 & Eg & S4); [rewrite E1; exact E2|].
        exists w4, [page_query (next_query 2 250 d1 ([] ++ a)); page_query d1].
        split. { rewrite Eg. cbn [List.concat app]. rewrite app_nil_r. reflexivity. }
        split; [rewrite S4, S2, S1; reflexivity | reflexivity].
      * inversion Hne as [|? ? Na Hne']; subst. inversion Hne' as [|? ? Nb _]; subst.
        destruct (fetch_step_page 1 [2; 3] 250 data0 [] w a Na) as (w1 & S1 & E1).
        { apply page_head. apply (Hpg 0%nat). reflexivity. }
        set (d1 := next_query 1 250 data0 []) in *.
        destruct (fetch_step_page 2 [3] 250 d1 ([] ++ a) w1 b Nb) as (w2 & S2 & E2).
        { apply page_head. eapply page_shift; [exact S1|]. apply (Hpg 1%nat). reflexivity. }
        set (d2 := next_query 2 250 d1 ([] ++ a)) in *.
        destruct (fetch_step_empty 3 [] 250 d2 (([] ++ a) ++ b) w2) as (w3 & S3 & E3).
        { apply page_head. eapply page_shift; [exact S2|]. eapply page_shift; [exact S1|exact Pe]. }
        destruct (Hinr w3 (([] ++ a) ++ b)%list) as (w4 & Eg & S4); [rewrite E1, E2; exact E3|].
        exists w4, [page_query (next_query 3 250 d2 (([] ++ a) ++ b)); page_query d2; page_query d1].
        split. { rewrite Eg. cbn [List.concat app]. rewrite app_nil_r. reflexivity. }
        split; [rewrite S4, S3, S2, S1; reflexivity | reflexivity].
    + intros Pf. destruct Hcase as [-> | [(a & ->) | (a & b & ->)]]; cbn [List.length] in *.
      * destruct (fetch_step_fails 1 [2; 3] 250 data0 [] w) as (w1 & S1 & E1).
        { apply reply_head. exact Pf. }
        exists w1, [page_query (next_query 1 250 data0 [])]. split; [apply Hinl; exact E1|].
        split; [rewrite S1; reflexivity | reflexivity].
      * inversion Hne as [|? ? Na _]; subst.
        destruct (fetch_step_page 1 [2; 3] 250 data0 [] w a Na) as (w1 & S1 & E1).
        { apply page_head. apply (Hpg 0%nat). reflexivity. }
        set (d1 := next_query 1 250 data0 []) in *.
        destruct (fetch_step_fails 2 [3] 250 d1 ([] ++ a) w1) as (w2 & S2 & E2).
        { apply reply_head. eapply reply_shift; [exact S1|exact Pf]. }
        exists w2, [page_query (next_query 2 250 d1 ([] ++ a)); page_query d1].
        split; [apply Hinl; rewrite E1; exact E2|].
        split; [rewrite S2, S1; reflexivity | reflexivity].
      * inversion Hne as [|? ? Na Hne']; subst. inversion Hne' as [|? ? Nb _]; subst.
        destruct (fetch_step_page 1 [2; 3] 250 data0 [] w a Na) as (w1 & S1 & E1).
        { apply page_head. apply (Hpg 0%nat). reflexivity. }
        set (d1 := next_query 1 250 data0 []) in *.
        destruct (fetch_step_page 2 [3] 250 d1 ([] ++ a) w1 b Nb) as (w2 & S2 & E2).
        { apply page_head. eapply page_shift; [exact S1|]. apply (Hpg 1%nat). reflexivity. }
        set (d2 := next_query 2 250 d1 ([] ++ a)) in *.
        destruct (fetch_step_fails 3 [] 250 d2 (([] ++ a) ++ b) w2) as (w3 & S3 & E3).
        { apply reply_head. eapply reply_shift; [exact S2|].
          eapply reply_shift; [exact S1|exact Pf]. }
        exists w3, [page_query (next_query 3 250 d2 (([] ++ a) ++ b)); page_query d2; page_query d1].
        split; [apply Hinl; rewrite E1, E2; exact E3|].
        split; [rewrite S3, S2, S1; reflexivity | reflexivity].
Qed.

(** ** A failing page with a scalar body *)

Lemma handle_scalar_raises r msg show_url w :
  scalar_error r = true ->
  __handle_bad_http_response r msg show_url w
  = (Raise (TypeError "argument is not iterable"), w).
Proof.
  unfold scalar_error. intros H. apply andb_true_iff in H. destruct H as [_ H].
  destruct (json_of_text r) as [v|] eqn:E; [|discriminate H].
  unfold __handle_bad_http_response, server_error_of, try_except_ValueError, json_loads.
  unfold bind at 1. unfold bind at 1. rewrite E.
  destruct v; try discriminate H; reflexivity.
Qed.

Lemma get_trades_scalar_error data w :
  scalar_error (server (page_query data :: sent w)) = true ->
  exists w', __get_trades data w = (Raise (TypeError "argument is not iterable"), w')
             /\ sent w' = page_query data :: sent w.
Proof.
  intros H. destruct (get_spec data w) as (w0 & E & Hs & _).
  unfold __get_trades. fold trades_url. rewrite (bind_ret_eq _ _ _ _ _ E).
  set (r := server (page_query data :: sent w)) in *.
  assert (Hc : (status_code r =? 200) = false).
  { unfold scalar_error in H. apply andb_true_iff in H. destruct H as [H _].
    apply negb_true_iff in H. exact H. }
  rewrite Hc.
  rewrite (bind_raise_eq _ _ _ _ _
             (handle_scalar_raises r (message "Unable to query trades" []) true w0 H)).
  exists w0. split; [reflexivity | exact Hs].
Qed.

Lemma fetch_step_raises page pages max_trades data all_trades w :
  scalar_error (server (page_query (next_query page max_trades data all_trades) :: sent w))
  = true ->
  exists w1,
    sent w1 = page_query (next_query page max_trades data all_trades) :: sent w
    /\ fetch_pages (page :: pages) max_trades data all_trades w
       = (Raise (TypeError "argument is not iterable"), w1).
Proof.
  intros H. destruct (get_trades_scalar_error _ w H) as (w0 & E & Hs).
  cbn [fetch_pages]. fold (next_query page max_trades data all_trades).
  rewrite (bind_raise_eq _ _ _ _ _ E).
  exists w0. split; [exact Hs | reflexivity].
Qed.

(** C7: [get_trades] with max_trades = 250, when a page request fails with
    an error whose body is a JSON scalar (null, a boolean, a number) after
    fewer than three non-empty pages: the call raises TypeError, from the
    response interpreter, and does not return None; no further page is
    requested. *)
Theorem failing_page_raises symbol tag_expr side duration startdate enddate w pages :
  filter_ok "^(long|short)$" side ->
  filter_ok "^(intraday|multiday)$" duration ->
  (List.length pages < 3)%nat ->
  Forall (fun l => l <> []) pages ->
  (forall i l, nth_error pages i = Some l -> page_at w i l) ->
  reply_at w (List.length pages) scalar_error ->
  exists w' new,
    get_trades symbol tag_expr side duration startdate enddate 250 w
    = (Raise (TypeError "argument is not iterable"), w')
    /\ sent w' = (new ++ sent w)%list
    /\ List.length new = S (List.length pages).
Proof.
  intros Hside Hdur Hlen Hne Hpg Pf.
  destruct (get_trades_pages symbol tag_expr side duration startdate enddate Hside Hdur)
    as (data0 & Hget).
  destruct (Hget 250 3 w pages_250) as (_ & _ & Hraise).
  change (range 1 (3 + 1)) with [1; 2; 3] in Hraise. clear Hget.
  assert (Hcase : pages = [] \/ (exists a, pages = [a]) \/ (exists a b, pages = [a; b])).
  { destruct pages as [|a [|b [|c p]]]; cbn in Hlen; eauto; lia. }
  destruct Hcase as [-> | [(a & ->) | (a & b & ->)]]; cbn [List.length] in *.
  - destruct (fetch_step_raises 1 [2; 3] 250 data0 [] w) as (w1 & S1 & E1).
    { apply reply_head. exact Pf. }
    exists w1, [page_query (next_query 1 250 data0 [])]. split; [apply Hraise; exact E1|].
    split; [rewrite S1; reflexivity | reflexivity].
  - inversion Hne as [|? ? Na _]; subst.
    destruct (fetch_step_page 1 [2; 3] 250 data0 [] w a Na) as (w1 & S1 & E1).
    { apply page_head. apply (Hpg 0%nat). reflexivity. }
    set (d1 := next_query 1 250 data0 []) in *.
    destruct (fetch_step_raises 2 [3] 250 d1 ([] ++ a) w1) as (w2 & S2 & E2).
    { apply reply_head. eapply reply_shift; [exact S1|exact Pf]. }
    exists w2, [page_query (next_query 2 250 d1 ([] ++ a)); page_query d1].
    split; [apply Hraise; rewrite E1; exact E2|].
    split; [rewrite S2, S1; reflexivity | reflexivity].
  - inversion Hne as [|? ? Na Hne']; subst. inversion Hne' as [|? ? Nb _]; subst.
    destruct (fetch_step_page 1 [2; 3] 250 data0 [] w a Na) as (w1 & S1 & E1).
    { apply page_head. apply (Hpg 0%nat). reflexivity. }
    set (d1 := next_query 1 250 data0 []) in *.
    destruct (fetch_step_page 2 [3] 250 d1 ([] ++ a) w1 b Nb) as (w2 & S2 & E2).
    { apply page_head. eapply page_shift; [exact S1|]. apply (Hpg 1%nat). reflexivity. }
    set (d2 := next_query 2 250 d1 ([] ++ a)) in *.
    destruct (fetch_step_raises 3 [] 250 d2 (([] ++ a) ++ b) w2) as (w3 & S3 & E3).
    { apply reply_head. eapply reply_shift; [exact S2|].
      eapply reply_shift; [exact S1|exact Pf]. }
    exists w3, [page_query (next_query 3 250 d2 (([] ++ a) ++ b)); page_query d2; page_query d1].
    split; [apply Hraise; rewrite E1, E2; exact E3|].
    split; [rewrite S3, S2, S1; reflexivity | reflexivity].
Qed.

(** ** Polling that settles *)

Lemma wait_loop_done fuel secs retries_left d w v :
  dict_get "status" d = Some v ->
  (str_eq "queued" v || str_eq "processing" v) = false ->
  wait_loop fuel secs retries_left (PDict d) w = (Ret (PDict d), w).
Proof.
  intros Hv Hg. destruct fuel; cbn [wait_loop]; unfold bind, lift; cbn [py_getitem];
    rewrite Hv, Hg; reflexivity.
Qed.

Lemma settled_known s : settled s -> In s import_statuses.
Proof. unfold settled, import_statuses. intros [-> | [-> | ->]]; cbn [In]; auto 6. Qed.

Lemma settled_guard s : settled s ->
  (str_eq "queued" (PStr s) || str_eq "processing" (PStr s)) = false.
Proof. unfold settled. intros [-> | [-> | ->]]; reflexivity. Qed.

Lemma wait_loop_settles s secs : settled s -> 0 <= secs ->
  forall j fuel retries_left d w,
    (j < fuel)%nat -> Z.to_nat (retries_left + 1) = fuel ->
    pending_dict d ->
    (forall i, (i < j)%nat -> reply_at w i pending) ->
    reply_at w j (status_is s) ->
    exists d' w' new,
      wait_loop fuel secs retries_left (PDict d) w = (Ret (PDict d'), w')
      /\ dict_get "status" d' = Some (PStr s)
      /\ sent w' = (new ++ sent w)%list
      /\ List.length new = S j.
Proof.
  intros Hset Hsecs. induction j as [|j IH]; intros fuel rl d w Hj Hf Hd Hp Hs.
  - destruct fuel as [|fuel]; [lia|].
    destruct (pending_guard d Hd) as (v & Hv & Hg).
    cbn [wait_loop]. unfold bind at 1, lift at 1. cbn [py_getitem]. rewrite Hv, Hg.
    assert (E : (rl >=? 0) = true) by (rewrite Z.geb_leb; apply Z.leb_le; lia).
    rewrite E. cbn [andb].
    destruct (sleep_ok secs w Hsecs) as (w1 & Es & Hs1).
    rewrite (bind_ret_eq _ _ _ _ _ Es).
    destruct (import_status_known s w1) as (d1 & w2 & Ei & Hd1 & Hs2 & _).
    { apply settled_known. exact Hset. }
    { rewrite Hs1. apply reply_head. exact Hs. }
    rewrite (bind_ret_eq _ _ _ _ _ Ei).
    rewrite (wait_loop_done _ _ _ _ _ _ Hd1 (settled_guard s Hset)).
    exists d1, w2, [status_query]. split; [reflexivity|]. split; [exact Hd1|].
    split; [rewrite Hs2, Hs1; reflexivity | reflexivity].
  - destruct fuel as [|fuel]; [lia|].
    destruct (pending_guard d Hd) as (v & Hv & Hg).
    cbn [wait_loop]. unfold bind at 1, lift at 1. cbn [py_getitem]. rewrite Hv, Hg.
    assert (E : (rl >=? 0) = true) by (rewrite Z.geb_leb; apply Z.leb_le; lia).
    rewrite E. cbn [andb].
    destruct (sleep_ok secs w Hsecs) as (w1 & Es & Hs1).
    rewrite (bind_ret_eq _ _ _ _ _ Es).
    destruct (import_status_pending w1) as (d1 & w2 & Ei & Hd1 & Hs2 & _).
    { rewrite Hs1. apply reply_head. apply Hp. lia. }
    rewrite (bind_ret_eq _ _ _ _ _ Ei).
    destruct (IH fuel (rl - 1) d1 w2) as (d' & w' & new & El & Hd' & Hs' & Hn); auto.
    { lia. } { lia. }
    { intros i Hi. eapply reply_shift; [rewrite Hs2, Hs1; reflexivity|]. apply Hp. lia. }
    { eapply reply_shift; [rewrite Hs2, Hs1; reflexivity|]. exact Hs. }
    exists d', w', (new ++ [status_query])%list. split; [exact El|]. split; [exact Hd'|].
    split. { rewrite Hs', Hs2, Hs1, <- app_assoc. reflexivity. }
    rewrite length_app. simpl. lia.
Qed.

(** Polling until the server reports [s]: the payload the loop ends with. *)
Lemma poll_settles s wait_retries secs w (k : nat) :
  settled s -> 0 <= secs ->
  Z.of_nat k <= wait_retries + 1 ->
  (forall i, (i < k)%nat -> reply_at w i pending) ->
  reply_at w k (status_is s) ->
  exists d w1 new,
    (data <- import_status ;;
     wait_loop (Z.to_nat (wait_retries + 1)) secs wait_retries data) w
    = (Ret (PDict d), w1)
    /\ dict_get "status" d = Some (PStr s)
    /\ sent w1 = (new ++ sent w)%list
    /\ List.length new = S k.
Proof.
  intros Hset Hsecs Hk Hp Hs. destruct k as [|k].
  - destruct (import_status_known s w) as (d & w1 & Ei & Hd & Hs1 & _).
    { apply settled_known. exact Hset. } { apply reply_head. exact Hs. }
    rewrite (bind_ret_eq _ _ _ _ _ Ei).
    rewrite (wait_loop_done _ _ _ _ _ _ Hd (settled_guard s Hset)).
    exists d, w1, [status_query]. auto.
  - destruct (import_status_pending w) as (d & w1 & Ei & Hd & Hs1 & _).
    { apply reply_head. apply Hp. lia. }
    rewrite (bind_ret_eq _ _ _ _ _ Ei).
    destruct (wait_loop_settles s secs Hset Hsecs k (Z.to_nat (wait_retries + 1)) wait_retries d w1)
      as (d' & w' & new & El & Hd' & Hs' & Hn); auto.
    { lia. }
    { intros i Hi. eapply reply_shift; [exact Hs1|]. apply Hp. lia. }
    { eapply reply_shift; [exact Hs1|]. exact Hs. }
    exists d', w', (new ++ [status_query])%list. split; [exact El|]. split; [exact Hd'|].
    split. { rewrite Hs', Hs1, <- app_assoc. reflexivity. }
    rewrite length_app. simpl. lia.
Qed.

(** The polling branch when the server settles on failed: None, logged as
    an unsupported status. *)
Lemma failed_status_unsupported wait_retries secs w (k : nat) :
  0 <= secs ->
  Z.of_nat k <= wait_retries + 1 ->
  (forall i, (i < k)%nat -> reply_at w i pending) ->
  reply_at w k (status_is "failed") ->
  exists w',
    wait_for_import wait_retries secs w = (Ret PNone, w')
    /\ hd_error (log w') = Some (unsupported (PStr "failed")).
Proof.
  intros Hsecs Hk Hp Hs.
  unfold wait_for_import, log_debug. rewrite bind_log.
  set (w0 := logged DEBUG "Waiting for import to complete..." [] w).
  destruct (poll_settles "failed" wait_retries secs w0 k) as (d & w1 & new & E & Hd & _); auto.
  { unfold settled. auto. }
  rewrite bind_assoc. rewrite (bind_ret_eq _ _ _ _ _ E).
  unfold bind at 1, lift at 1. cbn [py_getitem]. rewrite Hd.
  change (str_eq "ready" (PStr "failed")) with false.
  change (str_eq "succeeded" (PStr "failed")) with false.
  change (str_eq "failure" (PStr "failed")) with false.
  change (in_strs (PStr "failed") ["queued"; "processing"]) with false.
  cbv iota. unfold log_error. rewrite bind_log. eexists. split; reflexivity.
Qed.

Lemma import_status_http_error w :
  http_error (server (status_query :: sent w)) = true ->
  exists w', import_status w = (Ret PNone, w')
             /\ sent w' = status_query :: sent w.
Proof.
  unfold http_error. intros H. apply andb_true_iff in H. destruct H as [Hc Hb].
  apply negb_true_iff in Hc.
  unfold import_status, __get.
  destruct (make_request_spec GET (join "/" [baseurl self; "imports"]) None None w)
    as (w1 & E & Hs1 & _).
  fold imports_url in E. fold status_query in E, Hs1.
  rewrite (bind_ret_eq _ _ _ _ _ E). rewrite Hc.
  destruct (handle_bad_plain (server (status_query :: sent w))
              (message "Unable to query import status" []) false w1) as (w2 & Eh & Hs2).
  { unfold plain_error_body.
    destruct (json_of_text (server (status_query :: sent w))) as [[| | | | | |d]|];
      try discriminate; eauto. }
  rewrite (bind_ret_eq _ _ _ _ _ Eh). eexists. split; [reflexivity|]. rewrite Hs2. exact Hs1.
Qed.

Lemma wait_loop_none fuel secs retries_left w :
  wait_loop fuel secs retries_left PNone w = (Ret PNone, w).
Proof. destruct fuel; reflexivity. Qed.

Lemma wait_for_import_status_error wait_retries secs w :
  reply_at w 0 http_error ->
  exists w',
    wait_for_import wait_retries secs w
    = (Raise (TypeError "object is not subscriptable"), w').
Proof.
  intros Hr. unfold wait_for_import, log_debug. rewrite bind_log.
  set (w0 := logged DEBUG "Waiting for import to complete..." [] w).
  destruct (import_status_http_error w0) as (w1 & E & Hs).
  { apply reply_head. exact Hr. }
  rewrite (bind_ret_eq _ _ _ _ _ E).
  unfold bind at 1. rewrite wait_loop_none.
  eexists. reflexivity.
Qed.

(** ** Building the batch *)

Lemma store_same l v h : store l v h l = v.
Proof. unfold store. rewrite Nat.eqb_refl. reflexivity. Qed.

Lemma store_other l l' v h : l' <> l -> store l v h l' = h l'.
Proof. intros H. unfold store. apply Nat.eqb_neq in H. rewrite H. reflexivity. Qed.

Lemma str_eq_iff s v : str_eq s v = true <-> v = PStr s.
Proof.
  split; [apply str_eq_true|]. intros ->. cbn [str_eq]. apply String.eqb_refl.
Qed.

Lemma tag_present a ts : existsb (str_eq a) ts = true <-> In (PStr a) ts.
Proof.
  rewrite existsb_exists. split.
  - intros (x & Hx & E). apply str_eq_iff in E. subst x. exact Hx.
  - intros H. exists (PStr a). split; [exact H|]. apply str_eq_iff. reflexivity.
Qed.

Lemma tag_absent a ts : existsb (str_eq a) ts = false <-> ~ In (PStr a) ts.
Proof.
  rewrite <- tag_present. destruct (existsb (str_eq a) ts); split; intros H; congruence.
Qed.

(** A call that passes validation builds the batch and leaves the store as
    [heap_after] says. *)
Lemma import_batch_eq executions account_tag tags allow overlay h e es given :
  h executions = PList (e :: es) ->
  tags_given h tags given ->
  import_batch executions account_tag tags allow overlay h
  = (Ret (PDict (batch (PList (e :: es)) account_tag (injected account_tag given)
                   allow overlay)),
     heap_after h account_tag tags given).
Proof.
  intros He Ht. unfold import_batch.
  unfold bind at 1. cbv beta. rewrite He.
  cbn [py_len List.length]. rewrite Nat2Z.inj_succ.
  assert (E0 : (Z.succ (Z.of_nat (List.length es)) =? 0) = false) by (apply Z.eqb_neq; lia).
  rewrite E0.
  unfold bind at 1, ret at 1. unfold bind at 1. cbv beta. rewrite He. cbn [is_list negb].
  unfold bind at 1, ret at 1.
  destruct tags as [t|], given as [ts|]; try contradiction; cbn in Ht.
  - unfold bind at 1, deref at 1. rewrite Ht. cbn [is_list negb].
    unfold bind at 1, ret at 1.
    destruct account_tag as [a|].
    + unfold bind at 1. unfold bind at 1, deref at 1. rewrite Ht.
      unfold bind at 1, lift at 1. cbn [py_contains].
      unfold injected, heap_after.
      destruct (existsb (str_eq a) ts) eqn:Ex; cbn [negb].
      * unfold bind at 1, ret at 1. unfold ret at 1. cbn [fst snd].
        unfold bind, deref, ret. rewrite Ht. reflexivity.
      * unfold bind at 1, append_to at 1. rewrite Ht. cbn [py_append].
        unfold ret at 1. cbn [fst snd]. unfold bind, deref, ret.
        rewrite store_same. reflexivity.
    + unfold bind at 1, ret at 1. cbn [fst snd]. unfold bind, deref, ret. rewrite Ht.
      reflexivity.
  - unfold bind at 1, deref at 1. unfold bind at 1, ret at 1.
    destruct account_tag as [a|]; reflexivity.
Qed.

Lemma import_executions_eq executions account_tag tags allow overlay import_retries
    wait_for_completion wait_retries secs h w e es given :
  h executions = PList (e :: es) ->
  tags_given h tags given ->
  import_executions executions account_tag tags allow overlay import_retries
    wait_for_completion wait_retries secs h w
  = (let (result, w') :=
       __import_executions
         (PDict (batch (PList (e :: es)) account_tag (injected account_tag given)
                   allow overlay))
         import_retries wait_for_completion wait_retries secs w in
     (result, heap_after h account_tag tags given, w')).
Proof.
  intros He Ht. unfold import_executions.
  rewrite (import_batch_eq _ _ _ _ _ _ _ _ _ He Ht). reflexivity.
Qed.

Lemma first_post data import_retries wait_for_completion wait_retries secs w :
  1 <= import_retries ->
  exists new,
    sent (snd (__import_executions data import_retries wait_for_completion
                 wait_retries secs w))
    = (new ++ import_post data :: sent w)%list.
Proof.
  intros H1. destruct (Z.to_nat import_retries) as [|fuel] eqn:Ef; [lia|].
  destruct (post_loop_first fuel import_retries data w) as (new1 & Hn1); [lia|].
  unfold __import_executions. fold imports_url. rewrite Ef.
  match goal with
  | |- exists _, sent (snd (bind ?m ?k _)) = _ =>
      destruct (bind_extends m k w) as (new2 & Hn2)
  end.
  { intros exit. apply grows_after_post_loop. }
  exists (new2 ++ new1)%list. rewrite Hn2, Hn1, <- app_assoc. reflexivity.
Qed.

Lemma batch_tags executions account_tag tags allow overlay :
  dict_get "tags" (batch executions account_tag tags allow overlay)
  = option_map PList tags.
Proof. unfold batch. destruct account_tag, tags; reflexivity. Qed.

(** C6: with an account tag given, the batch that is submitted carries the
    caller's tags followed by the account tag when the tag is not among
    them (or when no list was given), and the caller's tags unchanged when
    it is; and that batch is the body of the first POST. *)
Theorem account_tag_is_injected executions a tags allow overlay import_retries
    wait_for_completion wait_retries secs h w e es given :
  h executions = PList (e :: es) ->
  tags_given h tags given ->
  1 <= import_retries ->
  exists data new,
    fst (import_batch executions (Some a) tags allow overlay h) = Ret (PDict data)
    /\ sent (snd (import_executions executions (Some a) tags allow overlay
                    import_retries wait_for_completion wait_retries secs h w))
       = (new ++ import_post (PDict data) :: sent w)%list
    /\ match given with
       | None => dict_get "tags" data = Some (PList [PStr a])
       | Some ts =>
           (~ In (PStr a) ts ->
            dict_get "tags" data = Some (PList (ts ++ [PStr a])))
           /\ (In (PStr a) ts -> dict_get "tags" data = Some (PList ts))
       end.
Proof.
  intros He Ht H1.
  exists (batch (PList (e :: es)) (Some a) (injected (Some a) given) allow overlay).
  destruct (first_post
              (PDict (batch (PList (e :: es)) (Some a) (injected (Some a) given)
                        allow overlay))
              import_retries wait_for_completion wait_retries secs w H1) as (new & Hn).
  exists new. split; [|split].
  - rewrite (import_batch_eq _ _ _ _ _ _ _ _ _ He Ht). reflexivity.
  - rewrite (import_executions_eq _ _ _ _ _ _ _ _ _ _ _ _ _ _ He Ht).
    destruct (__import_executions _ import_retries wait_for_completion wait_retries secs w)
      as [result w'] eqn:E.
    cbn [snd] in *. exact Hn.
  - rewrite batch_tags. destruct given as [ts|]; cbn [injected option_map].
    + split; intros Hin.
      * apply tag_absent in Hin. rewrite Hin. reflexivity.
      * apply tag_present in Hin. rewrite Hin. reflexivity.
    + reflexivity.
Qed.

(** C10: when the account tag is not in the tags list the caller passed,
    that list object ends with the account tag appended, whatever the call
    then returns or raises, and every other object is as it was; when no
    account tag or no tags list is given, or the tag is already in the
    list, every object is as it was. *)
Theorem tags_argument_is_mutated executions account_tag tags allow overlay
    import_retries wait_for_completion wait_retries secs h w e es given :
  h executions = PList (e :: es) ->
  tags_given h tags given ->
  let h' := snd (fst (import_executions executions account_tag tags allow overlay
                        import_retries wait_for_completion wait_retries secs h w)) in
  match account_tag, tags, given with
  | Some a, Some t, Some ts =>
      (~ In (PStr a) ts ->
       h' t = PList (ts ++ [PStr a]) /\ forall l, l <> t -> h' l = h l)
      /\ (In (PStr a) ts -> forall l, h' l = h l)
  | _, _, _ => forall l, h' l = h l
  end.
Proof.
  intros He Ht h'.
  assert (Hh : h' = heap_after h account_tag tags given).
  { unfold h'. rewrite (import_executions_eq _ _ _ _ _ _ _ _ _ _ _ _ _ _ He Ht).
    destruct (__import_executions _ import_retries wait_for_completion wait_retries secs w).
    reflexivity. }
  rewrite Hh. clear Hh h'. unfold heap_after.
  destruct account_tag as [a|], tags as [t|], given as [ts|]; try reflexivity.
  split; intros Hin.
  - apply tag_absent in Hin. rewrite Hin. split.
    + apply store_same.
    + intros l Hl. apply store_other. exact Hl.
  - apply tag_present in Hin. rewrite Hin. reflexivity.
Qed.

(** ** Failures that escape *)

(** A valid call whose first submission is queued, with the caller
    waiting: the batch was posted once, and the call is the polling branch
    run from there. *)
Lemma posted_then_waits executions account_tag tags allow overlay import_retries
    wait_retries secs h w e es given :
  h executions = PList (e :: es) ->
  tags_given h tags given ->
  1 <= import_retries ->
  reply_at w 0 (status_is "queued") ->
  exists w1,
    sent w1 = import_post
                (PDict (batch (PList (e :: es)) account_tag
                          (injected account_tag given) allow overlay)) :: sent w
    /\ import_executions executions account_tag tags allow overlay import_retries true
         wait_retries secs h w
       = (let (result, w') := wait_for_import wait_retries secs w1 in
          (result, heap_after h account_tag tags given, w')).
Proof.
  intros He Ht H1 Hq.
  rewrite (import_executions_eq _ _ _ _ _ _ _ _ _ _ _ _ _ _ He Ht).
  set (data := PDict (batch (PList (e :: es)) account_tag (injected account_tag given)
                        allow overlay)).
  destruct (Z.to_nat import_retries) as [|fuel] eqn:Ef; [lia|].
  destruct (post_step_queued fuel import_retries data w) as (d & w1 & _ & Hs & _ & E).
  { lia. } { apply reply_head. exact Hq. }
  exists w1. split; [exact Hs|].
  unfold __import_executions. fold imports_url. rewrite Ef.
  rewrite (bind_ret_eq _ _ _ _ _ E). reflexivity.
Qed.

(** C1: a valid call that waits, whose submission is queued and whose
    status queries are all answered with queued or processing, returns
    None, and it has queried the status wait_retries + 2 times: once at
    once, then once per pass of a loop whose guard [retries_left >= 0]
    holds wait_retries + 1 times. *)
Theorem poll_never_done executions account_tag tags allow overlay import_retries
    wait_retries secs h w e es given :
  h executions = PList (e :: es) ->
  tags_given h tags given ->
  1 <= import_retries ->
  0 <= wait_retries ->
  0 <= secs ->
  reply_at w 0 (status_is "queued") ->
  (forall i, reply_at w (S i) pending) ->
  exists h' w' new posted,
    import_executions executions account_tag tags allow overlay import_retries true
      wait_retries secs h w = (Ret PNone, h', w')
    /\ sent w' = (new ++ posted :: sent w)%list
    /\ is_import_post posted
    /\ Forall (eq status_query) new
    /\ Z.of_nat (List.length new) = wait_retries + 2.
Proof.
  intros He Ht H1 Hw Hsecs Hq Hp.
  destruct (posted_then_waits executions account_tag tags allow overlay import_retries
              wait_retries secs h w e es given He Ht H1 Hq) as (w1 & Hs1 & E).
  destruct (polling_never_done wait_retries secs w1 Hw Hsecs)
    as (w' & new & Ew & Hs' & Hall & Hn).
  { intros i. eapply reply_shift; [exact Hs1 | apply Hp]. }
  rewrite E, Ew. eexists. exists w', new. eexists.
  split; [reflexivity|]. split; [rewrite Hs', Hs1; reflexivity|].
  split; [eexists; reflexivity|]. split; [exact Hall | exact Hn].
Qed.

(** C2: a valid call that waits and whose polling ends on the status
    failed returns None, not the payload, and logs the status as
    unsupported: the branch that would return the payload compares with
    the string failure, which [import_status] never lets through. *)
Theorem failed_import_is_dropped executions account_tag tags allow overlay
    import_retries wait_retries secs h w e es given (k : nat) :
  h executions = PList (e :: es) ->
  tags_given h tags given ->
  1 <= import_retries ->
  0 <= secs ->
  Z.of_nat k <= wait_retries + 1 ->
  reply_at w 0 (status_is "queued") ->
  (forall i, (i < k)%nat -> reply_at w (S i) pending) ->
  reply_at w (S k) (status_is "failed") ->
  exists h' w',
    import_executions executions account_tag tags allow overlay import_retries true
      wait_retries secs h w = (Ret PNone, h', w')
    /\ hd_error (log w') = Some (unsupported (PStr "failed")).
Proof.
  intros He Ht H1 Hsecs Hk Hq Hp Hf.
  destruct (posted_then_waits executions account_tag tags allow overlay import_retries
              wait_retries secs h w e es given He Ht H1 Hq) as (w1 & Hs1 & E).
  destruct (failed_status_unsupported wait_retries secs w1 k Hsecs Hk) as (w' & Ew & Hl).
  { intros i Hi. eapply reply_shift; [exact Hs1 | apply Hp; exact Hi]. }
  { eapply reply_shift; [exact Hs1 | exact Hf]. }
  rewrite E, Ew. eexists. exists w'. split; [reflexivity | exact Hl].
Qed.

(** C5: a call that passes validation and whose submission is queued
    raises TypeError when the status query then fails with an HTTP error:
    the failure is not turned into a None result. *)
Theorem status_error_escapes executions account_tag tags allow overlay import_retries
    wait_retries secs h w e es given :
  h executions = PList (e :: es) ->
  tags_given h tags given ->
  1 <= import_retries ->
  reply_at w 0 (status_is "queued") ->
  reply_at w 1 http_error ->
  exists h' w',
    import_executions executions account_tag tags allow overlay import_retries true
      wait_retries secs h w
    = (Raise (TypeError "object is not subscriptable"), h', w').
Proof.
  intros He Ht H1 Hq Herr.
  destruct (posted_then_waits executions account_tag tags allow overlay import_retries
              wait_retries secs h w e es given He Ht H1 Hq) as (w1 & Hs1 & E).
  destruct (wait_for_import_status_error wait_retries secs w1) as (w2 & Ew).
  { eapply reply_shift; [exact Hs1 | exact Herr]. }
  rewrite E, Ew. eexists. eexists. reflexivity.
Qed.

(** C8: an error response whose body is a JSON scalar (null, a boolean, a
    number) makes the response interpreter raise TypeError before it has
    logged anything: no failure reason is derived. *)
Theorem scalar_error_body_raises r msg show_url w v :
  json_of_text r = Some v ->
  is_scalar v = true ->
  __handle_bad_http_response r msg show_url w
  = (Raise (TypeError "argument is not iterable"), w).
Proof.
  intros E Hv. unfold __handle_bad_http_response, server_error_of,
    try_except_ValueError, json_loads.
  unfold bind at 1. unfold bind at 1. rewrite E.
  destruct v; try discriminate; reflexivity.
Qed.

Lemma server_error_documented r w :
  plain_error_body r ->
  exists w', server_error_of r w = (Ret (documented_reason r), w')
             /\ sent w' = sent w.
Proof.
  unfold documented_reason.
  intros [Hn | (d & Hd)]; unfold server_error_of, try_except_ValueError, json_loads.
  - rewrite Hn. unfold bind at 1, raise at 1. unfold ret. eauto.
  - rewrite Hd. unfold bind at 1, ret at 1. unfold bind at 1, lift at 1. cbn [py_contains].
    unfold dict_has. destruct (dict_get "error" d) as [e|] eqn:Ee.
    + unfold lift. cbn [py_getitem]. rewrite Ee. eauto.
    + unfold bind at 1, lift at 1. cbn [py_contains]. unfold dict_has.
      destruct (dict_get "status" d) as [s|] eqn:Es.
      * unfold lift. cbn [py_getitem]. rewrite Es. eauto.
      * unfold log_error. rewrite bind_log. unfold ret. eexists. split; reflexivity.
Qed.

(** For an error body that is a JSON object or no JSON at all, the handler
    returns and logs the documented reason. *)
Theorem failure_reason_logged r msg show_url w :
  plain_error_body r ->
  exists w',
    __handle_bad_http_response r msg show_url w = (Ret tt, w')
    /\ In (server_error_logged (documented_reason r)) (log w')
    /\ sent w' = sent w.
Proof.
  intros Hp. destruct (server_error_documented r w Hp) as (w1 & E & Hs).
  unfold __handle_bad_http_response. rewrite (bind_ret_eq _ _ _ _ _ E).
  unfold log_error. rewrite !bind_log.
  destruct ((status_code r =? 403) && truthy (target_user self)).
  - eexists. split; [reflexivity|]. cbn [sent log logged]. split; [|exact Hs].
    right. left. reflexivity.
  - eexists. split; [reflexivity|]. cbn [sent log logged]. split; [|exact Hs].
    left. reflexivity.
Qed.

(** C9: whatever trade ids it is given, [delete_trades] raises
    UnboundLocalError for its local [trade_id] and leaves the world as it
    was: no request is sent, so no trade is deleted. *)
Theorem delete_trades_never_deletes trade_ids w :
  delete_trades trade_ids w = (Raise (UnboundLocalError "trade_id"), w)
  /\ sent (snd (delete_trades trade_ids w)) = sent w.
Proof. split; reflexivity. Qed.

(** ** The loops never run out of fuel *)

Lemma bind_ext {S A B} (m : ST S A) (k1 k2 : A -> ST S B) s :
  (forall a s', k1 a s' = k2 a s') -> bind m k1 s = bind m k2 s.
Proof. intros H. unfold bind. destruct (m s) as [[a|e] s']; auto. Qed.

(** More fuel than [Z.to_nat retries_left] changes nothing: the submission
    loop ends because its guard fails, never because the fuel is spent. *)
Lemma post_loop_fuel url : forall fuel retries_left data w,
  (Z.to_nat retries_left <= fuel)%nat ->
  post_loop fuel url retries_left data w
  = post_loop (Z.to_nat retries_left) url retries_left data w.
Proof.
  induction fuel as [|fuel IH]; intros rl data w Hf.
  - replace (Z.to_nat rl) with 0%nat by lia. reflexivity.
  - destruct (Z.to_nat rl) as [|n] eqn:En.
    + cbn [post_loop]. assert (G : (rl >? 0) = false) by (rewrite Z.gtb_ltb; apply Z.ltb_ge; lia).
      rewrite G. reflexivity.
    + cbn [post_loop]. destruct (rl >? 0); [|reflexivity].
      apply bind_ext. intros r w1.
      destruct (status_code r =? 200); [reflexivity|].
      destruct (status_code r =? 424); [|reflexivity].
      apply bind_ext. intros d w2. apply bind_ext. intros err w3.
      apply bind_ext. intros _ w4. apply bind_ext. intros _ w5.
      rewrite IH by lia. replace n with (Z.to_nat (rl - 1)) by lia. reflexivity.
Qed.

(** The same for the polling loop and [Z.to_nat (retries_left + 1)]. *)
Lemma wait_loop_fuel secs : forall fuel retries_left data w,
  (Z.to_nat (retries_left + 1) <= fuel)%nat ->
  wait_loop fuel secs retries_left data w
  = wait_loop (Z.to_nat (retries_left + 1)) secs retries_left data w.
Proof.
  induction fuel as [|fuel IH]; intros rl data w Hf.
  - replace (Z.to_nat (rl + 1)) with 0%nat by lia. reflexivity.
  - destruct (Z.to_nat (rl + 1)) as [|n] eqn:En.
    + assert (G : (rl >=? 0) = false) by (rewrite Z.geb_leb; apply Z.leb_gt; lia).
      destruct data; cbn [wait_loop]; try reflexivity;
        (apply bind_ext; intros status w1; rewrite G, andb_false_r; reflexivity).
    + destruct data; cbn [wait_loop]; try reflexivity;
        (apply bind_ext; intros status w1;
         destruct ((str_eq "queued" status || str_eq "processing" status) && (rl >=? 0));
         [|reflexivity];
         apply bind_ext; intros _ w2; apply bind_ext; intros polled w3;
         rewrite IH by lia; replace n with (Z.to_nat (rl - 1 + 1)) by lia; reflexivity).
Qed.

(** * More of the client *)

(** ** Computations that only log *)

Lemma logs_only_ret {A} (a : A) : logs_only (ret a).
Proof. intros w. split; reflexivity. Qed.

Lemma logs_only_raise {A} e : logs_only (@raise World A e).
Proof. intros w. split; reflexivity. Qed.

Lemma logs_only_lift {A} (o : outcome A) : logs_only (lift o).
Proof. intros w. split; reflexivity. Qed.

Lemma logs_only_log lv f a : logs_only (log_at lv f a).
Proof. intros w. split; reflexivity. Qed.

Lemma logs_only_json_loads r : logs_only (json_loads r).
Proof. unfold json_loads. destruct (json_of_text r); intros w; split; reflexivity. Qed.

Lemma logs_only_bind {A B} (m : M A) (k : A -> M B) :
  logs_only m -> (forall a, logs_only (k a)) -> logs_only (bind m k).
Proof.
  intros Hm Hk w. unfold bind. destruct (Hm w) as [H1 H2].
  destruct (m w) as [[a|e] w1]; cbn [snd] in *.
  - destruct (Hk a w1) as [H3 H4]. split; congruence.
  - split; assumption.
Qed.

Lemma logs_only_try {A} (m h : M A) :
  logs_only m -> logs_only h -> logs_only (try_except_ValueError m h).
Proof.
  intros Hm Hh w. unfold try_except_ValueError. destruct (Hm w) as [H1 H2].
  destruct (m w) as [[a|e] w1]; cbn [snd] in *; [split; assumption|].
  destruct e; cbn [snd]; try (split; assumption).
  destruct (Hh w1) as [H3 H4]. split; congruence.
Qed.

Create HintDb logs.

Ltac logs_step :=
  lazymatch goal with
  | |- logs_only (ret _) => apply logs_only_ret
  | |- logs_only (raise _) => apply logs_only_raise
  | |- logs_only (lift _) => apply logs_only_lift
  | |- logs_only (log_at _ _ _) => apply logs_only_log
  | |- logs_only (json_loads _) => apply logs_only_json_loads
  | |- logs_only (bind _ _) => apply logs_only_bind; [| intros ? ]
  | |- logs_only (try_except_ValueError _ _) => apply logs_only_try
  | |- logs_only (if ?b then _ else _) => destruct b
  | |- logs_only (match ?x with _ => _ end) => destruct x
  | |- _ => solve [ auto with logs ]
  end.

Ltac logs_tac := unfold log_debug, log_warning, log_error; repeat logs_step.

Lemma logs_only_server_error_of r : logs_only (server_error_of r).
Proof. unfold server_error_of. logs_tac. Qed.
#[local] Hint Resolve logs_only_server_error_of : logs.

Lemma logs_only_handle r msg b : logs_only (__handle_bad_http_response r msg b).
Proof. unfold __handle_bad_http_response. logs_tac. Qed.
#[local] Hint Resolve logs_only_handle : logs.

(** ** Budgets of requests and sleep *)

Lemma costs_logs_only {A} P n b (m : M A) : 0 <= b -> logs_only m -> costs P n b m.
Proof.
  intros Hb Hm w. destruct (Hm w) as [H1 H2]. exists []. cbn [app List.length].
  split; [exact H1|]. split; [constructor|]. split; [lia|].
  unfold slept_total. rewrite H2. lia.
Qed.

Lemma costs_weaken {A} (P Q : Request -> Prop) n n' b b' (m : M A) :
  (forall q, P q -> Q q) -> (n <= n')%nat -> b <= b' ->
  costs P n b m -> costs Q n' b' m.
Proof.
  intros HPQ Hn Hb Hm w. destruct (Hm w) as (new & Hs & Hall & Hl & Ht).
  exists new. split; [exact Hs|]. split; [|split; lia].
  eapply Forall_impl; [exact HPQ | exact Hall].
Qed.

Lemma costs_bind {A B} P n1 n2 b1 b2 (m : M A) (k : A -> M B) :
  0 <= b2 ->
  costs P n1 b1 m -> (forall a, costs P n2 b2 (k a)) ->
  costs P (n1 + n2) (b1 + b2) (bind m k).
Proof.
  intros Hb Hm Hk w. unfold bind.
  destruct (Hm w) as (new1 & Hs1 & Hall1 & Hl1 & Ht1).
  destruct (m w) as [[a|e] w1]; cbn [snd] in *.
  - destruct (Hk a w1) as (new2 & Hs2 & Hall2 & Hl2 & Ht2).
    exists (new2 ++ new1)%list. split; [rewrite Hs2, Hs1; apply app_assoc|].
    split; [apply Forall_app; split; assumption|].
    split; [rewrite length_app; lia | lia].
  - exists new1. split; [exact Hs1|]. split; [exact Hall1|]. split; lia.
Qed.

Lemma costs_after_logs {A B} P n b (m : M A) (k : A -> M B) :
  0 <= b ->
  logs_only m -> (forall a, costs P n b (k a)) -> costs P n b (bind m k).
Proof.
  intros Hb Hm Hk.
  apply (costs_weaken P P (0 + n) n (0 + b) b); [auto | lia | lia |].
  apply costs_bind; [exact Hb | apply costs_logs_only; [lia | exact Hm] | exact Hk].
Qed.

Lemma costs_request P m url p q :
  P (built_request m url p q) -> costs P 1 0 (__make_request m url p q).
Proof.
  intros HP w. destruct (make_request_spec m url p q w) as (w' & E & Hs & Hl).
  rewrite E. cbn [snd]. exists [built_request m url p q].
  split; [exact Hs|]. split; [constructor; [exact HP | constructor]|].
  split; [cbn; lia|]. unfold slept_total. rewrite Hl. lia.
Qed.

Lemma costs_sleep P secs : costs P 0 (Z.max 0 secs) (sleep secs).
Proof.
  intros w. exists []. cbn [app List.length]. unfold sleep.
  destruct (secs <? 0) eqn:E; cbn [snd sent slept].
  - split; [reflexivity|]. split; [constructor|]. split; lia.
  - apply Z.ltb_ge in E. split; [reflexivity|]. split; [constructor|].
    split; [lia|]. unfold slept_total. cbn [slept fold_right]. lia.
Qed.

(** A request followed by a computation that only logs. *)
Lemma costs_one_request {A} P m url p q (k : Response -> M A) :
  P (built_request m url p q) ->
  (forall r, logs_only (k r)) ->
  costs P 1 0 (bind (__make_request m url p q) k).
Proof.
  intros HP Hk.
  apply (costs_bind P 1 0 0 0); [lia | apply costs_request; exact HP |].
  intros r. apply costs_logs_only; [lia | apply Hk].
Qed.

Lemma costs_import_status : costs (eq status_query) 1 0 import_status.
Proof.
  unfold import_status, __get. apply costs_one_request; [reflexivity|].
  intros r. logs_tac.
Qed.

Lemma costs_post_loop : forall fuel retries_left data,
  costs is_import_post fuel (5 * Z.of_nat fuel)
    (post_loop fuel imports_url retries_left data).
Proof.
  induction fuel as [|fuel IH]; intros rl data.
  - cbn [post_loop]. apply costs_logs_only; [lia | apply logs_only_ret].
  - cbn [post_loop]. destruct (rl >? 0).
    + unfold __post.
      apply (costs_weaken is_import_post is_import_post (1 + fuel) (S fuel)
               (0 + 5 * Z.of_nat (S fuel))); [auto | lia | lia |].
      apply costs_bind; [lia | apply costs_request; eexists; reflexivity |].
      intros r. destruct (status_code r =? 200).
      { apply costs_logs_only; [lia | logs_tac]. }
      destruct (status_code r =? 424).
      2:{ apply costs_logs_only; [lia | logs_tac]. }
      apply costs_after_logs; [lia | logs_tac |]. intros d.
      apply costs_after_logs; [lia | logs_tac |]. intros err.
      apply costs_after_logs; [lia | logs_tac |]. intros _.
      apply (costs_weaken is_import_post is_import_post (0 + fuel) fuel
               (Z.max 0 5 + 5 * Z.of_nat fuel)); [auto | lia | lia |].
      apply costs_bind; [lia | apply costs_sleep |]. intros _. apply IH.
    + apply costs_logs_only; [lia | apply logs_only_ret].
Qed.

Lemma costs_wait_loop secs : forall fuel retries_left data,
  costs (eq status_query) fuel (Z.max 0 secs * Z.of_nat fuel)
    (wait_loop fuel secs retries_left data).
Proof.
  induction fuel as [|fuel IH]; intros rl data.
  - destruct data; cbn [wait_loop]; apply costs_logs_only; try lia; logs_tac.
  - assert (Hstep : forall d : pyval,
               costs (eq status_query) (S fuel) (Z.max 0 secs * Z.of_nat (S fuel))
                 (sleep secs ;; data <- import_status ;;
                  wait_loop fuel secs (rl - 1) data)).
    { intros _.
      apply (costs_weaken (eq status_query) (eq status_query) (0 + (1 + fuel)) (S fuel)
               (Z.max 0 secs + (0 + Z.max 0 secs * Z.of_nat fuel)));
        [auto | lia | lia |].
      apply costs_bind; [lia | apply costs_sleep |]. intros _.
      apply costs_bind; [lia | apply costs_import_status |]. intros d. apply IH. }
    destruct data; cbn [wait_loop];
      try solve [apply costs_logs_only; [lia | logs_tac]];
      (apply costs_after_logs; [lia | logs_tac |]; intros status;
       destruct ((str_eq "queued" status || str_eq "processing" status) && (rl >=? 0));
       [apply Hstep; exact PNone | apply costs_logs_only; [lia | logs_tac]]).
Qed.

Lemma costs_wait_for_import wait_retries secs :
  costs (eq status_query) (S (Z.to_nat (wait_retries + 1)))
    (Z.max 0 secs * Z.of_nat (Z.to_nat (wait_retries + 1)))
    (wait_for_import wait_retries secs).
Proof.
  unfold wait_for_import.
  apply costs_after_logs; [lia | logs_tac |]. intros _.
  apply (costs_weaken (eq status_query) (eq status_query)
           (1 + (Z.to_nat (wait_retries + 1) + 0)) (S (Z.to_nat (wait_retries + 1)))
           (0 + (Z.max 0 secs * Z.of_nat (Z.to_nat (wait_retries + 1)) + 0)));
    [auto | lia | lia |].
  apply costs_bind; [lia | apply costs_import_status |]. intros d.
  apply costs_bind; [lia | apply costs_wait_loop |]. intros d'.
  apply costs_logs_only; [lia | logs_tac].
Qed.

Lemma costs_then {A B} P Q n1 n2 b1 b2 (m : M A) (k : A -> M B) w :
  costs P n1 b1 m -> (forall a, costs Q n2 b2 (k a)) ->
  exists first second,
    sent (snd (bind m k w)) = (second ++ first ++ sent w)%list
    /\ Forall P first /\ Forall Q second
    /\ (List.length first <= n1)%nat /\ (List.length second <= n2)%nat
    /\ slept_total w <= slept_total (snd (bind m k w))
    /\ (0 <= b2 -> slept_total (snd (bind m k w)) <= slept_total w + b1 + b2).
Proof.
  intros Hm Hk. unfold bind.
  destruct (Hm w) as (new1 & Hs1 & Hall1 & Hl1 & Ht1).
  destruct (m w) as [[a|e] w1]; cbn [snd] in *.
  - destruct (Hk a w1) as (new2 & Hs2 & Hall2 & Hl2 & Ht2).
    destruct (k a w1) as [r w2]; cbn [snd] in *.
    exists new1, new2. rewrite Hs2, Hs1.
    split; [reflexivity|]. split; [exact Hall1|]. split; [exact Hall2|].
    split; [exact Hl1|]. split; [exact Hl2|]. split; lia.
  - exists new1, []. cbn [app List.length].
    split; [exact Hs1|]. split; [exact Hall1|]. split; [constructor|].
    split; [exact Hl1|]. split; [lia|]. split; lia.
Qed.

Lemma submission_budget data import_retries wait_for_completion wait_retries secs w :
  let w' := snd (__import_executions data import_retries wait_for_completion
                   wait_retries secs w) in
  exists posts queries,
    sent w' = (queries ++ posts ++ sent w)%list
    /\ Forall is_import_post posts
    /\ Forall (eq status_query) queries
    /\ Z.of_nat (List.length posts) <= Z.max 0 import_retries
    /\ Z.of_nat (List.length queries) <= Z.max 0 (wait_retries + 1) + 1
    /\ (wait_for_completion = false -> queries = [])
    /\ slept_total w <= slept_total w'
       <= slept_total w + 5 * Z.max 0 import_retries
          + Z.max 0 secs * Z.max 0 (wait_retries + 1).
Proof.
  intros w'. subst w'.
  unfold __import_executions. fold imports_url.
  match goal with |- context [bind ?m ?k w] =>
    destruct (costs_then is_import_post (eq status_query)
                (Z.to_nat import_retries)
                (if wait_for_completion then S (Z.to_nat (wait_retries + 1)) else 0%nat)
                (5 * Z.of_nat (Z.to_nat import_retries))
                (Z.max 0 secs * Z.of_nat (Z.to_nat (wait_retries + 1)))
                m k w)
      as (posts & queries & Hs & Hall1 & Hall2 & Hl1 & Hl2 & Ht1 & Ht2)
  end.
  - apply costs_post_loop.
  - intros [v | [[|] d]]; cbn [negb].
    + apply costs_logs_only; [nia | logs_tac].
    + destruct wait_for_completion.
      * apply costs_wait_for_import.
      * apply costs_logs_only; [nia | logs_tac].
    + apply costs_logs_only; [nia | logs_tac].
  - exists posts, queries. split; [exact Hs|].
    split; [exact Hall1|]. split; [exact Hall2|]. split; [lia|].
    split; [destruct wait_for_completion; lia|].
    split.
    + intros ->. destruct queries; [reflexivity | cbn in Hl2; lia].
    + split; [exact Ht1|].
      assert (H0 : 0 <= Z.max 0 secs * Z.of_nat (Z.to_nat (wait_retries + 1))) by nia.
      specialize (Ht2 H0). nia.
Qed.

(** The requests and the sleep of an import, whatever the transport
    answers and however the call ends: first at most import_retries
    submissions, then at most wait_retries + 2 status queries, and at most
    5 seconds of sleep per submission and secs_per_wait_retry per pass of
    the polling loop. *)
Theorem import_budget executions account_tag tags allow overlay import_retries
    wait_for_completion wait_retries secs h w :
  let w' := snd (import_executions executions account_tag tags allow overlay
                   import_retries wait_for_completion wait_retries secs h w) in
  exists posts queries,
    sent w' = (queries ++ posts ++ sent w)%list
    /\ Forall is_import_post posts
    /\ Forall (eq status_query) queries
    /\ Z.of_nat (List.length posts) <= Z.max 0 import_retries
    /\ Z.of_nat (List.length queries) <= Z.max 0 (wait_retries + 1) + 1
    /\ slept_total w <= slept_total w'
       <= slept_total w + 5 * Z.max 0 import_retries
          + Z.max 0 secs * Z.max 0 (wait_retries + 1).
Proof.
  intros w'. subst w'. unfold import_executions.
  destruct (import_batch executions account_tag tags allow overlay h) as [[data|e] h'].
  2:{ exists [], []. cbn [snd app List.length].
      split; [reflexivity|]. split; [constructor|]. split; [constructor|].
      split; [lia|]. split; [lia|]. nia. }
  destruct (submission_budget data import_retries wait_for_completion wait_retries secs w)
    as (posts & queries & Hs & Hall1 & Hall2 & Hl1 & Hl2 & _ & Ht).
  destruct (__import_executions data import_retries wait_for_completion wait_retries secs w)
    as [result w1]; cbn [snd] in *.
  exists posts, queries. auto 10.
Qed.

(** ** What a computation can return *)

Lemma returns_ret {A} (Q : A -> Prop) a : Q a -> returns Q (ret a).
Proof. intros H w a' w' E. injection E as <- _. exact H. Qed.

Lemma returns_raise {A} (Q : A -> Prop) e : returns Q (raise e).
Proof. intros w a w' E. discriminate E. Qed.

Lemma returns_lift {A} (Q : A -> Prop) (o : outcome A) :
  (forall a, o = Ret a -> Q a) -> returns Q (lift o).
Proof. intros H w a w' E. injection E as E _. auto. Qed.

Lemma returns_bind {A B} (P : A -> Prop) (Q : B -> Prop) (m : M A) (k : A -> M B) :
  returns P m -> (forall a, P a -> returns Q (k a)) -> returns Q (bind m k).
Proof.
  intros Hm Hk w b w' E. unfold bind in E.
  destruct (m w) as [[a|e] w1] eqn:Em; [|discriminate E].
  exact (Hk a (Hm _ _ _ Em) _ _ _ E).
Qed.

Lemma returns_any {A} (m : M A) : returns (fun _ => True) m.
Proof. intros w a w' _. exact I. Qed.

Lemma returns_after {A B} (Q : B -> Prop) (m : M A) (k : A -> M B) :
  (forall a, returns Q (k a)) -> returns Q (bind m k).
Proof. intros Hk. apply (returns_bind (fun _ => True)); [apply returns_any | auto]. Qed.

Lemma returns_weaken {A} (P Q : A -> Prop) (m : M A) :
  (forall a, P a -> Q a) -> returns P m -> returns Q m.
Proof. intros H Hm w a w' E. exact (H _ (Hm _ _ _ E)). Qed.

Lemma post_loop_returns fuel : forall retries_left data,
  returns (fun exit => forall v, exit = inl v -> v = PNone)
    (post_loop fuel imports_url retries_left data).
Proof.
  induction fuel as [|fuel IH]; intros retries_left data; cbn [post_loop].
  - apply returns_ret. discriminate.
  - destruct (retries_left >? 0); [|apply returns_ret; discriminate].
    apply returns_after. intros r.
    destruct (status_code r =? 200).
    + apply returns_after. intros d. apply returns_after. intros status.
      destruct (negb (in_strs status ["queued"])).
      * apply returns_after. intros _. apply returns_ret. congruence.
      * apply returns_after. intros _. apply returns_ret. discriminate.
    + destruct (status_code r =? 424).
      * apply returns_after. intros d. apply returns_after. intros e.
        apply returns_after. intros _. apply returns_after. intros _. apply IH.
      * apply returns_after. intros _. apply returns_ret. congruence.
Qed.

(** An import that does not wait for completion sends submissions only
    (never a status query), and whenever it returns, it returns None:
    success and failure look the same to the caller. *)
Theorem import_without_waiting executions account_tag tags allow overlay import_retries
    wait_retries secs h w :
  let run := import_executions executions account_tag tags allow overlay
               import_retries false wait_retries secs h w in
  (forall v, fst (fst run) = Ret v -> v = PNone)
  /\ exists posts, sent (snd run) = (posts ++ sent w)%list
                   /\ Forall is_import_post posts.
Proof.
  intros run. subst run. unfold import_executions.
  destruct (import_batch executions account_tag tags allow overlay h) as [[data|e] h'].
  2:{ cbn [fst snd]. split; [discriminate|]. exists []. split; [reflexivity | constructor]. }
  destruct (submission_budget data import_retries false wait_retries secs w)
    as (posts & queries & Hs & Hall1 & _ & _ & _ & Hq & _).
  rewrite (Hq eq_refl) in Hs.
  assert (Hr : returns (fun v => v = PNone)
                 (__import_executions data import_retries false wait_retries secs)).
  { unfold __import_executions. fold imports_url.
    apply (returns_bind _ _ _ _ (post_loop_returns _ _ _)).
    intros [v | [[|] d]] Hv; cbn [negb].
    - apply returns_ret. apply Hv. reflexivity.
    - apply returns_ret. reflexivity.
    - apply returns_after. intros _. apply returns_ret. reflexivity. }
  specialize (Hr w).
  destruct (__import_executions data import_retries false wait_retries secs w)
    as [result w1]; cbn [fst snd] in *.
  split.
  - intros v ->. exact (Hr v w1 eq_refl).
  - exists posts. split; [exact Hs | exact Hall1].
Qed.

(** Whatever the status endpoint answers, import_status sends exactly
    one query and never sleeps, and what it returns is None or a JSON
    object whose status is one of the five known ones. *)
Theorem import_status_result w :
  sent (snd (import_status w)) = status_query :: sent w
  /\ slept (snd (import_status w)) = slept w
  /\ forall v, fst (import_status w) = Ret v ->
       v = PNone
       \/ exists d s, v = PDict d /\ dict_get "status" d = Some (PStr s)
                      /\ In s import_statuses.
Proof.
  unfold import_status, __get. fold imports_url.
  destruct (make_request_spec GET imports_url None None w) as (w1 & E & Hs & Hl).
  fold status_query in E, Hs.
  rewrite (bind_ret_eq _ _ _ _ _ E).
  set (r := server (status_query :: sent w)).
  match goal with |- context [?m w1] =>
    assert (Hlogs : logs_only m) by (logs_tac);
    assert (Hret : returns (fun v => v = PNone
                     \/ exists d s, v = PDict d /\ dict_get "status" d = Some (PStr s)
                                    /\ In s import_statuses) m);
    [| destruct (Hlogs w1) as [H1 H2]; specialize (Hret w1);
       destruct (m w1) as [res w2]; cbn [fst snd] in * ]
  end.
  - destruct (status_code r =? 200).
    + apply returns_after. intros _. apply returns_after. intros data.
      destruct data as [ | b | z | f | s | l | d ]; cbn [py_getitem];
        try (intros w0 a w0' Ew; discriminate Ew).
      destruct (dict_get "status" d) as [status|] eqn:Ed;
        [|intros w0 a w0' Ew; discriminate Ew].
      unfold lift, bind. intros w0 a w0' Ew. revert Ew.
      destruct (negb (in_strs status import_statuses)) eqn:Ein.
      * unfold log_error, log_at, ret. intros Ew. injection Ew as <- _. left. reflexivity.
      * unfold ret. intros Ew. injection Ew as <- _. right.
        apply negb_false_iff in Ein. unfold in_strs in Ein.
        apply existsb_exists in Ein. destruct Ein as (s & Hin & Heq).
        apply str_eq_true in Heq. subst status. exists d, s. auto.
    + apply returns_after. intros _. apply returns_ret. left. reflexivity.
  - split; [congruence|]. split; [congruence|].
    intros v ->. exact (Hret v w2 eq_refl).
Qed.

(** ** Validation comes first *)


(** ** Submissions that are not retried *)

(** Only HTTP 424 is retried.  A submission answered 200 with a status
    other than queued, or with any other HTTP error, ends the import at
    once: one request, no sleep, no status query even when the caller asked
    to wait, and None as the result. *)
Theorem rejected_import_not_retried data import_retries wait_for_completion
    wait_retries secs w :
  1 <= import_retries ->
  rejected (server (import_post data :: sent w)) = true ->
  exists w',
    __import_executions data import_retries wait_for_completion wait_retries secs w
    = (Ret PNone, w')
    /\ sent w' = import_post data :: sent w
    /\ slept w' = slept w.
Proof.
  intros Hr Hrej.
  unfold __import_executions. fold imports_url.
  destruct (Z.to_nat import_retries) as [|fuel] eqn:Ef; [lia|].
  cbn [post_loop].
  assert (G : (import_retries >? 0) = true) by (rewrite Z.gtb_ltb; apply Z.ltb_lt; lia).
  rewrite G.
  destruct (post_spec data w) as (w0 & E & Hs & Hl).
  rewrite <- bind_assoc. rewrite (bind_ret_eq _ _ _ _ _ E).
  set (r := server (import_post data :: sent w)) in *.
  unfold rejected in Hrej.
  destruct (status_code r =? 200) eqn:Hc.
  - destruct (json_of_text r) as [[ | | | | | |d]|] eqn:Hj; try discriminate Hrej.
    destruct (dict_get "status" d) as [v|] eqn:Hd; [|discriminate Hrej].
    unfold json_loads. rewrite Hj.
    unfold bind at 2. unfold ret at 1. unfold bind at 2, lift at 1.
    cbn [py_getitem]. rewrite Hd.
    assert (Ein : negb (in_strs v ["queued"]) = true).
    { unfold in_strs. cbn [existsb]. rewrite orb_false_r. exact Hrej. }
    rewrite Ein. unfold log_error. unfold bind, log_at, ret.
    eexists. split; [reflexivity|]. cbn [sent slept]. split; assumption.
  - apply andb_true_iff in Hrej. destruct Hrej as [H424 Hbody].
    apply negb_true_iff in H424. rewrite H424.
    assert (Hp : plain_error_body r).
    { unfold plain_error_body. destruct (json_of_text r) as [[ | | | | | |d]|];
        try discriminate Hbody; eauto. }
    destruct (handle_bad_plain r (message "Unable to import executions" []) false w0 Hp)
      as (w1 & Eh & Hs1).
    destruct (logs_only_handle r (message "Unable to import executions" []) false w0)
      as [_ Hl1].
    rewrite Eh in Hl1. cbn [snd] in Hl1.
    unfold bind at 1. unfold bind at 1. rewrite Eh. unfold ret.
    eexists. split; [reflexivity|]. split; congruence.
Qed.

(** Without a retry budget nothing is sent: the import gives up at once,
    and says so in the log. *)
Theorem import_without_budget data import_retries wait_for_completion
    wait_retries secs w :
  import_retries <= 0 ->
  __import_executions data import_retries wait_for_completion wait_retries secs w
  = (Ret PNone,
     {| sent := sent w; log := gave_up import_retries :: log w; slept := slept w |}).
Proof.
  intros Hr. unfold __import_executions.
  destruct (Z.to_nat import_retries) as [|fuel] eqn:Ef; [|lia].
  reflexivity.
Qed.

(** ** The page queries of a listing *)

Lemma costs_get_trades data : costs (eq (page_query data)) 1 0 (__get_trades data).
Proof.
  unfold __get_trades, __get. fold trades_url.
  apply costs_one_request; [reflexivity|]. intros r. logs_tac.
Qed.

Lemma carried_set d k v f :
  fst f <> k -> carried d f -> carried (dict_set k v d) f.
Proof.
  intros Hk Hc x Hx. rewrite dict_get_set_other by exact Hk. exact (Hc x Hx).
Qed.

Lemma costs_fetch_pages filters last :
  Forall (fun f => fst f <> "page" /\ fst f <> "count") filters ->
  forall pages max_trades data all_trades,
    (forall p, In p pages -> 1 <= p <= last) ->
    Forall (carried data) filters ->
    costs (page_request filters last) (List.length pages) 0
      (fetch_pages pages max_trades data all_trades).
Proof.
  intros Hkeys pages. induction pages as [|page pages IH];
    intros max_trades data all_trades Hp Hc; cbn [fetch_pages].
  - apply costs_logs_only; [lia | logs_tac].
  - set (data' := dict_set "count" _ (dict_set "page" (PInt page) data)).
    assert (Hc' : Forall (carried data') filters).
    { rewrite Forall_forall in *. intros f Hf. destruct (Hkeys f Hf) as [H1 H2].
      unfold data'. apply carried_set; [exact H2|]. apply carried_set; [exact H1|]. auto. }
    apply (costs_weaken (page_request filters last) (page_request filters last)
             (1 + List.length pages) (List.length (page :: pages)) (0 + 0) 0);
      [auto | cbn [List.length]; lia | lia |].
    apply costs_bind; [lia | |].
    + apply (costs_weaken (eq (page_query data')) (page_request filters last) 1 1 0 0);
        [| lia | lia | apply costs_get_trades].
      intros q <-. unfold page_request.
      exists data', page.
      exists (if max_trades - Z.of_nat (List.length all_trades) >=? 100 then 100
              else max_trades - Z.of_nat (List.length all_trades)).
      split; [reflexivity|]. split.
      { unfold data'. rewrite dict_get_set_other by discriminate.
        apply dict_get_set_same. }
      split; [apply Hp; left; reflexivity|]. split.
      { unfold data'. apply dict_get_set_same. }
      split; [|exact Hc'].
      destruct (max_trades - Z.of_nat (List.length all_trades) >=? 100) eqn:E; [lia|].
      rewrite Z.geb_leb in E. apply Z.leb_gt in E. lia.
    + assert (Hrest : forall items,
                 costs (page_request filters last) (List.length pages) 0
                   (fetch_pages pages max_trades data' (all_trades ++ items)%list)).
      { intros items. apply IH; [|exact Hc']. intros p Hin. apply Hp. right. exact Hin. }
      intros trades.
      destruct trades; [apply costs_logs_only; [lia | logs_tac] | ..];
        (apply costs_after_logs; [lia | logs_tac |]; intros n;
         destruct (n =? 0); [apply costs_logs_only; [lia | logs_tac]|];
         apply costs_after_logs; [lia | logs_tac |]; intros _;
         apply costs_after_logs; [lia | logs_tac |]; intros items; apply Hrest).
Qed.

Lemma checked_filter_cases key pattern complaint value data w :
  (exists e, checked_filter key pattern complaint value data w = (Raise e, w))
  \/ checked_filter key pattern complaint value data w
     = (Ret match value with
            | Some v => dict_set key (PStr (str_upper (initial v))) data
            | None => data
            end, w).
Proof.
  unfold checked_filter. destruct value as [v|]; [|right; reflexivity].
  destruct (negb (re_match_ignorecase pattern v)); [left; eexists; reflexivity|].
  destruct v as [|c v]; [left; eexists; reflexivity|]. right.
  destruct v; reflexivity.
Qed.

Lemma in_range p lo hi : In p (range lo hi) -> lo <= p < hi.
Proof.
  unfold range. intros H. apply in_map_iff in H. destruct H as (i & <- & Hi).
  apply in_seq in Hi. lia.
Qed.

Lemma length_range lo hi : List.length (range lo hi) = Z.to_nat (hi - lo).
Proof. unfold range. rewrite length_map, length_seq. reflexivity. Qed.

(** Whatever the filters and whatever the transport answers, get_trades
    sends nothing but page queries for trades: at most as many as the page
    count it computes (one when max_trades is 100 or less), each for a page
    within that range and for at most 100 trades, and each carrying every
    filter that was given (side and duration as their first letter in
    upper case, the dates as month/day/year); it never sleeps.  The page
    count is computed on floats: it is the ceiling of max_trades / 100 for
    max_trades up to 2^53, and when max_trades is too large for a float
    nothing is sent. *)
Theorem get_trades_budget symbol tag_expr side duration startdate enddate max_trades w :
  let w' := snd (get_trades symbol tag_expr side duration startdate enddate
                   max_trades w) in
  let filters :=
    [("symbol", option_map PStr symbol);
     ("tag", option_map PStr tag_expr);
     ("side", option_map (fun v => PStr (str_upper (initial v))) side);
     ("duration", option_map (fun v => PStr (str_upper (initial v))) duration);
     ("startdate", option_map (fun d => PStr (strftime d "%m/%d/%Y")) startdate);
     ("enddate", option_map (fun d => PStr (strftime d "%m/%d/%Y")) enddate)] in
  exists queries,
    sent w' = (queries ++ sent w)%list
    /\ match total_pages max_trades with
       | Ret pages =>
           Forall (page_request filters pages) queries
           /\ Z.of_nat (List.length queries) <= pages
       | Raise _ => queries = []
       end
    /\ slept_total w' = slept_total w
    /\ (max_trades <= 2 ^ 53 ->
        total_pages max_trades
        = Ret (if max_trades >? 100 then (max_trades + 99) / 100 else 1)).
Proof.
  intros w' filters. subst w'.
  assert (Hnone : exists queries : list Request,
             sent w = (queries ++ sent w)%list
             /\ match total_pages max_trades with
                | Ret pages =>
                    Forall (page_request filters pages) queries
                    /\ Z.of_nat (List.length queries) <= pages
                | Raise _ => queries = []
                end
             /\ slept_total w = slept_total w
             /\ (max_trades <= 2 ^ 53 ->
                 total_pages max_trades
                 = Ret (if max_trades >? 100 then (max_trades + 99) / 100 else 1))).
  { exists []. split; [reflexivity|]. split.
    - destruct (total_pages max_trades) as [pages|e] eqn:Hp; [|reflexivity].
      apply total_pages_pos in Hp. split; [constructor | cbn; lia].
    - split; [reflexivity | apply total_pages_exact]. }
  unfold get_trades.
  match goal with
  | |- context [checked_filter "side" ?p ?c side ?d] =>
      destruct (checked_filter_cases "side" p c side d w) as [(e & E) | E]
  end.
  { rewrite (bind_raise_eq _ _ _ _ _ E). cbn [snd]. exact Hnone. }
  rewrite (bind_ret_eq _ _ _ _ _ E). clear E.
  match goal with
  | |- context [checked_filter "duration" ?p ?c duration ?d] =>
      destruct (checked_filter_cases "duration" p c duration d w) as [(e & E) | E]
  end.
  { rewrite (bind_raise_eq _ _ _ _ _ E). cbn [snd]. exact Hnone. }
  rewrite (bind_ret_eq _ _ _ _ _ E). clear E Hnone.
  destruct (total_pages max_trades) as [pages|e] eqn:Hp.
  2:{ rewrite (bind_raise_eq (lift (Raise e)) _ w e w eq_refl). cbn [snd].
      exists []. split; [reflexivity|]. split; [reflexivity|].
      split; [reflexivity|]. intros Hle. rewrite <- Hp. apply total_pages_exact. exact Hle. }
  rewrite (bind_ret_eq (lift (Ret pages)) _ w pages w eq_refl).
  pose proof (total_pages_pos _ _ Hp) as Htp.
  match goal with
  | |- context [bind (fetch_pages ?range max_trades ?data []) ?k w] =>
      assert (Hc : costs (page_request filters pages)
                     (List.length range + 0) (0 + 0)
                     (bind (fetch_pages range max_trades data []) k))
  end.
  { apply costs_bind; [lia | |].
    - apply costs_fetch_pages.
      + unfold filters. repeat constructor; cbn [fst]; discriminate.
      + intros p Hin. apply in_range in Hin. lia.
      + unfold filters.
        destruct symbol, tag_expr, side, duration, startdate, enddate;
          repeat constructor; intros v Hv; cbn [snd option_map] in Hv;
          try discriminate Hv; injection Hv as <-; reflexivity.
    - intros [v|all_trades]; apply costs_logs_only; try lia; logs_tac. }
  destruct (Hc w) as (queries & Hs & Hall & Hl & Ht).
  exists queries. split; [exact Hs|]. split; [split; [exact Hall|]|].
  - rewrite length_range in Hl. lia.
  - split; [lia|]. intros Hle. rewrite <- Hp. apply total_pages_exact. exact Hle.
Qed.

(** A side or duration that does not match its pattern is refused with
    ValueError before any request is sent and before anything is logged. *)
Theorem invalid_filter_rejected symbol tag_expr side duration startdate enddate
    max_trades w :
  (exists v, side = Some v /\ re_match_ignorecase "^(long|short)$" v = false)
  \/ (filter_ok "^(long|short)$" side
      /\ exists v, duration = Some v
                   /\ re_match_ignorecase "^(intraday|multiday)$" v = false) ->
  exists msg,
    get_trades symbol tag_expr side duration startdate enddate max_trades w
    = (Raise (ValueError msg), w).
Proof.
  intros [(v & -> & Hv) | (Hs & v & -> & Hv)]; unfold get_trades.
  - eexists. apply bind_raise_eq. unfold checked_filter. rewrite Hv. reflexivity.
  - match goal with
    | |- context [checked_filter "side" ?p ?c side ?d] =>
        destruct (checked_filter_ok "side" p c side d w Hs) as (dB & HB)
    end.
    rewrite (bind_ret_eq _ _ _ _ _ HB).
    eexists. apply bind_raise_eq. unfold checked_filter. rewrite Hv. reflexivity.
Qed.

(** ** Updating a trade *)

Lemma dict_set_not_nil k v d : dict_set k v d <> [].
Proof.
  destruct d as [|[k' v'] d]; cbn [dict_set]; [discriminate|].
  destruct (String.eqb k k'); discriminate.
Qed.

Lemma assigned_nil k v d : assigned k v d = [] -> v = PNone /\ d = [].
Proof.
  destruct v; cbn [assigned]; intros H;
    try (exfalso; exact (dict_set_not_nil _ _ _ H)).
  split; [reflexivity | exact H].
Qed.

Lemma assigned_get_same k v d :
  dict_get k d = None -> dict_get k (assigned k v d) = given v.
Proof.
  intros Hd. destruct v; cbn [assigned given]; try apply dict_get_set_same. exact Hd.
Qed.

Lemma assigned_get_other k k' v d :
  k <> k' -> dict_get k (assigned k' v d) = dict_get k d.
Proof.
  intros Hk. destruct v; cbn [assigned]; try apply dict_get_set_other; auto.
Qed.

Lemma py_format_update (a b : pyval) :
  py_format "Unable to update fields [%s] of trade ID" [a; b]
  = Raise (TypeError "not all arguments converted during string formatting").
Proof. reflexivity. Qed.

(** update_trade answers False only when it was given nothing to update,
    and then sends nothing.  Otherwise it sends one PUT whose body holds
    each field exactly when it was given; the answer 200 makes it return
    True, and any other answer makes it raise TypeError while it builds the
    failure message, before the failure is logged or False is returned. *)
Theorem update_trade_outcome trade_id notes shared initial_risk tags w :
  let run := update_trade trade_id notes shared initial_risk tags w in
  exists body,
    dict_get "notes" body = given notes
    /\ dict_get "shared" body = given shared
    /\ dict_get "initial_risk" body = given initial_risk
    /\ dict_get "tags" body = given tags
    /\ match fst run with
       | Ret false =>
           notes = PNone /\ shared = PNone /\ initial_risk = PNone /\ tags = PNone
           /\ sent (snd run) = sent w
       | Ret true =>
           sent (snd run) = update_put trade_id body :: sent w
           /\ status_code (server (update_put trade_id body :: sent w)) = 200
       | Raise e =>
           sent (snd run) = update_put trade_id body :: sent w
           /\ status_code (server (update_put trade_id body :: sent w)) <> 200
           /\ e = TypeError "not all arguments converted during string formatting"
       end.
Proof.
  intros run. subst run.
  set (body := assigned "tags" tags
                 (assigned "initial_risk" initial_risk
                    (assigned "shared" shared (assigned "notes" notes [])))).
  assert (Eq : update_trade trade_id notes shared initial_risk tags
               = (if Z.of_nat (List.length body) =? 0 then
                    log_warning "No updates specified for trade ID %s. Not taking further action"
                      [PStr (py_str trade_id)] ;;
                    ret false
                  else
                    r <- __put (join "/" [baseurl self; "trades"; py_str trade_id])
                           (Some (PDict body)) ;;
                    if status_code r =? 200 then
                      log_debug "Successfully updated fields [%s] of trade ID %s: %s"
                        [PStr (join " " (keys body)); PStr (py_str trade_id); PStr (text r)] ;;
                      ret true
                    else
                      msg <- lift (py_format "Unable to update fields [%s] of trade ID"
                                     [PStr (join " " (keys body)); PStr (py_str trade_id)]) ;;
                      __handle_bad_http_response r msg false ;;
                      ret false)) by reflexivity.
  rewrite Eq. clear Eq.
  exists body.
  assert (Hfields : dict_get "notes" body = given notes
                    /\ dict_get "shared" body = given shared
                    /\ dict_get "initial_risk" body = given initial_risk
                    /\ dict_get "tags" body = given tags).
  { unfold body.
    repeat split;
      repeat (rewrite assigned_get_other by discriminate);
      apply assigned_get_same;
      repeat (rewrite assigned_get_other by discriminate); reflexivity. }
  destruct Hfields as (Hf1 & Hf2 & Hf3 & Hf4).
  split; [exact Hf1|]. split; [exact Hf2|]. split; [exact Hf3|]. split; [exact Hf4|].
  destruct (Z.of_nat (List.length body) =? 0) eqn:El.
  - cbn [fst snd bind log_warning log_at ret sent].
    apply Z.eqb_eq in El.
    assert (Hb : body = []) by (destruct body; [reflexivity | discriminate El]).
    unfold body in Hb.
    apply assigned_nil in Hb. destruct Hb as [Ht Hb].
    apply assigned_nil in Hb. destruct Hb as [Hi Hb].
    apply assigned_nil in Hb. destruct Hb as [Hs Hb].
    apply assigned_nil in Hb. destruct Hb as [Hn _].
    auto.
  - unfold __put.
    destruct (make_request_spec PUT (join "/" [baseurl self; "trades"; py_str trade_id])
                (Some (PDict body)) None w) as (w1 & E & Hs & _).
    fold (update_put trade_id body) in E, Hs.
    rewrite (bind_ret_eq _ _ _ _ _ E).
    destruct (status_code (server (update_put trade_id body :: sent w)) =? 200) eqn:Hc.
    + cbn [fst snd bind log_debug log_at ret sent].
      split; [exact Hs | apply Z.eqb_eq; exact Hc].
    + rewrite py_format_update. cbn [fst snd bind lift].
      split; [exact Hs|]. split; [apply Z.eqb_neq; exact Hc | reflexivity].
Qed.

(** ** Users *)

Lemma handle_outcome_any_message r msg1 msg2 show_url w :
  fst (__handle_bad_http_response r msg1 show_url w)
  = fst (__handle_bad_http_response r msg2 show_url w).
Proof.
  unfold __handle_bad_http_response. unfold bind at 1 5.
  destruct (server_error_of r w) as [[v|e] w1]; [|reflexivity].
  unfold log_error. rewrite !bind_log.
  destruct ((status_code r =? 403) && truthy (target_user self)); reflexivity.
Qed.

(** get_user never asks for the user it is given: its one request is the
    request of get_users (the collection url, without the id), and its
    result is the same for every id. *)
Theorem get_user_ignores_id user_id other_id w :
  sent (snd (get_user user_id w)) = users_query :: sent w
  /\ sent (snd (get_users w)) = users_query :: sent w
  /\ fst (get_user user_id w) = fst (get_user other_id w).
Proof.
  unfold get_user, get_users, __get.
  destruct (make_request_spec GET (join "/" [baseurl self; "users"]) None None w)
    as (w1 & E & Hs & _).
  fold users_query in E, Hs.
  rewrite !(bind_ret_eq _ _ _ _ _ E).
  set (r := server (users_query :: sent w)).
  split; [|split].
  - match goal with |- sent (snd (?m w1)) = _ =>
      assert (Hl : logs_only m) by logs_tac; destruct (Hl w1) as [H1 _]
    end.
    rewrite H1. exact Hs.
  - match goal with |- sent (snd (?m w1)) = _ =>
      assert (Hl : logs_only m) by logs_tac; destruct (Hl w1) as [H1 _]
    end.
    rewrite H1. exact Hs.
  - destruct (status_code r =? 200).
    + unfold json_loads. destruct (json_of_text r); reflexivity.
    + unfold bind.
      pose proof (handle_outcome_any_message r
                    (message "Unable to query user ID %s" [PStr (py_str user_id)])
                    (message "Unable to query user ID %s" [PStr (py_str other_id)])
                    true w1) as H.
      destruct (__handle_bad_http_response r
                  (message "Unable to query user ID %s" [PStr (py_str user_id)]) true w1)
        as [[u|e] w2];
      destruct (__handle_bad_http_response r
                  (message "Unable to query user ID %s" [PStr (py_str other_id)]) true w1)
        as [[u'|e'] w2']; cbn [fst] in *; try discriminate H;
        try (injection H as ->); reflexivity.
Qed.

(** ** Single trades *)

Lemma logs_sent {A} (m : M A) w : logs_only m -> sent (snd (m w)) = sent w.
Proof. intros H. apply H. Qed.

Lemma failed_request_none r msg show_url w :
  plain_error_body r ->
  fst ((__handle_bad_http_response r msg show_url ;; ret PNone) w) = Ret PNone.
Proof.
  intros Hp. destruct (handle_bad_plain r msg show_url w Hp) as (w' & E & _).
  rewrite (bind_ret_eq _ _ _ _ _ E). reflexivity.
Qed.

(** One GET for the trade, whatever comes back.  The answer 200 gives the
    decoded body (ValueError when it is not JSON); any other answer with
    a body that is a JSON object or no JSON gives None. *)
Theorem get_trade_result trade_id w :
  let r := server (trade_query trade_id :: sent w) in
  let run := get_trade trade_id w in
  sent (snd run) = trade_query trade_id :: sent w
  /\ (status_code r = 200 ->
      fst run = match json_of_text r with
                | Some v => Ret v
                | None => Raise (ValueError "No JSON object could be decoded")
                end)
  /\ (status_code r <> 200 -> plain_error_body r -> fst run = Ret PNone).
Proof.
  intros r run. subst run. unfold get_trade, __get. fold (trade_url trade_id).
  destruct (make_request_spec GET (trade_url trade_id) None None w) as (w1 & E & Hs & _).
  fold (trade_query trade_id) in E, Hs. fold r in E.
  rewrite (bind_ret_eq _ _ _ _ _ E).
  split; [|split].
  - rewrite logs_sent; [exact Hs | logs_tac].
  - intros Hc. rewrite Hc. change (200 =? 200) with true. cbv iota.
    unfold log_debug. rewrite bind_log. unfold json_loads.
    destruct (json_of_text r); reflexivity.
  - intros Hc Hp. apply Z.eqb_neq in Hc. rewrite Hc.
    apply failed_request_none. exact Hp.
Qed.

Ltac listing_result r Hs :=
  split; [|split];
  [ rewrite logs_sent; [exact Hs | logs_tac]
  | let Hc := fresh "Hc" in let d := fresh "d" in let Hj := fresh "Hj" in
    intros Hc d Hj; rewrite Hc; change (200 =? 200) with true; cbv iota;
    unfold json_loads; rewrite Hj;
    unfold bind at 1, ret at 1; unfold bind at 1, lift at 1;
    cbn [py_contains]; unfold dict_has, entry;
    let v := fresh "v" in
    destruct (dict_get _ d) as [v|] eqn:Ed; cbn [negb];
    [ unfold bind at 1, lift at 1; cbn [py_getitem]; rewrite Ed;
      unfold bind at 1, lift at 1; destruct (py_len v); reflexivity
    | reflexivity ]
  | let Hc := fresh "Hc" in let Hp := fresh "Hp" in
    intros Hc Hp; apply Z.eqb_neq in Hc; rewrite Hc;
    apply failed_request_none; exact Hp ].

(** One GET to the executions of the trade.  For the answer 200 with a
    JSON object, the result is the entry under executions; None when the
    key is missing; and TypeError when the entry has no length (null, a
    number), raised while the success message is built.  Any other answer
    with a body that is a JSON object or no JSON gives None. *)
Theorem get_trade_executions_result trade_id w :
  let r := server (part_query trade_id "executions" :: sent w) in
  let run := get_trade_executions trade_id w in
  sent (snd run) = part_query trade_id "executions" :: sent w
  /\ (status_code r = 200 -> forall d, json_of_text r = Some (PDict d) ->
      fst run = entry "executions" d)
  /\ (status_code r <> 200 -> plain_error_body r -> fst run = Ret PNone).
Proof.
  intros r run. subst run. unfold get_trade_executions, __get.
  destruct (make_request_spec GET
              (join "/" [baseurl self; "trades"; py_str trade_id; "executions"])
              None None w) as (w1 & E & Hs & _).
  fold (part_query trade_id "executions") in E, Hs. fold r in E.
  rewrite (bind_ret_eq _ _ _ _ _ E).
  listing_result r Hs.
Qed.

(** The same for the comments of a trade. *)
Theorem get_trade_comments_result trade_id w :
  let r := server (part_query trade_id "comments" :: sent w) in
  let run := get_trade_comments trade_id w in
  sent (snd run) = part_query trade_id "comments" :: sent w
  /\ (status_code r = 200 -> forall d, json_of_text r = Some (PDict d) ->
      fst run = entry "comments" d)
  /\ (status_code r <> 200 -> plain_error_body r -> fst run = Ret PNone).
Proof.
  intros r run. subst run. unfold get_trade_comments, __get.
  destruct (make_request_spec GET
              (join "/" [baseurl self; "trades"; py_str trade_id; "comments"])
              None None w) as (w1 & E & Hs & _).
  fold (part_query trade_id "comments") in E, Hs. fold r in E.
  rewrite (bind_ret_eq _ _ _ _ _ E).
  listing_result r Hs.
Qed.

(** The same for the users of the account. *)
Theorem get_users_result w :
  let r := server (users_query :: sent w) in
  let run := get_users w in
  sent (snd run) = users_query :: sent w
  /\ (status_code r = 200 -> forall d, json_of_text r = Some (PDict d) ->
      fst run = entry "users" d)
  /\ (status_code r <> 200 -> plain_error_body r -> fst run = Ret PNone).
Proof.
  intros r run. subst run. unfold get_users, __get.
  destruct (make_request_spec GET (join "/" [baseurl self; "users"]) None None w)
    as (w1 & E & Hs & _).
  fold users_query in E, Hs. fold r in E.
  rewrite (bind_ret_eq _ _ _ _ _ E).
  listing_result r Hs.
Qed.

(** One DELETE for the trade, without a body; the result tells whether the
    answer was 200. *)
Theorem delete_trade_result trade_id w :
  let r := server (delete_request trade_id :: sent w) in
  let run := delete_trade trade_id w in
  sent (snd run) = delete_request trade_id :: sent w
  /\ (status_code r = 200 -> fst run = Ret true)
  /\ (status_code r <> 200 -> plain_error_body r -> fst run = Ret false).
Proof.
  intros r run. subst run. unfold delete_trade, __delete. fold (trade_url trade_id).
  destruct (make_request_spec DELETE (trade_url trade_id) None None w)
    as (w1 & E & Hs & _).
  fold (delete_request trade_id) in E, Hs. fold r in E.
  rewrite (bind_ret_eq _ _ _ _ _ E).
  split; [|split].
  - rewrite logs_sent; [exact Hs | logs_tac].
  - intros Hc. rewrite Hc. reflexivity.
  - intros Hc Hp. apply Z.eqb_neq in Hc. rewrite Hc.
    destruct (handle_bad_plain r (message "Deletion of tradeID %s" [PStr (py_str trade_id)])
                false w1 Hp) as (w' & Eh & _).
    rewrite (bind_ret_eq _ _ _ _ _ Eh). reflexivity.
Qed.

(** create_trade sends one POST whose body holds the symbol and the shared
    flag, the notes and the initial risk when they are given, and the tags
    when the list is not empty.  Only the answer 201 is a success: any
    other answer, 200 included, gives None.  With return_url the result is
    the Location header of the answer, looked up without regard to case,
    and KeyError when the answer has none. *)
Theorem create_trade_outcome symbol notes initial_risk shared (tags : list pyval)
    return_url w :
  exists body,
    let r := server (create_post body :: sent w) in
    let run := create_trade symbol notes initial_risk shared (PList tags) return_url w in
    sent (snd run) = create_post body :: sent w
    /\ dict_get "symbol" body = Some (PStr symbol)
    /\ dict_get "shared" body = Some shared
    /\ dict_get "notes" body = given notes
    /\ dict_get "initial_risk" body = given initial_risk
    /\ dict_get "tags" body = match tags with
                              | [] => None
                              | _ => Some (PList tags)
                              end
    /\ (status_code r <> 201 -> plain_error_body r -> fst run = Ret PNone)
    /\ (status_code r = 201 -> return_url = true ->
        fst run = match header_get "Location" (resp_headers r) with
                  | Some location => Ret (PStr location)
                  | None => Raise (KeyError "location")
                  end)
    /\ (status_code r = 201 -> return_url = false ->
        forall d, json_of_text r = Some (PDict d) ->
        fst run = match dict_get "id" d with
                  | Some v => Ret v
                  | None => Raise (KeyError "id")
                  end).
Proof.
  set (base := assigned "initial_risk" initial_risk
                 (assigned "notes" notes [("symbol", PStr symbol); ("shared", shared)])).
  set (body := if Z.of_nat (List.length tags) >? 0
               then dict_set "tags" (PList tags) base else base).
  exists body. intros r run. subst run.
  assert (Eq : create_trade symbol notes initial_risk shared (PList tags) return_url
               = (r <- __post trades_url (Some (PDict body)) ;;
                  if status_code r =? 201 then
                    log_debug "Successfully created new trade for %s: %s"
                      [PStr symbol; PStr (text r)] ;;
                    if return_url then
                      match header_get "Location" (resp_headers r) with
                      | Some location => ret (PStr location)
                      | None => raise (KeyError "location")
                      end
                    else
                      payload <- json_loads r ;;
                      lift (py_getitem payload "id")
                  else
                    __handle_bad_http_response r
                      (message "New trade creation for %s" [PStr symbol]) false ;;
                    ret PNone)) by reflexivity.
  rewrite Eq. clear Eq. unfold __post.
  destruct (make_request_spec POST trades_url (Some (PDict body)) None w)
    as (w1 & E & Hs & _).
  fold (create_post body) in E, Hs. fold r in E.
  rewrite (bind_ret_eq _ _ _ _ _ E).
  split; [rewrite logs_sent; [exact Hs | logs_tac]|].
  assert (Hbase : forall k, k <> "tags" -> dict_get k body = dict_get k base).
  { intros k Hk. unfold body. destruct (Z.of_nat (List.length tags) >? 0);
      [apply dict_get_set_other; exact Hk | reflexivity]. }
  split.
  { rewrite Hbase by discriminate. unfold base.
    rewrite !assigned_get_other by discriminate. reflexivity. }
  split.
  { rewrite Hbase by discriminate. unfold base.
    rewrite !assigned_get_other by discriminate. reflexivity. }
  split.
  { rewrite Hbase by discriminate. unfold base.
    rewrite assigned_get_other by discriminate. apply assigned_get_same. reflexivity. }
  split.
  { rewrite Hbase by discriminate. unfold base.
    apply assigned_get_same. rewrite assigned_get_other by discriminate. reflexivity. }
  split.
  { unfold body. destruct tags as [|t tags].
    - cbn [List.length Z.of_nat Z.gtb Z.compare]. unfold base.
      rewrite !assigned_get_other by discriminate. reflexivity.
    - assert (G : (Z.of_nat (List.length (t :: tags)) >? 0) = true)
        by (rewrite Z.gtb_ltb; apply Z.ltb_lt; cbn [List.length]; lia).
      rewrite G. apply dict_get_set_same. }
  split; [|split].
  - intros Hc Hp. apply Z.eqb_neq in Hc. rewrite Hc.
    apply failed_request_none. exact Hp.
  - intros Hc ->. rewrite Hc. change (201 =? 201) with true. cbv iota.
    unfold log_debug. rewrite bind_log.
    destruct (header_get "Location" (resp_headers r)); reflexivity.
  - intros Hc -> d Hj. rewrite Hc. change (201 =? 201) with true. cbv iota.
    unfold log_debug. rewrite bind_log. unfold json_loads. rewrite Hj.
    unfold bind, ret, lift. cbn [py_getitem fst].
    destruct (dict_get "id" d); reflexivity.
Qed.

(** ** The permission hint *)

(** The last record the handler logs is the permission hint exactly when
    the answer is 403 and the client acts for a target user; the hint
    names no user, its conversion is left as it is. *)
Theorem permission_hint_logged r msg show_url w :
  plain_error_body r ->
  hd_error (log (snd (__handle_bad_http_response r msg show_url w))) = Some no_permission
  <-> status_code r = 403 /\ truthy (target_user self) = true.
Proof.
  intros Hp. destruct (server_error_of_plain r w Hp) as (v & w1 & E & _).
  unfold __handle_bad_http_response. rewrite (bind_ret_eq _ _ _ _ _ E).
  unfold log_error. rewrite !bind_log.
  destruct (status_code r =? 403) eqn:Hc; destruct (truthy (target_user self)) eqn:Ht;
    cbn [andb snd log logged log_at ret hd_error].
  - apply Z.eqb_eq in Hc. split; auto.
  - split; [intros H; discriminate H | intros [_ H]; discriminate H].
  - apply Z.eqb_neq in Hc. split; [intros H; discriminate H | intros [H _]; contradiction].
  - split; [intros H; discriminate H | intros [_ H]; discriminate H].
Qed.

(** ** The payload of a succeeded import *)

Lemma import_status_run w v w' :
  import_status w = (Ret v, w') ->
  sent w' = status_query :: sent w /\ slept w' = slept w
  /\ (v = PNone \/ last_answer w' v).
Proof.
  unfold import_status, __get. fold imports_url.
  destruct (make_request_spec GET imports_url None None w) as (w1 & E & Hs & Hl).
  fold status_query in E, Hs.
  rewrite (bind_ret_eq _ _ _ _ _ E).
  set (r := server (status_query :: sent w)).
  match goal with |- ?m w1 = _ -> _ =>
    assert (Hlogs : logs_only m) by logs_tac; destruct (Hlogs w1) as [H1 H2]
  end.
  intros Erun. rewrite Erun in H1, H2. cbn [snd] in H1, H2.
  split; [congruence|]. split; [congruence|].
  revert Erun. destruct (status_code r =? 200).
  - unfold log_debug. rewrite bind_log. unfold json_loads.
    destruct (json_of_text r) as [data|] eqn:Hj; [|intros Ew; discriminate Ew].
    unfold bind at 1, ret at 1. unfold bind at 1, lift at 1.
    destruct (py_getitem data "status") as [status|e]; [|intros Ew; discriminate Ew].
    destruct (negb (in_strs status import_statuses)).
    + unfold log_error, bind, log_at, ret. intros Ew. injection Ew as <- _. left. reflexivity.
    + unfold ret. intros Ew. injection Ew as <- _. right.
      unfold last_answer. rewrite H1, Hs. exact Hj.
  - unfold bind.
    destruct (__handle_bad_http_response r (message "Unable to query import status" [])
                false w1) as [[u|e] w2]; [|intros Ew; discriminate Ew].
    unfold ret. intros Ew. injection Ew as <- _. left. reflexivity.
Qed.

Lemma repeat_snoc {A} (x : A) n l : (repeat x n ++ x :: l = repeat x (S n) ++ l)%list.
Proof.
  change (x :: l) with ([x] ++ l)%list. rewrite app_assoc, <- repeat_cons. reflexivity.
Qed.

Lemma wait_loop_run secs fuel : forall retries_left data w v w',
  data = PNone \/ last_answer w data ->
  wait_loop fuel secs retries_left data w = (Ret v, w') ->
  exists n : nat,
    sent w' = (repeat status_query n ++ sent w)%list
    /\ slept w' = (repeat secs n ++ slept w)%list
    /\ (v = PNone \/ last_answer w' v).
Proof.
  assert (Hstop : forall data w v w',
             data = PNone \/ last_answer w data ->
             @ret World pyval data w = (Ret v, w') ->
             exists n : nat,
               sent w' = (repeat status_query n ++ sent w)%list
               /\ slept w' = (repeat secs n ++ slept w)%list
               /\ (v = PNone \/ last_answer w' v)).
  { intros data w v w' Hd Ew. injection Ew as <- <-. exists 0%nat. auto. }
  induction fuel as [|fuel IH]; intros rl data w v w' Hd.
  - destruct data; cbn [wait_loop]; try (apply Hstop; exact Hd);
      unfold bind at 1, lift at 1;
      (destruct (py_getitem _ "status") as [status|e]; [|intros Ew; discriminate Ew]);
      (destruct ((str_eq "queued" status || str_eq "processing" status) && (rl >=? 0));
       apply Hstop; exact Hd).
  - destruct data; cbn [wait_loop]; try (apply Hstop; exact Hd);
      unfold bind at 1, lift at 1;
      (destruct (py_getitem _ "status") as [status|e]; [|intros Ew; discriminate Ew]);
      (destruct ((str_eq "queued" status || str_eq "processing" status) && (rl >=? 0));
       [|apply Hstop; exact Hd]);
      unfold bind at 1, sleep at 1;
      (destruct (secs <? 0); [intros Ew; discriminate Ew|]);
      unfold bind at 1;
      match goal with |- context [import_status ?w1] =>
        destruct (import_status w1) as [[d1|e1] w2] eqn:Ei; [|intros Ew; discriminate Ew];
        destruct (import_status_run _ _ _ Ei) as (Hs2 & Hl2 & Hd2)
      end;
      cbn [sent slept] in Hs2, Hl2;
      intros Ew; destruct (IH _ _ _ _ _ Hd2 Ew) as (n & Hs & Hl & Hv);
      exists (S n); (split; [rewrite Hs, Hs2; apply repeat_snoc|]);
      (split; [rewrite Hl, Hl2; apply repeat_snoc | exact Hv]).
Qed.

Lemma wait_for_import_run wait_retries secs w v w' :
  wait_for_import wait_retries secs w = (Ret v, w') ->
  exists n : nat,
    sent w' = (repeat status_query (S n) ++ sent w)%list
    /\ slept w' = (repeat secs n ++ slept w)%list
    /\ (v = PNone \/ last_answer w' v).
Proof.
  unfold wait_for_import, log_debug. rewrite bind_log.
  set (w0 := logged DEBUG "Waiting for import to complete..." [] w).
  unfold bind at 1.
  destruct (import_status w0) as [[d1|e1] w1] eqn:Ei; [|intros Ew; discriminate Ew].
  destruct (import_status_run _ _ _ Ei) as (Hs1 & Hl1 & Hd1).
  unfold bind at 1.
  destruct (wait_loop (Z.to_nat (wait_retries + 1)) secs wait_retries d1 w1)
    as [[d2|e2] w2] eqn:El; [|intros Ew; discriminate Ew].
  destruct (wait_loop_run _ _ _ _ _ _ _ Hd1 El) as (n & Hs2 & Hl2 & Hd2).
  assert (Hs : sent w2 = (repeat status_query (S n) ++ sent w)%list).
  { rewrite Hs2, Hs1. apply repeat_snoc. }
  assert (Hl : slept w2 = (repeat secs n ++ slept w)%list).
  { rewrite Hl2, Hl1. reflexivity. }
  assert (Hlast : forall lv f a, d2 = PNone \/ last_answer (logged lv f a w2) d2).
  { intros lv f a. destruct Hd2 as [H|H]; [left; exact H | right; exact H]. }
  unfold bind at 1, lift at 1.
  destruct (py_getitem d2 "status") as [status|e]; [|intros Ew; discriminate Ew].
  unfold log_error, log_debug.
  repeat match goal with
         | |- context [if ?b then _ else _] => destruct b
         end;
    rewrite bind_log; unfold ret; intros Ew; injection Ew as <- <-;
    exists n; cbn [sent slept logged]; (split; [exact Hs|]); (split; [exact Hl|]);
    first [left; reflexivity | apply Hlast].
Qed.

(** Polling that ends on succeeded returns the payload: the decoded body
    of the succeeded answer, after the status queries for the pending
    answers and for this one, and one sleep of secs_per_wait_retry (not
    negative) per pending answer. *)
Theorem succeeded_import_payload wait_retries secs w (k : nat) :
  0 <= secs ->
  Z.of_nat k <= wait_retries + 1 ->
  (forall i, (i < k)%nat -> reply_at w i pending) ->
  reply_at w k (status_is "succeeded") ->
  exists d w',
    wait_for_import wait_retries secs w = (Ret (PDict d), w')
    /\ last_answer w' (PDict d)
    /\ dict_get "status" d = Some (PStr "succeeded")
    /\ sent w' = (repeat status_query (S k) ++ sent w)%list
    /\ slept w' = (repeat secs k ++ slept w)%list.
Proof.
  intros Hsecs Hk Hp Hs.
  assert (Hrun : exists d w' new,
             wait_for_import wait_retries secs w = (Ret (PDict d), w')
             /\ dict_get "status" d = Some (PStr "succeeded")
             /\ sent w' = (new ++ sent w)%list
             /\ List.length new = S k).
  { unfold wait_for_import, log_debug. rewrite bind_log.
    set (w0 := logged DEBUG "Waiting for import to complete..." [] w).
    destruct (poll_settles "succeeded" wait_retries secs w0 k)
      as (d & w1 & new & E & Hd & Hs1 & Hn); auto.
    { unfold settled. auto. }
    rewrite bind_assoc. rewrite (bind_ret_eq _ _ _ _ _ E).
    unfold bind at 1, lift at 1. cbn [py_getitem]. rewrite Hd.
    change (str_eq "ready" (PStr "succeeded")) with false.
    change (str_eq "succeeded" (PStr "succeeded")) with true.
    cbv iota. unfold log_debug. rewrite bind_log.
    exists d. eexists. exists new. split; [reflexivity|]. split; [exact Hd|].
    split; [exact Hs1 | exact Hn]. }
  destruct Hrun as (d & w' & new & E & Hd & Hs1 & Hn).
  destruct (wait_for_import_run _ _ _ _ _ E) as (n & Hs2 & Hl2 & [Hv | Hv]);
    [discriminate Hv|].
  assert (Hnew : new = repeat status_query (S n)).
  { apply (app_inv_tail (sent w)). rewrite <- Hs1. exact Hs2. }
  assert (n = k) by (rewrite Hnew, repeat_length in Hn; lia). subst n.
  exists d, w'. auto 6.
Qed.

End Client.

(** * The verbose switch *)

(** verbose_http changes nothing but the log: the request sent, the
    response returned and the sleep are the same with and without it; the
    quiet client logs nothing for a request, the verbose one nine records
    (five for the request, four for the response). *)
Theorem verbose_http_only_logs server self m url payload params w :
  let quiet := __make_request server (with_verbose false self) m url payload params w in
  let loud := __make_request server (with_verbose true self) m url payload params w in
  fst loud = fst quiet
  /\ sent (snd loud) = sent (snd quiet)
  /\ slept (snd loud) = slept (snd quiet)
  /\ log (snd quiet) = log w
  /\ List.length (log (snd loud)) = (9 + List.length (log w))%nat.
Proof.
  unfold __make_request, with_verbose.
  cbn [verbose_http target_user username password user_agent baseurl].
  destruct (target_user self);
    lazy beta iota zeta delta [bind log_debug log_at send ret fst snd sent log slept app
                                 List.length Nat.add];
    repeat split.
Qed.

(** * The theorems at sample inputs *)

Lemma scripted_reply replies otherwise i P :
  P (nth i replies otherwise) = true ->
  reply_at (scripted replies otherwise) no_history i P.
Proof.
  intros H h Hh. unfold scripted. cbn [sent no_history].
  rewrite app_nil_r, Hh. replace (S i - 1)%nat with i by lia. exact H.
Qed.

Lemma scripted_page replies otherwise i l :
  listing (nth i replies otherwise) = Some l ->
  page_at (scripted replies otherwise) no_history i l.
Proof.
  intros H h Hh. unfold scripted. cbn [sent no_history].
  rewrite app_nil_r, Hh. replace (S i - 1)%nat with i by lia. exact H.
Qed.

Lemma scripted_default (otherwise : Response) i : nth i [] otherwise = otherwise.
Proof. destruct i; reflexivity. Qed.

(** A retry budget of 3 and a server that stays on processing: five status
    queries. *)
Lemma poll_never_done_witness :
  exists h' w' new posted,
    import_executions (scripted [status_response "queued"] (status_response "processing"))
      sample_client 0%nat None None false false 3 true 3 15 sample_heap no_history
    = (Ret PNone, h', w')
    /\ sent w' = (new ++ posted :: sent no_history)%list
    /\ is_import_post sample_client posted
    /\ Forall (eq (status_query sample_client)) new
    /\ Z.of_nat (List.length new) = 5.
Proof.
  apply (poll_never_done
           (scripted [status_response "queued"] (status_response "processing"))
           sample_client 0%nat None None false false 3 3 15 sample_heap no_history
           sample_execution [] None).
  - reflexivity.
  - exact I.
  - lia.
  - lia.
  - lia.
  - apply scripted_reply. reflexivity.
  - intros i. apply scripted_reply. destruct i; reflexivity.
Defined.

(** The same call evaluated: the result, the requests and the sleeps. *)
Example polling_budget_3_queries_5 :
  let '(result, _, w') :=
    import_executions (scripted [status_response "queued"] (status_response "processing"))
      sample_client 0%nat None None false false 3 true 3 15 sample_heap no_history in
  result = Ret PNone
  /\ map method (sent w') = [GET; GET; GET; GET; GET; POST]
  /\ slept w' = [15; 15; 15; 15].
Proof. vm_compute. repeat split. Qed.

(** queued for the submission, processing once, then failed. *)
Lemma failed_import_is_dropped_witness :
  exists h' w',
    import_executions
      (scripted [status_response "queued"; status_response "processing"]
         (status_response "failed"))
      sample_client 0%nat None None false false 3 true 3 15 sample_heap no_history
    = (Ret PNone, h', w')
    /\ hd_error (log w') = Some (unsupported (PStr "failed")).
Proof.
  apply (failed_import_is_dropped
           (scripted [status_response "queued"; status_response "processing"]
              (status_response "failed"))
           sample_client 0%nat None None false false 3 3 15 sample_heap no_history
           sample_execution [] None 1).
  - reflexivity.
  - exact I.
  - lia.
  - lia.
  - simpl. lia.
  - apply scripted_reply. reflexivity.
  - intros i Hi. apply scripted_reply. destruct i as [|i]; [reflexivity | lia].
  - apply scripted_reply. reflexivity.
Defined.

Example failed_import_returns_none :
  fst (fst (import_executions
              (scripted [status_response "queued"] (status_response "failed"))
              sample_client 0%nat None None false false 3 true 3 15
              sample_heap no_history))
  = Ret PNone.
Proof. vm_compute. reflexivity. Qed.

(** One 424, then queued. *)
Lemma retry_posts_error_body_witness :
  exists d new,
    json_of_text busy_response = Some (PDict d)
    /\ sent (snd (__import_executions
                    (scripted [busy_response] (status_response "queued")) sample_client
                    (PDict (batch (PList [sample_execution]) None None false false))
                    3 false 3 15 no_history))
       = (new ++ [import_post sample_client (PDict d);
                  import_post sample_client
                    (PDict (batch (PList [sample_execution]) None None false false))])%list.
Proof.
  apply (retry_posts_error_body (scripted [busy_response] (status_response "queued"))
           sample_client
           (PDict (batch (PList [sample_execution]) None None false false))
           3 false 3 15 no_history).
  - lia.
  - apply scripted_reply. reflexivity.
Defined.

Example second_post_carries_error :
  map req_data
    (sent (snd (import_executions
                  (scripted [busy_response] (status_response "queued")) sample_client
                  0%nat None None false false 3 false 3 15 sample_heap no_history)))
  = [Some (PDict [("error", PStr "Import in progress")]);
     Some (PDict (batch (PList [sample_execution]) None None false false))].
Proof. vm_compute. reflexivity. Qed.

(** Two 424s then queued within a budget of 3; and 424 throughout. *)
Lemma import_retry_budget_witness :
  (exists d w' new,
      post_loop (scripted [busy_response; busy_response] (status_response "queued"))
        sample_client (Z.to_nat 3) (imports_url sample_client) 3 (PDict []) no_history
      = (Ret (inr (true, d)), w')
      /\ __import_executions
           (scripted [busy_response; busy_response] (status_response "queued"))
           sample_client (PDict []) 3 false 3 15 no_history
         = (Ret PNone, w')
      /\ sent w' = (new ++ sent no_history)%list
      /\ List.length new = 3%nat
      /\ Forall (is_import_post sample_client) new
      /\ (exists r, hd_error (log w') = Some (import_successful r))
      /\ exists later, new = (later ++ [import_post sample_client (PDict [])])%list
                       /\ Forall (resubmission sample_client) later)
  /\
  (exists w' new,
      __import_executions (scripted [] busy_response) sample_client (PDict [])
        3 true 3 15 no_history = (Ret PNone, w')
      /\ sent w' = (new ++ sent no_history)%list
      /\ Z.of_nat (List.length new) = 3
      /\ Forall (is_import_post sample_client) new
      /\ hd_error (log w') = Some (gave_up 3)
      /\ (new = []
          \/ exists later, new = (later ++ [import_post sample_client (PDict [])])%list
                           /\ Forall (resubmission sample_client) later)).
Proof.
  split.
  - apply (proj1 (import_retry_budget
                    (scripted [busy_response; busy_response] (status_response "queued"))
                    sample_client (PDict []) 3 3 15 no_history) 2%nat).
    + simpl. lia.
    + intros i Hi. apply scripted_reply.
      destruct i as [|[|i]]; [reflexivity | reflexivity | lia].
    + apply scripted_reply. reflexivity.
  - apply (proj2 (import_retry_budget (scripted [] busy_response) sample_client
                    (PDict []) 3 3 15 no_history)).
    + lia.
    + intros i Hi. apply scripted_reply. rewrite scripted_default. reflexivity.
Defined.

(** A 424 from a gateway, with an HTML body, within a budget of 3. *)
Lemma unreadable_busy_answer_raises_witness :
  exists w',
    __import_executions (scripted [busy_page] (status_response "queued")) sample_client
      (PDict [("executions", PList [sample_execution])]) 3 false 3 15 no_history
    = (Raise (ValueError "No JSON object could be decoded"), w')
    /\ sent w' = import_post sample_client (PDict [("executions", PList [sample_execution])])
                 :: sent no_history
    /\ slept w' = slept no_history.
Proof.
  apply (unreadable_busy_answer_raises
           (scripted [busy_page] (status_response "queued")) sample_client
           (PDict [("executions", PList [sample_execution])]) 3 false 3 15 no_history).
  - lia.
  - reflexivity.
Defined.

(** The call itself: the 424 page is answered by an exception, although
    the next answer would have been queued. *)
Example busy_page_ends_import :
  let '(result, _, w') :=
    import_executions (scripted [busy_page] (status_response "queued")) sample_client
      0%nat None None false false 3 false 3 15 sample_heap no_history in
  result = Raise (ValueError "No JSON object could be decoded")
  /\ map method (sent w') = [POST]
  /\ slept w' = [].
Proof. vm_compute. repeat split. Qed.

(** Queued, then a gateway error page on the status query. *)
Lemma status_error_escapes_witness :
  exists h' w',
    import_executions (scripted [status_response "queued"] error_page) sample_client
      0%nat None None false false 3 true 3 15 sample_heap no_history
    = (Raise (TypeError "object is not subscriptable"), h', w').
Proof.
  apply (status_error_escapes (scripted [status_response "queued"] error_page)
           sample_client 0%nat None None false false 3 3 15 sample_heap no_history
           sample_execution [] None).
  - reflexivity.
  - exact I.
  - lia.
  - apply scripted_reply. reflexivity.
  - apply scripted_reply. reflexivity.
Defined.

(** ACCT1 with the tags a, b; and with the tags a, b, ACCT1. *)
Lemma account_tag_is_injected_witness :
  (exists data new,
      fst (import_batch 0%nat (Some "ACCT1") (Some 1%nat) false false sample_heap)
      = Ret (PDict data)
      /\ sent (snd (import_executions (scripted [] (status_response "queued"))
                      sample_client 0%nat (Some "ACCT1") (Some 1%nat) false false
                      3 false 3 15 sample_heap no_history))
         = (new ++ import_post sample_client (PDict data) :: sent no_history)%list
      /\ dict_get "tags" data = Some (PList [PStr "a"; PStr "b"; PStr "ACCT1"]))
  /\
  (exists data,
      fst (import_batch 0%nat (Some "ACCT1") (Some 2%nat) false false sample_heap)
      = Ret (PDict data)
      /\ dict_get "tags" data = Some (PList [PStr "a"; PStr "b"; PStr "ACCT1"])).
Proof.
  split.
  - destruct (account_tag_is_injected (scripted [] (status_response "queued"))
                sample_client 0%nat "ACCT1" (Some 1%nat) false false 3 false 3 15
                sample_heap no_history sample_execution []
                (Some [PStr "a"; PStr "b"]))
      as (data & new & E & Hs & Habsent & _).
    + reflexivity.
    + reflexivity.
    + lia.
    + exists data, new. split; [exact E|]. split; [exact Hs|].
      apply Habsent. simpl. intros [H|[H|[]]]; discriminate.
  - destruct (account_tag_is_injected (scripted [] (status_response "queued"))
                sample_client 0%nat "ACCT1" (Some 2%nat) false false 3 false 3 15
                sample_heap no_history sample_execution []
                (Some [PStr "a"; PStr "b"; PStr "ACCT1"]))
      as (data & new & E & _ & _ & Hpresent).
    + reflexivity.
    + reflexivity.
    + lia.
    + exists data. split; [exact E|]. apply Hpresent. simpl. auto.
Defined.

(** 250 trades over full pages; an empty second page; a failing second page. *)
Lemma get_trades_250_witness :
  (exists d1 d2 d3 w',
      get_trades (scripted [page_response 100; page_response 100; page_response 50]
                    error_page)
        sample_client no_match no_match same_string unit no_date
        None None None None None None 250 no_history
      = (Ret (PList (repeat sample_trade 100 ++ repeat sample_trade 100
                     ++ repeat sample_trade 50)), w')
      /\ sent w' = ([page_query sample_client d3; page_query sample_client d2;
                    page_query sample_client d1] ++ sent no_history)%list
      /\ paging d1 = (Some (PInt 1), Some (PInt 100))
      /\ paging d2 = (Some (PInt 2), Some (PInt 100))
      /\ paging d3 = (Some (PInt 3), Some (PInt 50)))
  /\
  (exists w' new,
      get_trades (scripted [page_response 100; page_response 0] error_page)
        sample_client no_match no_match same_string unit no_date
        None None None None None None 250 no_history
      = (Ret (PList (List.concat [repeat sample_trade 100])), w')
      /\ sent w' = (new ++ sent no_history)%list
      /\ List.length new = 2%nat)
  /\
  (exists w' new,
      get_trades (scripted [page_response 100] error_page)
        sample_client no_match no_match same_string unit no_date
        None None None None None None 250 no_history
      = (Ret PNone, w')
      /\ sent w' = (new ++ sent no_history)%list
      /\ List.length new = 2%nat).
Proof.
  split; [|split].
  - apply (proj1 (get_trades_250
                    (scripted [page_response 100; page_response 100; page_response 50]
                       error_page)
                    sample_client no_match no_match same_string unit no_date
                    None None None None None None no_history I I)).
    + apply repeat_length.
    + apply repeat_length.
    + apply repeat_length.
    + apply scripted_page. reflexivity.
    + apply scripted_page. reflexivity.
    + apply scripted_page. reflexivity.
  - apply (proj2 (get_trades_250
                    (scripted [page_response 100; page_response 0] error_page)
                    sample_client no_match no_match same_string unit no_date
                    None None None None None None no_history I I)
             [repeat sample_trade 100]).
    + simpl. lia.
    + constructor; [discriminate | constructor].
    + intros i l Hi. destruct i as [|i].
      * injection Hi as <-. apply scripted_page. reflexivity.
      * destruct i; discriminate.
    + apply scripted_page. reflexivity.
  - apply (proj2 (get_trades_250
                    (scripted [page_response 100] error_page)
                    sample_client no_match no_match same_string unit no_date
                    None None None None None None no_history I I)
             [repeat sample_trade 100]).
    + simpl. lia.
    + constructor; [discriminate | constructor].
    + intros i l Hi. destruct i as [|i].
      * injection Hi as <-. apply scripted_page. reflexivity.
      * destruct i; discriminate.
    + apply scripted_reply. reflexivity.
Defined.

(** An error whose body is null. *)
Lemma scalar_error_body_raises_witness :
  __handle_bad_http_response sample_client null_error
    (message "Unable to query trades" []) true no_history
  = (Raise (TypeError "argument is not iterable"), no_history).
Proof.
  apply (scalar_error_body_raises sample_client null_error
           (message "Unable to query trades" []) true no_history PNone).
  - reflexivity.
  - reflexivity.
Defined.

(** A full first page, then HTTP 500 with the body null. *)
Lemma failing_page_raises_witness :
  exists w' new,
    get_trades (scripted [page_response 100] null_error) sample_client
      no_match no_match same_string unit no_date
      None None None None None None 250 no_history
    = (Raise (TypeError "argument is not iterable"), w')
    /\ sent w' = (new ++ sent no_history)%list
    /\ List.length new = 2%nat.
Proof.
  apply (failing_page_raises (scripted [page_response 100] null_error) sample_client
           no_match no_match same_string unit no_date
           None None None None None None no_history [repeat sample_trade 100]).
  - exact I.
  - exact I.
  - simpl. lia.
  - constructor; [discriminate | constructor].
  - intros i l Hi. destruct i as [|i].
    + injection Hi as <-. apply scripted_page. reflexivity.
    + destruct i; discriminate Hi.
  - apply scripted_reply. reflexivity.
Defined.

Example null_error_page_raises :
  fst (get_trades (scripted [] null_error) sample_client no_match no_match
         same_string unit no_date None None None None None None 250 no_history)
  = Raise (TypeError "argument is not iterable").
Proof. vm_compute. reflexivity. Qed.

(** The tags a, b at location 1 with ACCT1: the list at 1 grows, the
    executions at 0 and the list at 2 stay. *)
Lemma tags_argument_is_mutated_witness :
  let h' := snd (fst (import_executions (scripted [] error_page) sample_client
                        0%nat (Some "ACCT1") (Some 1%nat) false false 3 false 3 15
                        sample_heap no_history)) in
  h' 1%nat = PList [PStr "a"; PStr "b"; PStr "ACCT1"]
  /\ h' 0%nat = sample_heap 0%nat
  /\ h' 2%nat = sample_heap 2%nat.
Proof.
  intros h'.
  destruct (tags_argument_is_mutated (scripted [] error_page) sample_client
              0%nat (Some "ACCT1") (Some 1%nat) false false 3 false 3 15
              sample_heap no_history sample_execution []
              (Some [PStr "a"; PStr "b"]) eq_refl eq_refl) as (Habsent & _).
  destruct Habsent as (H1 & Hrest).
  - simpl. intros [H|[H|[]]]; discriminate.
  - split; [exact H1|]. split; apply Hrest; discriminate.
Defined.

(** A JSON error object, and a page that is not JSON. *)
Lemma failure_reason_logged_witness :
  (exists w',
      __handle_bad_http_response sample_client busy_response
        (message "Unable to import executions" []) false no_history = (Ret tt, w')
      /\ In (server_error_logged (PStr "Import in progress")) (log w')
      /\ sent w' = sent no_history)
  /\
  (exists w',
      __handle_bad_http_response sample_client error_page
        (message "Unable to import executions" []) false no_history = (Ret tt, w')
      /\ In (server_error_logged (PStr "<html>Bad Gateway</html>")) (log w')
      /\ sent w' = sent no_history).
Proof.
  split.
  - apply (failure_reason_logged sample_client busy_response
             (message "Unable to import executions" []) false no_history).
    right. eexists. reflexivity.
  - apply (failure_reason_logged sample_client error_page
             (message "Unable to import executions" []) false no_history).
    left. reflexivity.
Defined.



(** * More sample inputs *)

(** queued, processing, succeeded: the payload, after three queries and
    two sleeps. *)
Lemma succeeded_import_payload_witness :
  exists d w',
    wait_for_import
      (scripted [status_response "queued"; status_response "processing"]
         (status_response "succeeded"))
      sample_client 3 15 no_history = (Ret (PDict d), w')
    /\ last_answer
         (scripted [status_response "queued"; status_response "processing"]
            (status_response "succeeded")) w' (PDict d)
    /\ dict_get "status" d = Some (PStr "succeeded")
    /\ sent w' = (repeat (status_query sample_client) 3 ++ sent no_history)%list
    /\ slept w' = (repeat 15 2 ++ slept no_history)%list.
Proof.
  apply (succeeded_import_payload
           (scripted [status_response "queued"; status_response "processing"]
              (status_response "succeeded"))
           sample_client 3 15 no_history 2).
  - lia.
  - simpl. lia.
  - intros i Hi. apply scripted_reply.
    destruct i as [|[|i]]; [reflexivity | reflexivity | lia].
  - apply scripted_reply. reflexivity.
Defined.


(** A submission answered 200 with the status ready. *)
Lemma rejected_import_not_retried_witness :
  exists w',
    __import_executions (scripted [status_response "ready"] error_page) sample_client
      (PDict [("executions", PList [sample_execution])]) 3 true 3 15 no_history
    = (Ret PNone, w')
    /\ sent w' = import_post sample_client (PDict [("executions", PList [sample_execution])])
                 :: sent no_history
    /\ slept w' = slept no_history.
Proof.
  apply (rejected_import_not_retried (scripted [status_response "ready"] error_page)
           sample_client (PDict [("executions", PList [sample_execution])]) 3 true 3 15
           no_history).
  - lia.
  - reflexivity.
Defined.

Lemma import_without_budget_witness :
  __import_executions (scripted [] error_page) sample_client
    (PDict [("executions", PList [sample_execution])]) 0 true 3 15 no_history
  = (Ret PNone,
     {| sent := sent no_history; log := gave_up 0 :: log no_history;
        slept := slept no_history |}).
Proof.
  apply (import_without_budget (scripted [] error_page) sample_client
           (PDict [("executions", PList [sample_execution])]) 0 true 3 15 no_history).
  lia.
Defined.

(** A side that the pattern does not match. *)
Lemma invalid_filter_rejected_witness :
  exists msg,
    get_trades (scripted [] error_page) sample_client no_match no_match same_string
      unit no_date None None (Some "sideways") None None None 25 no_history
    = (Raise (ValueError msg), no_history).
Proof.
  apply (invalid_filter_rejected (scripted [] error_page) sample_client no_match no_match
           same_string unit no_date None None (Some "sideways") None None None 25
           no_history).
  left. exists "sideways". split; reflexivity.
Defined.

(** A 403 for a client that acts for a user. *)
Lemma permission_hint_logged_witness :
  hd_error (log (snd (__handle_bad_http_response delegate_client forbidden
                        (message "Unable to query users" []) true no_history)))
  = Some no_permission.
Proof.
  apply (permission_hint_logged delegate_client forbidden
           (message "Unable to query users" []) true no_history).
  - right. eexists. reflexivity.
  - split; reflexivity.
Defined.

(** The runs the theorems speak of, evaluated. *)

(** A failed update raises while it builds its message. *)
Example failed_update_raises :
  fst (update_trade (scripted [] error_page) sample_client (IdInt 7)
         (PStr "stopped out") PNone PNone PNone no_history)
  = Raise (TypeError "not all arguments converted during string formatting").
Proof. vm_compute. reflexivity. Qed.

(** An executions entry that is null. *)
Example null_executions_raise :
  fst (get_trade_executions
         (scripted [json_response 200 (PDict [("executions", PNone)])] error_page)
         sample_client (IdInt 7) no_history)
  = Raise (TypeError "object has no len()").
Proof. vm_compute. reflexivity. Qed.

(** A trade creation answered 200 instead of 201. *)
Example created_with_200_is_none :
  fst (create_trade (scripted [json_response 200 (PDict [("id", PInt 7)])] error_page)
         sample_client "SPY" PNone PNone (PBool false) (PList []) false no_history)
  = Ret PNone.
Proof. vm_compute. reflexivity. Qed.

(** 250 trades asked of a server that always has a full page: three
    queries, for 100, 100 and 50 trades. *)
Example three_pages_for_250 :
  let w' := snd (get_trades (scripted [] (page_response 100)) sample_client
                   no_match no_match same_string unit no_date
                   None None None None None None 250 no_history) in
  map (fun q => match req_params q with
                | Some (PDict d) => paging d
                | _ => (None, None)
                end) (sent w')
  = [(Some (PInt 3), Some (PInt 50)); (Some (PInt 2), Some (PInt 100));
     (Some (PInt 1), Some (PInt 100))].
Proof. vm_compute. reflexivity. Qed.

(** The page count where the float division rounds: one more than the
    ceiling of the exact quotient. *)
Example page_count_beyond_2_53 :
  total_pages 55579231646077100 = Ret 555792316460772
  /\ (55579231646077100 + 99) / 100 = 555792316460771.
Proof. vm_compute. split; reflexivity. Qed.

(** An int too large for a float. *)
Example page_count_overflows :
  total_pages (2 ^ 1024) = Raise (OverflowError "int too large to convert to float").
Proof. vm_compute. reflexivity. Qed.
